(** * Catalyst Center native-API client: a shallow embedding

    Source: [native-api-simple-example/native_api_simple.py].

    The script talks to a controller over HTTP, sleeps between polls and
    reads one line from the console.  The embedding keeps that shape:

    - Python objects that come out of [response.json()] and [yaml.safe_load]
      are values of [pyobj]; a [dict] is a [gmap string pyobj];
    - a Python function that may raise is a function into [result];
    - a Python function that talks to the outside world is a computation in
      the state-and-exception monad [M W]; for the real client the state [W]
      is [World]: the controller, a wall clock in milliseconds, the log of
      HTTP exchanges and the fields of the one [CatalystCenterAPI] object;
    - [print] has no counterpart: console output is not modelled. *)

From Stdlib Require Import ZArith String Ascii List Bool Lia.
From Stdlib Require Import Floats.SpecFloat.
From stdpp Require Import base option list gmap strings fin_maps.

Set Warnings "-register-all".
Open Scope string_scope.
Open Scope Z_scope.

(** ** Python values *)

Module Py.

(** What [json.loads] / [yaml.safe_load] can produce: [None], [bool], [int],
    [float] (IEEE 754 binary64), [str], [list], [dict] with [str] keys. *)
Inductive pyobj : Type :=
| PyNone
| PyBool (b : bool)
| PyInt (z : Z)
| PyFloat (f : spec_float)
| PyStr (s : string)
| PyList (l : list pyobj)
| PyDict (m : gmap string pyobj).

(** The exceptions the script can meet.  [KeyboardInterrupt] derives from
    [BaseException] only; everything else derives from [Exception].  The
    [Req*], [HTTPError] and [JSONDecodeError] constructors are the
    [requests.exceptions] classes, all subclasses of [RequestException]. *)
Inductive exn : Type :=
| KeyboardInterrupt
| EOFError
| KeyError
| TypeError
| AttributeError
| ValueError
| YAMLError
| OSError
| ReqTimeout
| ReqConnectionError
| HTTPError
| JSONDecodeError
| RequestException.

Definition is_Exception (e : exn) : bool :=
  match e with KeyboardInterrupt => false | _ => true end.

Definition is_RequestException (e : exn) : bool :=
  match e with
  | ReqTimeout | ReqConnectionError | HTTPError | JSONDecodeError
  | RequestException => true
  | _ => false
  end.

(** A call either returns or raises. *)
Inductive result (A : Type) : Type :=
| Returned (a : A)
| Raised (e : exn).
Arguments Returned {A} a.
Arguments Raised {A} e.

#[global] Instance result_ret : MRet result := @Returned.
#[global] Instance result_bind : MBind result := fun A B f r =>
  match r with Returned a => f a | Raised e => Raised e end.

(** [bool(v)] *)
Definition float_is_zero (f : spec_float) : bool :=
  match f with S754_zero _ => true | _ => false end.

Definition truthy (v : pyobj) : bool :=
  match v with
  | PyNone => false
  | PyBool b => b
  | PyInt z => negb (z =? 0)
  | PyFloat f => negb (float_is_zero f)
  | PyStr s => negb (s =? "")%string
  | PyList l => match l with [] => false | _ => true end
  | PyDict m => negb (Nat.eqb (size m) 0)
  end.

(** [v is None] *)
Definition is_None (v : pyobj) : bool :=
  match v with PyNone => true | _ => false end.

(** [v == s] for a [str] literal [s]: only a [str] equals a [str]. *)
Definition eq_str (v : pyobj) (s : string) : bool :=
  match v with PyStr t => (t =? s)%string | _ => false end.

(** [v == False]: [bool] is a subclass of [int], so [0] and [0.0] (of either
    sign) are equal to [False] as well. *)
Definition eq_False (v : pyobj) : bool :=
  match v with
  | PyBool b => negb b
  | PyInt z => z =? 0
  | PyFloat f => float_is_zero f
  | _ => false
  end.

(** [isinstance(v, dict)] *)
Definition is_dict (v : pyobj) : bool :=
  match v with PyDict _ => true | _ => false end.

(** [v.get(k, d)]: only a [dict] has [get]. *)
Definition get (v : pyobj) (k : string) (d : pyobj) : result pyobj :=
  match v with
  | PyDict m => Returned (default d (m !! k))
  | _ => Raised AttributeError
  end.

(** [v[k]] for a [str] key [k]. *)
Definition item (v : pyobj) (k : string) : result pyobj :=
  match v with
  | PyDict m => match m !! k with Some x => Returned x | None => Raised KeyError end
  | _ => Raised TypeError
  end.

(** [k in v] for a [str] [k]: key membership on a [dict], element membership
    on a [list], substring test on a [str]. *)
Fixpoint substring_at (k s : string) : bool :=
  String.prefix k s ||
  match s with EmptyString => false | String _ s' => substring_at k s' end.

Definition contains (v : pyobj) (k : string) : result bool :=
  match v with
  | PyDict m => Returned (bool_decide (is_Some (m !! k)))
  | PyList l => Returned (existsb (fun x => eq_str x k) l)
  | PyStr s => Returned (substring_at k s)
  | _ => Raised TypeError
  end.

Fixpoint chars (s : string) : list pyobj :=
  match s with
  | EmptyString => []
  | String c s' => PyStr (String c EmptyString) :: chars s'
  end.

(** [for x in v]: the items of a [list], the keys of a [dict] (in the
    order of the map, not of insertion), the characters of a [str]. *)
Definition iter (v : pyobj) : result (list pyobj) :=
  match v with
  | PyList l => Returned l
  | PyDict m => Returned (PyStr <$> (map_to_list m).*1)
  | PyStr s => Returned (chars s)
  | _ => Raised TypeError
  end.

(** [v[:8]], evaluated inside the progress messages: defined on sequences
    only.  The value is printed and dropped, so only definedness is kept. *)
Definition slice_prefix (v : pyobj) : result unit :=
  match v with
  | PyStr _ | PyList _ => Returned tt
  | _ => Raised TypeError
  end.

(** [s.split(sep)] for a one-character separator. *)
Fixpoint split (sep : ascii) (s : string) : list string :=
  match s with
  | EmptyString => [EmptyString]
  | String c s' =>
      if Ascii.eqb c sep then EmptyString :: split sep s'
      else match split sep s' with
           | hd :: tl => String c hd :: tl
           | [] => [String c EmptyString]
           end
  end.

(** [s.rsplit(sep, 1)]: cut at the last separator, if there is one. *)
Fixpoint rcut (sep : ascii) (s : string) : option (string * string) :=
  match s with
  | EmptyString => None
  | String c s' =>
      match rcut sep s' with
      | Some (h, t) => Some (String c h, t)
      | None => if Ascii.eqb c sep then Some (EmptyString, s') else None
      end
  end.

Definition rsplit1 (sep : ascii) (s : string) : list string :=
  match rcut sep s with Some (h, t) => [h; t] | None => [s] end.

(** [s.count(sep)] *)
Fixpoint count_char (sep : ascii) (s : string) : Z :=
  match s with
  | EmptyString => 0
  | String c s' => (if Ascii.eqb c sep then 1 else 0) + count_char sep s'
  end.

(** [int(s)] on ASCII text: surrounding blanks, an optional sign, then
    decimal digits that single underscores may separate. *)
Definition is_space (c : ascii) : bool :=
  let n := nat_of_ascii c in
  (Nat.eqb n 32 || (Nat.leb 9 n && Nat.leb n 13)
   || (Nat.leb 28 n && Nat.leb n 31))%bool.

Fixpoint lstrip (s : string) : string :=
  match s with
  | String c s' => if is_space c then lstrip s' else s
  | EmptyString => EmptyString
  end.

Fixpoint rstrip (s : string) : string :=
  match s with
  | EmptyString => EmptyString
  | String c s' =>
      match rstrip s' with
      | EmptyString => if is_space c then EmptyString else String c EmptyString
      | r => String c r
      end
  end.

Definition digit_of (c : ascii) : option Z :=
  let n := nat_of_ascii c in
  if (Nat.leb 48 n && Nat.leb n 57)%bool then Some (Z.of_nat n - 48) else None.

(** [digits acc after_digit s]: [after_digit] says whether the previous
    character was a digit, the only place where an underscore may stand. *)
Fixpoint digits (acc : Z) (after_digit : bool) (s : string) : option Z :=
  match s with
  | EmptyString => if after_digit then Some acc else None
  | String c s' =>
      match digit_of c with
      | Some d => digits (10 * acc + d) true s'
      | None =>
          if (Ascii.eqb c "_" && after_digit)%bool then
            match s' with
            | EmptyString => None
            | String c' _ =>
                match digit_of c' with
                | Some _ => digits acc false s'
                | None => None
                end
            end
          else None
      end
  end.

Definition int_of_str (s : string) : result Z :=
  let body := rstrip (lstrip s) in
  let parsed :=
    match body with
    | String "-" r => Z.opp <$> digits 0 false r
    | String "+" r => digits 0 false r
    | _ => digits 0 false body
    end in
  match parsed with Some z => Returned z | None => Raised ValueError end.

End Py.
Export Py.

(** ** Computations: state and exceptions *)

Definition M (W A : Type) : Type := W -> result A * W.

Section Monad.
Context {W : Type}.

Definition ret {A} (a : A) : M W A := fun w => (Returned a, w).

Definition raise {A} (e : exn) : M W A := fun w => (Raised e, w).

Definition bind {A B} (m : M W A) (k : A -> M W B) : M W B := fun w =>
  match m w with
  | (Returned a, w') => k a w'
  | (Raised e, w') => (Raised e, w')
  end.

(** A pure step that may raise. *)
Definition lift {A} (r : result A) : M W A := fun w => (r, w).

(** [try: m  except <classes>: h]: [handler e] is [Some h] when one of the
    [except] clauses matches [e]. *)
Definition try_except {A} (m : M W A) (handler : exn -> option (M W A))
  : M W A := fun w =>
  match m w with
  | (Returned a, w') => (Returned a, w')
  | (Raised e, w') =>
      match handler e with
      | Some h => h w'
      | None => (Raised e, w')
      end
  end.

(** [for x in xs: body], where the body may leave the loop early: with
    [Some b] for [return b] (or for [break], with [b = tt]). *)
Fixpoint for_each {A B} (xs : list A) (body : A -> M W (option B))
  : M W (option B) :=
  match xs with
  | [] => ret None
  | x :: xs' =>
      bind (body x) (fun r =>
        match r with
        | Some b => ret (Some b)
        | None => for_each xs' body
        end)
  end.
End Monad.

#[global] Instance M_ret {W} : MRet (M W) := @ret W.
#[global] Instance M_bind {W} : MBind (M W) := fun A B k m => bind m k.

(** [except Exception] *)
Definition except_Exception {W A} (h : M W A) (e : exn) : option (M W A) :=
  if is_Exception e then Some h else None.

(** ** HTTP *)

Inductive http_method : Type := GET | POST | DELETE.

(** The arguments of one [requests.get] / [.post] / [.delete] call. *)
Record request : Type := Request {
  rq_method : http_method;
  rq_url : string;
  rq_headers : option (gmap string pyobj);
  rq_auth : option (pyobj * pyobj);
  rq_json : option pyobj;
  rq_verify : bool;
  rq_timeout : Z
}.

(** [resp_json] is [None] when the body is not JSON, in which case
    [response.json()] raises [requests.exceptions.JSONDecodeError]. *)
Record response : Type := Response {
  status_code : Z;
  text : string;
  resp_json : option pyobj
}.

(** What the network does with a request: time passes (milliseconds), then
    the call returns a response or raises. *)
Record reply : Type := Reply {
  elapsed : N;
  outcome : result response
}.

Definition response_json (r : response) : result pyobj :=
  match resp_json r with
  | Some v => Returned v
  | None => Raised JSONDecodeError
  end.

(** [response.raise_for_status()] *)
Definition raise_for_status (r : response) : result unit :=
  if ((400 <=? status_code r) && (status_code r <? 600))%bool
  then Raised HTTPError else Returned tt.

(** The object built by [CatalystCenterAPI(base_url, username, password)]. *)
Record CatalystCenterAPI : Type := Client {
  base_url : string;
  username : pyobj;
  password : pyobj;
  token : pyobj;
  headers : gmap string pyobj
}.

Definition new_client (base_url : string) (username password : pyobj)
  : CatalystCenterAPI :=
  {| base_url := base_url; username := username; password := password;
     token := PyNone;
     headers := {[ "Content-Type" := PyStr "application/json" ]} |}.

(** ** The outside world

    Everything the script does not control: the network with the controller
    behind it, the console and the file system.  [serve e now rq] is what
    happens to request [rq] sent at time [now]; [read_line] is [input()];
    [read_yaml path] is the attempt to open and parse a configuration file;
    [script_dir_join p] is [Path(__file__).parent / p]; [repr v] is the text
    that [str(v)] gives for a value that is not a [str]. *)

Inductive file_outcome : Type :=
| Absent                      (* [yaml_path.exists()] is false *)
| Unreadable (e : exn)        (* [open] or [safe_load] raises [e] *)
| Parsed (config : pyobj).    (* [yaml.safe_load(f)] *)

Class Outside (E : Type) : Type := {
  serve : E -> Z -> request -> E * reply;
  read_line : E -> string -> E * result string;
  read_yaml : E -> string -> file_outcome;
  script_dir_join : string -> string;
  repr : pyobj -> string
}.

Record World (E : Type) : Type := MkWorld {
  outside : E;
  clock : Z;                          (* milliseconds *)
  log : list (request * reply);       (* exchanges, oldest first *)
  self : CatalystCenterAPI
}.
Arguments MkWorld {E} _ _ _ _.
Arguments outside {E} _.
Arguments clock {E} _.
Arguments log {E} _.
Arguments self {E} _.

Section Runtime.
Context {E : Type} `{Outside E}.

(** [str(v)], as used by f-strings. *)
Definition str (v : pyobj) : string :=
  match v with PyStr s => s | _ => repr v end.

(** One call into [requests]. *)
Definition send (rq : request) : M (World E) response := fun w =>
  let '(e', rp) := serve (outside w) (clock w) rq in
  (outcome rp,
   {| outside := e';
      clock := clock w + Z.of_N (elapsed rp);
      log := log w ++ [(rq, rp)];
      self := self w |}).

(** [requests.get(url, headers=headers, verify=verify, timeout=timeout)] *)
Definition requests_get (url : string) (hdrs : gmap string pyobj)
    (verify : bool) (timeout : Z) : M (World E) response :=
  send {| rq_method := GET; rq_url := url; rq_headers := Some hdrs;
          rq_auth := None; rq_json := None;
          rq_verify := verify; rq_timeout := timeout |}.

(** [requests.delete(url, headers=headers, verify=verify, timeout=timeout)] *)
Definition requests_delete (url : string) (hdrs : gmap string pyobj)
    (verify : bool) (timeout : Z) : M (World E) response :=
  send {| rq_method := DELETE; rq_url := url; rq_headers := Some hdrs;
          rq_auth := None; rq_json := None;
          rq_verify := verify; rq_timeout := timeout |}.

(** [requests.post(url, headers=headers, json=payload, verify=verify,
    timeout=timeout)] *)
Definition requests_post (url : string) (hdrs : gmap string pyobj)
    (payload : pyobj) (verify : bool) (timeout : Z) : M (World E) response :=
  send {| rq_method := POST; rq_url := url; rq_headers := Some hdrs;
          rq_auth := None; rq_json := Some payload;
          rq_verify := verify; rq_timeout := timeout |}.

(** [requests.post(url, auth=auth, verify=verify, timeout=timeout)] *)
Definition requests_post_auth (url : string) (auth : pyobj * pyobj)
    (verify : bool) (timeout : Z) : M (World E) response :=
  send {| rq_method := POST; rq_url := url; rq_headers := None;
          rq_auth := Some auth; rq_json := None;
          rq_verify := verify; rq_timeout := timeout |}.

(** [time.time()], in milliseconds. *)
Definition time_time : M (World E) Z := fun w => (Returned (clock w), w).

(** [time.sleep(ms / 1000)]: the clock moves by exactly that much.  An
    interruption of the script is delivered at its next request or prompt,
    not in the middle of a sleep. *)
Definition time_sleep (ms : Z) : M (World E) unit := fun w =>
  (Returned tt,
   {| outside := outside w; clock := clock w + ms;
      log := log w; self := self w |}).

(** [input(prompt)] *)
Definition builtin_input (prompt : string) : M (World E) string := fun w =>
  let '(e', r) := read_line (outside w) prompt in
  (r, {| outside := e'; clock := clock w; log := log w; self := self w |}).

Definition get_self : M (World E) CatalystCenterAPI := fun w =>
  (Returned (self w), w).

Definition set_self (me : CatalystCenterAPI) : M (World E) unit := fun w =>
  (Returned tt,
   {| outside := outside w; clock := clock w; log := log w; self := me |}).
End Runtime.

(** ** class CatalystCenterAPI *)

(** Seconds between two polls of [wait_for_task]. *)
Definition check_interval : Z := 10.

(** The [if response.status_code == 200:] block of [wait_for_task], up to the
    point where the task is found to be still in progress: [Some b] stands
    for [return b], [None] for falling through to the sleep. *)
Definition check_task (task_data : pyobj) : result (option bool) :=
  status ← get task_data "status" (PyStr "");
  if eq_str status "SUCCESS" then
    bapi_error ← get task_data "bapiError" PyNone;
    if truthy bapi_error then mret (Some false)
    else
      sync_response ← get task_data "bapiSyncResponseJson" (PyDict ∅);
      if is_dict sync_response then
        sync_status ← get sync_response "status" PyNone;
        if (eq_str sync_status "false" || eq_False sync_status)%bool
        then mret (Some false)
        else mret (Some true)
      else mret (Some true)
  else if (eq_str status "FAILURE" || eq_str status "FAILED")%bool then
    mret (Some false)
  else
    is_error ← get task_data "isError" PyNone;
    if truthy is_error then mret (Some false)
    else
      end_time ← get task_data "endTime" PyNone;
      end_time_epoch ← get task_data "endTimeEpoch" PyNone;
      if (truthy end_time || truthy end_time_epoch)%bool then
        if (eq_str status "SUCCESS" || negb (truthy is_error))%bool
        then mret (Some true)
        else mret (Some false)
      else mret None.

(** The most polls a wait of [timeout] seconds can make: every iteration
    that does not return sleeps [check_interval] seconds. *)
Definition max_polls (timeout : Z) : nat :=
  Z.to_nat ((timeout + check_interval - 1) / check_interval).

Section Client.
Context {E : Type} `{Outside E}.
Abbreviation Run := (M (World E)).

(** One pass through the body of the [while] loop of [wait_for_task]:
    [Some b] for [return b], [None] to go round again. *)
Definition poll (url : string) : Run (option bool) :=
  me ← get_self;
  try_except
    (response ← requests_get url (headers me) false 30;
     if status_code response =? 404 then mret (Some true)
     else if status_code response =? 200 then
       task_data ← lift (response_json response);
       verdict ← lift (check_task task_data);
       match verdict with
       | Some b => mret (Some b)
       | None => time_sleep (check_interval * 1000);; mret None
       end
     else time_sleep (check_interval * 1000);; mret None)
    (fun e =>
       match e with
       | ReqTimeout => Some (time_sleep (check_interval * 1000);; mret None)
       | ReqConnectionError =>
           Some (time_sleep (check_interval * 1000);; mret None)
       | _ => except_Exception (time_sleep (check_interval * 1000);; mret None) e
       end).

(** [while time.time() - start_time < timeout: ...] followed by the
    timeout exit.  The loop runs on [fuel]; [None] is returned only when
    the fuel runs out, which [wait_for_task] rules out by handing over
    more than [max_polls timeout] (lemma [wait_loop_fuel]). *)
Fixpoint wait_loop (fuel : nat) (url : string) (start_time timeout : Z)
  : Run (option bool) :=
  match fuel with
  | O => mret None
  | S fuel' =>
      now ← time_time;
      if now - start_time <? timeout * 1000 then
        r ← poll url;
        match r with
        | Some b => mret (Some b)
        | None => wait_loop fuel' url start_time timeout
        end
      else mret (Some true)   (* "Return True to allow process to continue" *)
  end.

Definition task_status_url (me : CatalystCenterAPI) (task_id task_url : pyobj)
  : result string :=
  if truthy task_url then
    match task_url with
    | PyStr u =>
        Returned (if negb (String.prefix "http" u) then base_url me ++ u else u)
    | _ => Raised AttributeError      (* no [startswith] *)
    end
  else
    Returned (base_url me
              ++ "/dna/intent/api/v1/dnacaap/management/execution-status/"
              ++ str task_id).

Definition wait_for_task (task_id task_url : pyobj) (timeout : Z) : Run bool :=
  me ← get_self;
  url ← lift (task_status_url me task_id task_url);
  start_time ← time_time;
  r ← wait_loop (S (max_polls timeout)) url start_time timeout;
  mret (default true r).

Definition authenticate : Run pyobj :=
  me ← get_self;
  let auth_url := base_url me ++ "/dna/system/api/v1/auth/token" in
  response ← requests_post_auth auth_url (username me, password me) false 30;
  lift (raise_for_status response);;
  body ← lift (response_json response);
  tok ← lift (item body "Token");
  me ← get_self;
  set_self {| base_url := base_url me; username := username me;
              password := password me; token := tok;
              headers := <["X-Auth-Token" := tok]> (headers me) |};;
  mret tok.

(** The [for site in sites:] loop of [get_site_by_name]. *)
Fixpoint first_site_named (site_name : string) (sites : list pyobj)
  : result pyobj :=
  match sites with
  | [] => Returned PyNone
  | site :: rest =>
      name ← item site "name";
      if eq_str name site_name then Returned site
      else first_site_named site_name rest
  end.

Definition get_site_by_name (site_name : string) : Run pyobj :=
  me ← get_self;
  let url := base_url me ++ "/dna/intent/api/v1/site" in
  response ← requests_get url (headers me) false 30;
  body ← lift (response_json response);
  sites ← lift (item body "response");
  sites ← lift (iter sites);
  lift (first_site_named site_name sites).

(** [hierarchy.split('/')]: only a [str] has [split]. *)
Definition split_hierarchy (hierarchy : pyobj) : result (list string) :=
  match hierarchy with
  | PyStr h => Returned (split "/" h)
  | _ => Raised AttributeError
  end.

(** [len(parts) >= 2 and parts[-2] == parent_name] *)
Definition direct_parent_is (parts : list string) (parent_name : string)
  : bool :=
  (Nat.leb 2 (length parts)
   && match parts !! (length parts - 2)%nat with
      | Some p => (p =? parent_name)%string
      | None => false
      end)%bool.

(** The [for site in sites:] loop of [get_site_by_name_and_parent]. *)
Fixpoint first_site_under (site_name parent_name : string)
    (sites : list pyobj) : result pyobj :=
  match sites with
  | [] => Returned PyNone
  | site :: rest =>
      name ← item site "name";
      if eq_str name site_name then
        hierarchy ← get site "siteNameHierarchy" (PyStr "");
        parts ← split_hierarchy hierarchy;
        if direct_parent_is parts parent_name then Returned site
        else first_site_under site_name parent_name rest
      else first_site_under site_name parent_name rest
  end.

Definition get_site_by_name_and_parent (site_name parent_name : string)
  : Run pyobj :=
  me ← get_self;
  let url := base_url me ++ "/dna/intent/api/v1/site" in
  response ← requests_get url (headers me) false 30;
  body ← lift (response_json response);
  sites ← lift (item body "response");
  sites ← lift (iter sites);
  lift (first_site_under site_name parent_name sites).

(** The [for pool in pools:] loop of [get_global_pool_by_name]. *)
Fixpoint first_pool_named (pool_name : string) (pools : list pyobj)
  : result pyobj :=
  match pools with
  | [] => Returned PyNone
  | pool :: rest =>
      name ← get pool "ipPoolName" PyNone;
      if eq_str name pool_name then Returned pool
      else first_pool_named pool_name rest
  end.

Definition get_global_pool_by_name (pool_name : string) : Run pyobj :=
  me ← get_self;
  let url := base_url me ++ "/dna/intent/api/v1/global-pool" in
  response ← requests_get url (headers me) false 30;
  body ← lift (response_json response);
  pools ← lift (item body "response");
  pools ← lift (iter pools);
  lift (first_pool_named pool_name pools).

(** The [for res in reservations:] loop of [get_reservation_by_name]. *)
Fixpoint first_reservation_named (reservation_name : string)
    (reservations : list pyobj) : result pyobj :=
  match reservations with
  | [] => Returned PyNone
  | res :: rest =>
      name ← get res "groupName" PyNone;
      if eq_str name reservation_name then Returned res
      else first_reservation_named reservation_name rest
  end.

Definition get_reservation_by_name (site_name reservation_name : string)
  : Run pyobj :=
  site ← get_site_by_name site_name;
  if negb (truthy site) then mret PyNone
  else
    site_id ← lift (item site "id");
    try_except
      (me ← get_self;
       let url := base_url me
                  ++ "/dna/intent/api/v1/reserve-ip-subpool?siteId="
                  ++ str site_id in
       response ← requests_get url (headers me) false 30;
       if status_code response =? 200 then
         body ← lift (response_json response);
         reservations ← lift (get body "response" (PyList []));
         reservations ← lift (iter reservations);
         lift (first_reservation_named reservation_name reservations)
       else mret PyNone)
      (except_Exception (mret PyNone)).

(** [subnet, prefix = cidr.split('/')] and the [payload] literal of
    [create_ip_pool]. *)
Definition pool_payload (name cidr : string) : result pyobj :=
  '(subnet, prefix) ←
    match split "/" cidr with
    | [subnet; prefix] => Returned (subnet, prefix)
    | _ => Raised ValueError
    end;
  prefix_length ← int_of_str prefix;
  mret (PyDict {[
    "name" := PyStr name;
    "poolType" := PyStr "Generic";
    "addressSpace" := PyDict {[
      "subnet" := PyStr subnet;
      "prefixLength" := PyInt prefix_length ]} ]}).

(** [create_ip_pool] from the answer to its POST on. *)
Definition pool_posted (name : string) (response : response) : Run pyobj :=
  lift (raise_for_status response);;
  result ← lift (response_json response);
  task_id ← lift (get result "executionId" PyNone);
  task_url ← lift (get result "executionStatusUrl" PyNone);
  if truthy task_id then
    lift (slice_prefix task_id);;
    ok ← wait_for_task task_id task_url 600;
    if ok : bool then
      time_sleep 5000;;
      created_pool ← get_global_pool_by_name name;
      if truthy created_pool then mret created_pool else mret PyNone
    else mret PyNone
  else if truthy task_url then
    time_sleep 2000;;
    me ← get_self;
    let status_url := base_url me ++ str task_url in
    status_resp ← requests_get status_url (headers me) false 30;
    status ← lift (response_json status_resp);
    st ← lift (get status "status" PyNone);
    if eq_str st "SUCCESS" then
      time_sleep 3000;;
      get_global_pool_by_name name
    else mret PyNone
  else mret result.

Definition create_ip_pool (name cidr : string) : Run pyobj :=
  existing ← get_global_pool_by_name name;
  if truthy existing then mret existing
  else
    payload ← lift (pool_payload name cidr);
    me ← get_self;
    let url := base_url me ++ "/dna/intent/api/v1/global-pool" in
    response ← requests_post url (headers me) payload false 30;
    pool_posted name response.

(** What every [create_*] does with the answer to its POST, pool and
      reservation apart: wait for the task if there is one, then pause
      [pause] milliseconds and hand the answer back. *)
Definition await_creation (result : pyobj) (pause : Z) : Run pyobj :=
  task_id ← lift (get result "executionId" PyNone);
  task_url ← lift (get result "executionStatusUrl" PyNone);
  if truthy task_id then
    lift (slice_prefix task_id);;
    ok ← wait_for_task task_id task_url 600;
    if ok : bool then time_sleep pause;; mret result
    else mret PyNone
  else time_sleep pause;; mret result.

Definition create_area (name parent_name : string) : Run pyobj :=
  existing ← get_site_by_name name;
  if truthy existing then mret existing
  else
    me ← get_self;
    let url := base_url me ++ "/dna/intent/api/v1/site" in
    let payload := PyDict {[
      "type" := PyStr "area";
      "site" := PyDict {[
        "area" := PyDict {[
          "name" := PyStr name;
          "parentName" := PyStr parent_name ]} ]} ]} in
    response ← requests_post url (headers me) payload false 30;
    lift (raise_for_status response);;
    result ← lift (response_json response);
    await_creation result 1000.

Definition create_building (name parent_name : string)
    (latitude longitude : spec_float) (address country : string)
  : Run pyobj :=
  existing ← get_site_by_name name;
  if truthy existing then mret existing
  else
    me ← get_self;
    let url := base_url me ++ "/dna/intent/api/v1/site" in
    let payload := PyDict {[
      "type" := PyStr "building";
      "site" := PyDict {[
        "building" := PyDict {[
          "name" := PyStr name;
          "parentName" := PyStr parent_name;
          "latitude" := PyFloat latitude;
          "longitude" := PyFloat longitude;
          "address" := PyStr address;
          "country" := PyStr country ]} ]} ]} in
    response ← requests_post url (headers me) payload false 30;
    lift (raise_for_status response);;
    result ← lift (response_json response);
    await_creation result 2000.

(** [create_floor] from the POST on: what it does once the floor was not
    found. *)
Definition post_floor (name parent_name : string) (floor_number : Z)
  : Run pyobj :=
  me ← get_self;
  let url := base_url me ++ "/dna/intent/api/v1/site" in
  let payload := PyDict {[
    "type" := PyStr "floor";
    "site" := PyDict {[
      "floor" := PyDict {[
        "name" := PyStr name;
        "parentName" := PyStr parent_name;
        "rfModel" := PyStr "Cubes And Walled Offices";
        "width" := PyInt 100;
        "length" := PyInt 100;
        "height" := PyInt 10;
        "floorNumber" := PyInt floor_number ]} ]} ]} in
  response ← requests_post url (headers me) payload false 30;
  if negb (status_code response =? 202) then mret PyNone
  else
    result ← lift (response_json response);
    await_creation result 1000.

Definition create_floor (name parent_name : string) (floor_number : Z)
  : Run pyobj :=
  existing_floor ← get_site_by_name_and_parent name parent_name;
  if truthy existing_floor then mret existing_floor
  else post_floor name parent_name floor_number.

(** [f"{subnet.rsplit('.', 1)[0]}.1"] *)
Definition gateway_of (subnet : string) : string :=
  match rsplit1 "." subnet with
  | first :: _ => first ++ ".1"
  | [] => ".1"
  end.

Definition reservation_payload (reservation_name : string)
    (parent_cidr : pyobj) (subnet : string) (prefix_length : Z) : pyobj :=
  PyDict {[
    "name" := PyStr reservation_name;
    "type" := PyStr "Generic";
    "ipv4GlobalPool" := parent_cidr;
    "ipv4Prefix" := PyBool true;
    "ipv4PrefixLength" := PyInt prefix_length;
    "ipv4Subnet" := PyStr subnet;
    "ipv4GateWay" := PyStr (gateway_of subnet) ]}.

Definition reserve_ip_subpool (site_name reservation_name parent_pool
    subnet : string) (prefix_length : Z) : Run pyobj :=
  existing ← get_reservation_by_name site_name reservation_name;
  if truthy existing then mret existing
  else
    site ← get_site_by_name site_name;
    if negb (truthy site) then mret PyNone
    else
      site_id ← lift (item site "id");
      parent_pool_obj ← get_global_pool_by_name parent_pool;
      if negb (truthy parent_pool_obj) then mret PyNone
      else
        parent_cidr ← lift (get parent_pool_obj "ipPoolCidr" PyNone);
        me ← get_self;
        let url := base_url me ++ "/dna/intent/api/v1/reserve-ip-subpool/"
                   ++ str site_id in
        let payload :=
          reservation_payload reservation_name parent_cidr subnet
            prefix_length in
        response ← requests_post url (headers me) payload false 30;
        lift (raise_for_status response);;
        result ← lift (response_json response);
        task_id ← lift (get result "executionId" PyNone);
        task_url ← lift (get result "executionStatusUrl" PyNone);
        if truthy task_id then
          lift (slice_prefix task_id);;
          ok ← wait_for_task task_id task_url 600;
          if ok : bool then time_sleep 1000;; mret result
          else mret PyNone
        else if truthy task_url then
          time_sleep 2000;;
          me ← get_self;
          let status_url := base_url me ++ str task_url in
          status_resp ← requests_get status_url (headers me) false 30;
          status ← lift (response_json status_resp);
          st ← lift (get status "status" PyNone);
          if eq_str st "SUCCESS" then time_sleep 1000;; mret result
          else mret PyNone
        else time_sleep 1000;; mret result.

(** [result = response.json() if response.text else {}] *)
Definition json_or_empty (r : response) : result pyobj :=
  if negb (text r =? "")%string then response_json r
  else Returned (PyDict ∅).

(** What every [delete_*] does with the answer to its DELETE: the same
    steps as [await_creation], on [json_or_empty]. *)
Definition await_deletion (response : response) (pause : Z) : Run pyobj :=
  result ← lift (json_or_empty response);
  await_creation result pause.

Definition max_retries : Z := 2.

(** The body of [for attempt in range(max_retries):] in [delete_site]:
    [Some v] for [return v], [None] for the next attempt. *)
Definition delete_site_attempt (url : string) (attempt : Z)
  : Run (option pyobj) :=
  try_except
    (me ← get_self;
     response ← requests_delete url (headers me) false 30;
     if ((status_code response =? 401) && (attempt <? max_retries - 1))%bool
     then authenticate;; mret None
     else if (negb (status_code response =? 202)
              && negb (status_code response =? 200))%bool
     then mret (Some PyNone)
     else result ← await_deletion response 500; mret (Some result))
    (fun e =>
       if is_RequestException e then
         Some (if attempt <? max_retries - 1
               then authenticate;; mret None
               else mret (Some PyNone))
       else None).

Definition delete_site (site_name : string) : Run pyobj :=
  site ← get_site_by_name site_name;
  if negb (truthy site) then mret PyNone
  else
    site_id ← lift (item site "id");
    me ← get_self;
    let url := base_url me ++ "/dna/intent/api/v1/site/" ++ str site_id in
    r ← for_each [0; 1] (delete_site_attempt url);   (* range(max_retries) *)
    mret (default PyNone r).

(** The [for res in reservations:] loop of [delete_reservation]:
    [reservation_id] when the loop ends or breaks. *)
Fixpoint reservation_id_of (reservation_name : string)
    (reservations : list pyobj) : result pyobj :=
  match reservations with
  | [] => Returned PyNone
  | res :: rest =>
      name ← get res "groupName" PyNone;
      if eq_str name reservation_name then get res "id" PyNone
      else reservation_id_of reservation_name rest
  end.

Definition delete_reservation (site_name reservation_name : string)
  : Run pyobj :=
  site ← get_site_by_name site_name;
  if negb (truthy site) then mret PyNone
  else
    site_id ← lift (item site "id");
    try_except
      (me ← get_self;
       let url := base_url me
                  ++ "/dna/intent/api/v1/reserve-ip-subpool?siteId="
                  ++ str site_id in
       response ← requests_get url (headers me) false 30;
       if status_code response =? 200 then
         body ← lift (response_json response);
         reservations ← lift (get body "response" (PyList []));
         reservations ← lift (iter reservations);
         reservation_id ← lift (reservation_id_of reservation_name reservations);
         if negb (truthy reservation_id) then mret PyNone
         else
           me ← get_self;
           let delete_url := base_url me
                             ++ "/dna/intent/api/v1/reserve-ip-subpool/"
                             ++ str reservation_id in
           del_response ← requests_delete delete_url (headers me) false 30;
           if ((status_code del_response =? 200)
               || (status_code del_response =? 202))%bool
           then await_deletion del_response 500
           else mret PyNone
       else mret PyNone)
      (except_Exception (mret PyNone)).

Definition delete_global_pool (pool_name : string) : Run pyobj :=
  pool ← get_global_pool_by_name pool_name;
  if negb (truthy pool) then mret PyNone
  else
    pool_id ← lift (item pool "id");
    me ← get_self;
    let url := base_url me ++ "/dna/intent/api/v1/global-pool/"
               ++ str pool_id in
    response ← requests_delete url (headers me) false 30;
    if ((status_code response =? 200) || (status_code response =? 202))%bool
    then await_deletion response 1000
    else mret PyNone.

End Client.

(** ** The scripts

    [create_infrastructure(cc)] and [delete_infrastructure(cc)] only call
    methods of the object they are given (and [input]), so they are written
    over any object offering these methods, on any state. *)

Record client (W : Type) : Type := MkClient {
  cc_authenticate : M W pyobj;
  cc_create_ip_pool : string -> string -> M W pyobj;
  cc_create_area : string -> string -> M W pyobj;
  cc_create_building :
    string -> string -> spec_float -> spec_float -> string -> string -> M W pyobj;
  cc_create_floor : string -> string -> Z -> M W pyobj;
  cc_reserve_ip_subpool :
    string -> string -> string -> string -> Z -> M W pyobj;
  cc_delete_site : string -> M W pyobj;
  cc_delete_reservation : string -> string -> M W pyobj
}.
Arguments cc_authenticate {W} _.
Arguments cc_create_ip_pool {W} _ _ _.
Arguments cc_create_area {W} _ _ _.
Arguments cc_create_building {W} _ _ _ _ _ _ _.
Arguments cc_create_floor {W} _ _ _ _.
Arguments cc_reserve_ip_subpool {W} _ _ _ _ _ _.
Arguments cc_delete_site {W} _ _.
Arguments cc_delete_reservation {W} _ _ _.

(** The coordinates of the four buildings, as binary64 values. *)
Definition lat_sunset : spec_float := S754_finite false 4799007615428329 (-47).   (* 34.099 *)
Definition lon_sunset : spec_float := S754_finite true 8329266773333377 (-46).    (* -118.366 *)
Definition lat_windy : spec_float := S754_finite false 5893804537344426 (-47).    (* 41.878 *)
Definition lon_windy : spec_float := S754_finite true 6166413052288696 (-46).     (* -87.630 *)
Definition lat_deco : spec_float := S754_finite false 7256987849554133 (-48).     (* 25.782 *)
Definition lon_deco : spec_float := S754_finite true 5638858577188749 (-46).      (* -80.133 *)
Definition lat_desert : spec_float := S754_finite false 4707387510509011 (-47).   (* 33.448 *)
Definition lon_desert : spec_float := S754_finite true 7886506634967515 (-46).    (* -112.074 *)

(** The literals of [delete_infrastructure]. *)
Definition reservations_by_building : list (string * list string) :=
  [ ("Sunset Tower", ["ST_CORP"; "ST_TECH"; "ST_GUEST"; "ST_BYOD"]);
    ("Windy City Plaza", ["WCP_CORP"; "WCP_TECH"; "WCP_GUEST"; "WCP_BYOD"]);
    ("Art Deco Mansion", ["ADM_CORP"; "ADM_TECH"; "ADM_GUEST"; "ADM_BYOD"]);
    ("Desert Oasis Tower", ["DOT_CORP"; "DOT_TECH"; "DOT_GUEST"; "DOT_BYOD"]) ].

Definition floors : list string := ["FLOOR_1"; "FLOOR_2"].

Definition buildings : list string :=
  ["Sunset Tower"; "Windy City Plaza"; "Art Deco Mansion"; "Desert Oasis Tower"].

Definition areas : list string :=
  ["Golden Hills Campus"; "Lakefront Tower"; "Oceanfront Mansion";
   "Desert Oasis Branch"; "United States"].

Definition confirm_prompt : string :=
  String (ascii_of_nat 10) "Type 'DELETE' to confirm: ".

Section Scripts.
Context {W : Type}.
Variable cc : client W.
Variable input : string -> M W string.

(** [for x in xs: body(x)] with no [break] and no [return] in the body. *)
Definition for_all {A B} (xs : list A) (body : A -> M W B) : M W unit :=
  for_each xs (fun x => body x;; mret (@None unit));; mret tt.

Definition create_infrastructure : M W pyobj :=
  cc_create_ip_pool cc "US_CORP" "10.201.0.0/16";;
  cc_create_ip_pool cc "US_TECH" "10.202.0.0/16";;
  cc_create_ip_pool cc "US_GUEST" "10.203.0.0/16";;
  cc_create_ip_pool cc "US_BYOD" "10.204.0.0/16";;

    cc_create_area cc "United States" "Global";;
    cc_create_area cc "Golden Hills Campus" "Global/United States";;
    cc_create_area cc "Lakefront Tower" "Global/United States";;
    cc_create_area cc "Oceanfront Mansion" "Global/United States";;
    cc_create_area cc "Desert Oasis Branch" "Global/United States";;

    cc_create_building cc "Sunset Tower"
      "Global/United States/Golden Hills Campus" lat_sunset lon_sunset
      "8358 Sunset Blvd, Los Angeles, CA 90069" "United States";;
    cc_create_building cc "Windy City Plaza"
      "Global/United States/Lakefront Tower" lat_windy lon_windy
      "233 S Wacker Dr, Chicago, IL 60606" "United States";;
    cc_create_building cc "Art Deco Mansion"
      "Global/United States/Oceanfront Mansion" lat_deco lon_deco
      "123 Ocean Drive, Miami Beach, FL 33139" "United States";;
    cc_create_building cc "Desert Oasis Tower"
      "Global/United States/Desert Oasis Branch" lat_desert lon_desert
      "1235 Cactus Ave, Phoenix, AZ 85001" "United States";;

    cc_create_floor cc "FLOOR_1" "Global/United States/Golden Hills Campus/Sunset Tower" 1;;
    cc_create_floor cc "FLOOR_2" "Global/United States/Golden Hills Campus/Sunset Tower" 2;;
    cc_create_floor cc "FLOOR_1" "Global/United States/Lakefront Tower/Windy City Plaza" 1;;
    cc_create_floor cc "FLOOR_2" "Global/United States/Lakefront Tower/Windy City Plaza" 2;;
    cc_create_floor cc "FLOOR_1" "Global/United States/Oceanfront Mansion/Art Deco Mansion" 1;;
    cc_create_floor cc "FLOOR_1" "Global/United States/Desert Oasis Branch/Desert Oasis Tower" 1;;

    cc_reserve_ip_subpool cc "Sunset Tower" "ST_CORP" "US_CORP" "10.201.2.0" 24;;
    cc_reserve_ip_subpool cc "Sunset Tower" "ST_TECH" "US_TECH" "10.202.2.0" 24;;
    cc_reserve_ip_subpool cc "Sunset Tower" "ST_GUEST" "US_GUEST" "10.203.2.0" 24;;
    cc_reserve_ip_subpool cc "Sunset Tower" "ST_BYOD" "US_BYOD" "10.204.2.0" 24;;

    cc_reserve_ip_subpool cc "Windy City Plaza" "WCP_CORP" "US_CORP" "10.201.3.0" 24;;
    cc_reserve_ip_subpool cc "Windy City Plaza" "WCP_TECH" "US_TECH" "10.202.3.0" 24;;
    cc_reserve_ip_subpool cc "Windy City Plaza" "WCP_GUEST" "US_GUEST" "10.203.3.0" 24;;
    cc_reserve_ip_subpool cc "Windy City Plaza" "WCP_BYOD" "US_BYOD" "10.204.3.0" 24;;

    cc_reserve_ip_subpool cc "Art Deco Mansion" "ADM_CORP" "US_CORP" "10.201.4.0" 24;;
    cc_reserve_ip_subpool cc "Art Deco Mansion" "ADM_TECH" "US_TECH" "10.202.4.0" 24;;
    cc_reserve_ip_subpool cc "Art Deco Mansion" "ADM_GUEST" "US_GUEST" "10.203.4.0" 24;;
    cc_reserve_ip_subpool cc "Art Deco Mansion" "ADM_BYOD" "US_BYOD" "10.204.4.0" 24;;

    cc_reserve_ip_subpool cc "Desert Oasis Tower" "DOT_CORP" "US_CORP" "10.201.1.0" 24;;
    cc_reserve_ip_subpool cc "Desert Oasis Tower" "DOT_TECH" "US_TECH" "10.202.1.0" 24;;
    cc_reserve_ip_subpool cc "Desert Oasis Tower" "DOT_GUEST" "US_GUEST" "10.203.1.0" 24;;
    cc_reserve_ip_subpool cc "Desert Oasis Tower" "DOT_BYOD" "US_BYOD" "10.204.1.0" 24;;

    mret PyNone.     (* no [return]: the function returns [None] *)

(** The confirmation prompt: [Some 1] for [return 1]. *)
Definition confirm_deletion : M W (option pyobj) :=
  try_except
    (confirm ← input confirm_prompt;
     if negb (confirm =? "DELETE")%string then mret (Some (PyInt 1))
     else mret None)
    (fun e =>
       match e with
       | EOFError | KeyboardInterrupt => Some (mret (Some (PyInt 1)))
       | _ => None
       end).

Definition delete_reservations : M W unit :=
  for_all reservations_by_building (fun '(building_name, reservations) =>
    for_all reservations (fun reservation_name =>
      cc_delete_reservation cc building_name reservation_name)).

(** [for _ in range(6): for floor_name in floors: try: ... break]: the
    [break] leaves the inner loop only. *)
Definition delete_floors : M W unit :=
  for_all (seq 0 6) (fun _ =>
    for_each floors (fun floor_name =>
      try_except
        (result ← cc_delete_site cc floor_name;
         if is_None result then mret (Some tt) else mret None)
        (except_Exception (mret (Some tt))))).

Definition delete_infrastructure : M W pyobj :=
  cancelled ← confirm_deletion;
  match cancelled with
  | Some code => mret code
  | None =>
      failed ← try_except (cc_authenticate cc;; mret None)
                 (except_Exception (mret (Some (PyInt 1))));
      match failed with
      | Some code => mret code
      | None =>
          delete_reservations;;
          cc_authenticate cc;;
          delete_floors;;
          cc_authenticate cc;;
          for_all buildings (fun building => cc_delete_site cc building);;
          cc_authenticate cc;;
          for_all areas (fun area => cc_delete_site cc area);;
          mret (PyInt 0)
      end
  end.
End Scripts.

(** [hierarchy.count('/')]: [str] and [list] have [count]. *)
Definition count_slashes (hierarchy : pyobj) : result Z :=
  match hierarchy with
  | PyStr h => Returned (count_char "/" h)
  | PyList l => Returned (Z.of_nat (length (filter (fun x => eq_str x "/" = true) l)))
  | _ => Raised AttributeError
  end.

(** The [for info in site['additionalInfo']:] loop of
    [check_infrastructure]: the value of [site_type] when it ends. *)
Fixpoint type_from_infos (infos : list pyobj) : result pyobj :=
  match infos with
  | [] => Returned PyNone
  | info :: rest =>
      has_attributes ← contains info "attributes";
      if has_attributes : bool then
        attributes ← item info "attributes";
        has_type ← contains attributes "type";
        if has_type : bool then item attributes "type"
        else type_from_infos rest
      else type_from_infos rest
  end.

(** The inner [try] of the building search: [site_type] after it. *)
Definition type_from_additional_info (site : pyobj) : pyobj :=
  let attempt :=
    has_info ← contains site "additionalInfo";
    if has_info : bool then
      info ← item site "additionalInfo";
      if truthy info then
        infos ← iter info;
        type_from_infos infos
      else Returned PyNone
    else Returned PyNone in
  match attempt with
  | Returned t => t
  | Raised e => PyNone        (* [except Exception: pass] *)
  end.

(** Whether the reservation report counts [site] as a building. *)
Definition is_building (site : pyobj) : result bool :=
  let site_type := type_from_additional_info site in
  if negb (truthy site_type) then
    hierarchy ← get site "siteNameHierarchy" (PyStr "");
    parts ← count_slashes hierarchy;
    mret (parts =? 3)
  else mret (eq_str site_type "building").

Fixpoint buildings_among (all_sites : list pyobj) : result (list pyobj) :=
  match all_sites with
  | [] => Returned []
  | site :: rest =>
      b ← is_building site;
      found ← buildings_among rest;
      mret (if b : bool then site :: found else found)
  end.

(** The [if not site_type:] fallback of the site report: the type by the
    depth of the hierarchy, [site_type] staying as it was at depth 0. *)
Definition type_by_depth (site_type : pyobj) (parts : Z) : pyobj :=
  if parts =? 1 then PyStr "area"
  else if parts =? 2 then PyStr "area"
  else if parts =? 3 then PyStr "building"
  else if 4 <=? parts then PyStr "floor"
  else site_type.

(** [site_type] of a site in the site report, after the fallback. *)
Definition site_type_of (site : pyobj) : result pyobj :=
  let site_type := type_from_additional_info site in
  if negb (truthy site_type) then
    hierarchy ← get site "siteNameHierarchy" (PyStr "");
    parts ← count_slashes hierarchy;
    mret (type_by_depth site_type parts)
  else mret site_type.

(** The three lists of the site report. *)
Record site_lists : Type := SiteLists {
  listed_areas : list pyobj;
  listed_buildings : list pyobj;
  listed_floors : list pyobj
}.

(** The [for site in sites:] loop of the site report: the root "Global" is
    skipped, every other site is put on the list of its type, if it has
    one of the three. *)
Fixpoint sites_by_type (sites : list pyobj) : result site_lists :=
  match sites with
  | [] => Returned (SiteLists [] [] [])
  | site :: rest =>
      site_name ← get site "name" (PyStr "");
      if eq_str site_name "Global" then sites_by_type rest
      else
        site_type ← site_type_of site;
        found ← sites_by_type rest;
        mret (if eq_str site_type "area" then
                SiteLists (site :: listed_areas found) (listed_buildings found)
                  (listed_floors found)
              else if eq_str site_type "building" then
                SiteLists (listed_areas found) (site :: listed_buildings found)
                  (listed_floors found)
              else if eq_str site_type "floor" then
                SiteLists (listed_areas found) (listed_buildings found)
                  (site :: listed_floors found)
              else found)
  end.

Section Main.
Context {E : Type} `{Outside E}.
Abbreviation Run := (M (World E)).

(** The object [cc] that [main] passes to the scripts. *)
Definition the_client : client (World E) := {|
    cc_authenticate := authenticate;
    cc_create_ip_pool := create_ip_pool;
    cc_create_area := create_area;
    cc_create_building := create_building;
    cc_create_floor := create_floor;
    cc_reserve_ip_subpool := reserve_ip_subpool;
    cc_delete_site := delete_site;
    cc_delete_reservation := delete_reservation
  |}.

(** One [try: response = requests.get(...); response.raise_for_status();
    ... = response.json().get('response', []); <print a report>
    except Exception: <print>] block of [check_infrastructure].  The
    report is computed from the answer alone and only printed; whatever it
    raises is an [Exception], which the same handler takes. *)
Definition report_listing (path : string) : Run unit :=
  try_except
    (me ← get_self;
     response ← requests_get (base_url me ++ path) (headers me) false 30;
     lift (raise_for_status response);;
     body ← lift (response_json response);
     lift (get body "response" (PyList []));;
     mret tt)
    (except_Exception (mret tt)).

(** The body of [for building in buildings:] in the reservation report. *)
Definition report_building (building : pyobj) : Run unit :=
  lift (item building "name");;
  building_id ← lift (item building "id");
  try_except
    (me ← get_self;
     let res_url := base_url me
                    ++ "/dna/intent/api/v1/reserve-ip-subpool?siteId="
                    ++ str building_id in
     requests_get res_url (headers me) false 30;;
     mret tt)
    (except_Exception (mret tt)).

Definition report_reservations : Run unit :=
  try_except
    (me ← get_self;
     let sites_url := base_url me ++ "/dna/intent/api/v1/site" in
     response ← requests_get sites_url (headers me) false 30;
     lift (raise_for_status response);;
     body ← lift (response_json response);
     all_sites ← lift (get body "response" (PyList []));
     all_sites ← lift (iter all_sites);
     found ← lift (buildings_among all_sites);
     for_all found report_building)
    (except_Exception (mret tt)).

Definition check_infrastructure : Run pyobj :=
  report_listing "/dna/intent/api/v1/global-pool";;
  report_listing "/dna/intent/api/v1/site";;
  report_reservations;;
  mret (PyInt 0).

(** The dictionary returned by [load_credentials_from_yaml]. *)
Record credentials : Type := Credentials {
    cfg_base_url : string;
    cfg_username : pyobj;
    cfg_password : pyobj;
    cfg_verify_ssl : bool
  }.

(** The body of the [with open(...)] block: [None] for [return None]. *)
Definition read_credentials (config : pyobj) : result (option credentials) :=
  has_ip ← contains config "CC_IP";
  has_username ← contains config "CC_USERNAME";
  has_password ← contains config "CC_PASSWORD";
  if negb (has_ip && has_username && has_password) then mret None
  else
    insecure ← get config "CC_INSECURE" (PyBool true);
    let verify_ssl := negb (truthy insecure) in
    ip ← item config "CC_IP";
    user ← item config "CC_USERNAME";
    pass ← item config "CC_PASSWORD";
    mret (Some {| cfg_base_url := "https://" ++ str ip;
                  cfg_username := user;
                  cfg_password := pass;
                  cfg_verify_ssl := verify_ssl |}).

(** The [for yaml_path in yaml_paths:] loop: the first candidate that
    exists decides. *)
Fixpoint first_existing (e : E) (yaml_paths : list string)
  : result (option credentials) :=
  match yaml_paths with
  | [] => Returned None
  | yaml_path :: rest =>
      match read_yaml e yaml_path with
      | Absent => first_existing e rest
      | Unreadable ex =>
          if is_Exception ex then Returned None else Raised ex
      | Parsed config =>
          match read_credentials config with
          | Returned c => Returned c
          | Raised ex => if is_Exception ex then Returned None else Raised ex
          end
      end
  end.

Definition load_credentials_from_yaml (file_path : string)
  : Run (option credentials) := fun w =>
  (first_existing (outside w) [file_path; script_dir_join file_path], w).

(** [main()] from [if args.action == 'create':] on. *)
Definition run_action (action : string) : Run pyobj :=
  if (action =? "create")%string then
    create_infrastructure the_client
  else if (action =? "delete")%string then
    delete_infrastructure the_client builtin_input
  else if (action =? "status")%string then
    check_infrastructure
  else mret (PyInt 1).

(** [main()] from [if not config:] on. *)
Definition main_with_config (config : option credentials) (action : string)
  : Run pyobj :=
  match config with
  | None => mret (PyInt 1)
  | Some config =>
      set_self (new_client (cfg_base_url config) (cfg_username config)
                  (cfg_password config));;
      failed ← try_except (authenticate;; mret None)
                 (except_Exception (mret (Some (PyInt 1))));
      match failed with
      | Some code => mret code
      | None => run_action action
      end
  end.

(** [main()], after [parser.parse_args()] has produced [args.action] and
    [args.config]. *)
Definition main (action config_path : string) : Run pyobj :=
  config ← load_credentials_from_yaml config_path;
  main_with_config config action.

(** The status a process ends with after [sys.exit(v)]. *)
Definition exit_status (v : pyobj) : Z :=
  match v with
  | PyNone => 0
  | PyInt n => n
  | PyBool b => if b then 1 else 0
  | _ => 1
  end.

(** The [if __name__ == "__main__":] block: the exit status of the
    process.  [SystemExit] passes both handlers. *)
Definition script (action config_path : string) (w : World E)
  : Z * World E :=
  match main action config_path w with
  | (Returned exit_code, w') =>
      (exit_status (if truthy exit_code then exit_code else PyInt 0), w')
  | (Raised KeyboardInterrupt, w') => (1, w')
  | (Raised _, w') => (1, w')           (* [except Exception] *)
  end.
End Main.

(** ** Vocabulary of the statements *)

(** What one poll of [wait_for_task] makes of the network's answer: the
    task is over (and the wait returns [b]), the wait goes on, or an
    exception that is no [Exception] leaves the function. *)
Inductive verdict : Type :=
| Finished (b : bool)
| StillRunning
| Propagated (e : exn).

Definition judge (o : result response) : verdict :=
  match o with
  | Raised e => if is_Exception e then StillRunning else Propagated e
  | Returned r =>
      if status_code r =? 404 then Finished true
      else if status_code r =? 200 then
        match response_json r ≫= check_task with
        | Returned (Some b) => Finished b
        | Returned None => StillRunning
        | Raised e => if is_Exception e then StillRunning else Propagated e
        end
      else StillRunning
  end.

(** The request of one poll. *)
Definition poll_request (url : string) (me : CatalystCenterAPI) : request :=
  {| rq_method := GET; rq_url := url; rq_headers := Some (headers me);
     rq_auth := None; rq_json := None; rq_verify := false; rq_timeout := 30 |}.

(** The state after [rq] was answered by [rp] and the network moved to [e']. *)
Definition answered {E} (w : World E) (rq : request) (e' : E) (rp : reply)
  : World E :=
  {| outside := e'; clock := clock w + Z.of_N (elapsed rp);
     log := log w ++ [(rq, rp)]; self := self w |}.

(** The state after [time.sleep(ms / 1000)]. *)
Definition slept {E} (ms : Z) (w : World E) : World E :=
  {| outside := outside w; clock := clock w + ms; log := log w; self := self w |}.

(** The exchanges made between state [w] and a later state [w']. *)
Definition new_exchanges {E} (w w' : World E) : list (request * reply) :=
  drop (length (log w)) (log w').

(** [w'] comes after [w]: the log has only grown, by requests that all
    satisfy [P]. *)
Definition grows {E} (P : request -> Prop) (w w' : World E) : Prop :=
  exists d, log w' = (log w ++ d)%list /\ Forall (fun x => P x.1) d.

(** Conditions on [P] under which the requests of the client satisfy it:
    [P] holds of every GET, DELETE, token request, or POST of a payload
    satisfying [ok], sent the way the client sends them. *)
Definition allows_get (P : request -> Prop) : Prop :=
  forall url hdrs,
    P {| rq_method := GET; rq_url := url; rq_headers := Some hdrs;
         rq_auth := None; rq_json := None; rq_verify := false;
         rq_timeout := 30 |}.

Definition allows_delete (P : request -> Prop) : Prop :=
  forall url hdrs,
    P {| rq_method := DELETE; rq_url := url; rq_headers := Some hdrs;
         rq_auth := None; rq_json := None; rq_verify := false;
         rq_timeout := 30 |}.

Definition allows_auth (P : request -> Prop) : Prop :=
  forall url auth,
    P {| rq_method := POST; rq_url := url; rq_headers := None;
         rq_auth := Some auth; rq_json := None; rq_verify := false;
         rq_timeout := 30 |}.

Definition allows_post (P : request -> Prop) (ok : pyobj -> Prop) : Prop :=
  forall url hdrs payload,
    ok payload ->
    P {| rq_method := POST; rq_url := url; rq_headers := Some hdrs;
         rq_auth := None; rq_json := Some payload; rq_verify := false;
         rq_timeout := 30 |}.

(** [m] moves every state along [R]. *)
Definition steps {W A} (R : relation W) (m : M W A) : Prop :=
  forall w, R w (m w).2.

(** The request of a lookup: a GET of [path] with the client's headers. *)
Definition lookup_request (path : string) (me : CatalystCenterAPI) : request :=
  {| rq_method := GET; rq_url := base_url me ++ path;
     rq_headers := Some (headers me); rq_auth := None; rq_json := None;
     rq_verify := false; rq_timeout := 30 |}.

(** The list that a lookup of [path] in state [w] gets to search:
    [response.json()["response"]], iterated. *)
Definition listing {E} `{Outside E} (path : string) (w : World E)
  : result (list pyobj) :=
  response ← outcome (serve (outside w) (clock w)
                        (lookup_request path (self w))).2;
  body ← response_json response;
  items ← item body "response";
  iter items.

Definition sites_path : string := "/dna/intent/api/v1/site".
Definition pools_path : string := "/dna/intent/api/v1/global-pool".

(** The state after a lookup of [path]. *)
Definition looked_up {E} `{Outside E} (path : string) (w : World E) : World E :=
  let rq := lookup_request path (self w) in
  let '(e', rp) := serve (outside w) (clock w) rq in
  answered w rq e' rp.

(** The request of a creation: a POST of [payload] to [path]. *)
Definition post_request (path : string) (me : CatalystCenterAPI)
    (payload : pyobj) : request :=
  {| rq_method := POST; rq_url := base_url me ++ path;
     rq_headers := Some (headers me); rq_auth := None;
     rq_json := Some payload; rq_verify := false; rq_timeout := 30 |}.

(** The state after a POST of [payload] to [path], and its answer. *)
Definition posted {E} `{Outside E} (path : string) (payload : pyobj)
    (w : World E) : World E :=
  let rq := post_request path (self w) payload in
  let '(e', rp) := serve (outside w) (clock w) rq in
  answered w rq e' rp.

Definition post_answer {E} `{Outside E} (path : string) (payload : pyobj)
    (w : World E) : reply :=
  (serve (outside w) (clock w) (post_request path (self w) payload)).2.

(** The same outside world with other configuration files. *)
Definition with_files {E} (H : Outside E)
    (files : E -> string -> file_outcome) : Outside E :=
  {| serve := @serve E H; read_line := @read_line E H; read_yaml := files;
     script_dir_join := @script_dir_join E H; repr := @repr E H |}.

(** Two readings of a configuration file that differ at most in the value
    of [CC_INSECURE] (or in its presence). *)
Definition agree_but_insecure (o o' : file_outcome) : Prop :=
  match o, o' with
  | Parsed (PyDict m), Parsed (PyDict m') =>
      forall k, k <> "CC_INSECURE" -> m !! k = m' !! k
  | _, _ => o = o'
  end.

(** A request sent without certificate verification. *)
Definition unverified (rq : request) : Prop := rq_verify rq = false.

(** Every method of [cc] moves the state along [R]. *)
Record client_steps {W} (R : relation W) (cc : client W) : Prop := {
  authenticate_steps : steps R (cc_authenticate cc);
  create_ip_pool_steps : forall name cidr, steps R (cc_create_ip_pool cc name cidr);
  create_area_steps : forall name parent, steps R (cc_create_area cc name parent);
  create_building_steps : forall name parent latitude longitude address country,
    steps R (cc_create_building cc name parent latitude longitude address country);
  create_floor_steps : forall name parent number,
    steps R (cc_create_floor cc name parent number);
  reserve_ip_subpool_steps : forall site reservation pool subnet prefix,
    steps R (cc_reserve_ip_subpool cc site reservation pool subnet prefix);
  delete_site_steps : forall name, steps R (cc_delete_site cc name);
  delete_reservation_steps : forall site reservation,
    steps R (cc_delete_reservation cc site reservation)
}.

(** The exit status that the [__main__] block gives to a result of [main]. *)
Definition exit_of (r : result pyobj) : Z :=
  match r with
  | Returned exit_code =>
      exit_status (if truthy exit_code then exit_code else PyInt 0)
  | Raised _ => 1
  end.

(** [m] returns only values in [V] (it may raise). *)
Definition yields {W A} (V : A -> Prop) (m : M W A) : Prop :=
  forall w, match (m w).1 with Returned a => V a | Raised _ => True end.

(** What the console answers to the confirmation prompt is no "DELETE". *)
Definition declines (r : result string) : Prop :=
  match r with
  | Returned typed => typed <> "DELETE"
  | Raised e => e = EOFError \/ e = KeyboardInterrupt
  end.

(** The state in which [main] authenticates. *)
Definition booted {E} (config : credentials) (w : World E) : World E :=
  {| outside := outside w; clock := clock w; log := log w;
     self := new_client (cfg_base_url config) (cfg_username config)
               (cfg_password config) |}.

(** The client object is the same in [w'] as in [w]. *)
Definition same_self {E} (w w' : World E) : Prop := self w' = self w.

(** Whether [create_ip_pool] has a task to follow after its POST: the answer
    carries an [executionId] or an [executionStatusUrl]. *)
Definition tracked (result : pyobj) : bool :=
  match get result "executionId" PyNone,
        get result "executionStatusUrl" PyNone with
  | Returned task_id, Returned task_url => truthy task_id || truthy task_url
  | _, _ => false
  end.

Definition is_post (x : request * reply) : bool :=
  match rq_method x.1 with POST => true | _ => false end.

(** A request that, if it is a POST, carries a payload whose
    [addressSpace] has this subnet and prefix length. *)
Definition has_address_space (subnet : string) (prefix_length : Z)
    (rq : request) : Prop :=
  rq_method rq = POST ->
  exists payload address_space,
    rq_json rq = Some payload
    /\ item payload "addressSpace" = Returned address_space
    /\ item address_space "subnet" = Returned (PyStr subnet)
    /\ item address_space "prefixLength" = Returned (PyInt prefix_length).

(** A request that, if it is a POST, carries a payload with this gateway. *)
Definition has_gateway (gateway : string) (rq : request) : Prop :=
  rq_method rq = POST ->
  exists payload,
    rq_json rq = Some payload
    /\ item payload "ipv4GateWay" = Returned (PyStr gateway).

(** The direct parent of a site: the last but one segment of its
    [siteNameHierarchy]. *)
Definition parent_of (site : pyobj) : option string :=
  match site with
  | PyDict m =>
      match default (PyStr "") (m !! "siteNameHierarchy") with
      | PyStr h =>
          let parts := split "/" h in
          if Nat.leb 2 (length parts) then parts !! (length parts - 2)%nat
          else None
      | _ => None
      end
  | _ => None
  end.

(** [site["name"] == name] *)
Definition is_named (site : pyobj) (name : string) : Prop :=
  exists n, item site "name" = Returned n /\ eq_str n name = true.

(** A site as the controller lists it: a [dict] with a ["name"], whose
    ["siteNameHierarchy"], when present, is a [str]. *)
Definition site_ok (site : pyobj) : Prop :=
  exists m n h,
    site = PyDict m /\ m !! "name" = Some n
    /\ default (PyStr "") (m !! "siteNameHierarchy") = PyStr h.

(** An exchange in which the poller saw the task still running. *)
Definition still_running (x : request * reply) : Prop :=
  judge (outcome x.2) = StillRunning.

(** An exchange that took no time. *)
Definition instant (x : request * reply) : Prop := elapsed x.2 = 0%N.

Definition quiet (x : request * reply) : Prop :=
  still_running x /\ instant x.

Definition quietb (x : request * reply) : bool :=
  match judge (outcome x.2) with
  | StillRunning => N.eqb (elapsed x.2) 0
  | _ => false
  end.

(** [task_url: str = None] *)
Definition is_optional_str (v : pyobj) : Prop :=
  match v with PyNone | PyStr _ => True | _ => False end.

(** The answer that a poll of [url] gets in state [w]. *)
Definition poll_answer {E} `{Outside E} (w : World E) (url : string) : reply :=
  (serve (outside w) (clock w) (poll_request url (self w))).2.

(** *** Watching a script call its client

    [spy cc] is [cc] with every method noting its invocation in a list kept
    next to the state: the sequence of calls a script makes on [cc]. *)

Inductive call : Type :=
| Authenticate
| CreateIpPool (name cidr : string)
| CreateArea (name parent_name : string)
| CreateBuilding (name parent_name : string) (latitude longitude : spec_float)
    (address country : string)
| CreateFloor (name parent_name : string) (floor_number : Z)
| ReserveIpSubpool (site_name reservation_name parent_pool subnet : string)
    (prefix_length : Z)
| DeleteSite (site_name : string)
| DeleteReservation (site_name reservation_name : string)
| Input (prompt : string).

Definition noting {W A} (c : call) (m : M W A) : M (W * list call) A :=
  fun '(w, calls) =>
    let '(r, w') := m w in (r, (w', (calls ++ [c])%list)).

Definition spy {W} (cc : client W) : client (W * list call) := {|
  cc_authenticate := noting Authenticate (cc_authenticate cc);
  cc_create_ip_pool name cidr :=
    noting (CreateIpPool name cidr) (cc_create_ip_pool cc name cidr);
  cc_create_area name parent_name :=
    noting (CreateArea name parent_name) (cc_create_area cc name parent_name);
  cc_create_building name parent_name latitude longitude address country :=
    noting (CreateBuilding name parent_name latitude longitude address country)
      (cc_create_building cc name parent_name latitude longitude address country);
  cc_create_floor name parent_name floor_number :=
    noting (CreateFloor name parent_name floor_number)
      (cc_create_floor cc name parent_name floor_number);
  cc_reserve_ip_subpool site_name reservation_name parent_pool subnet
      prefix_length :=
    noting (ReserveIpSubpool site_name reservation_name parent_pool subnet
              prefix_length)
      (cc_reserve_ip_subpool cc site_name reservation_name parent_pool subnet
         prefix_length);
  cc_delete_site site_name :=
    noting (DeleteSite site_name) (cc_delete_site cc site_name);
  cc_delete_reservation site_name reservation_name :=
    noting (DeleteReservation site_name reservation_name)
      (cc_delete_reservation cc site_name reservation_name)
|}.

Definition spy_input {W} (input : string -> M W string)
  : string -> M (W * list call) string :=
  fun prompt => noting (Input prompt) (input prompt).

(** [spy], keeping the result of each call as well. *)
Definition reporting {W} (c : call) (m : M W pyobj)
  : M (W * list (call * result pyobj)) pyobj :=
  fun '(w, reports) =>
    let '(r, w') := m w in (r, (w', (reports ++ [(c, r)])%list)).

Definition reporter {W} (cc : client W)
  : client (W * list (call * result pyobj)) := {|
  cc_authenticate := reporting Authenticate (cc_authenticate cc);
  cc_create_ip_pool name cidr :=
    reporting (CreateIpPool name cidr) (cc_create_ip_pool cc name cidr);
  cc_create_area name parent_name :=
    reporting (CreateArea name parent_name) (cc_create_area cc name parent_name);
  cc_create_building name parent_name latitude longitude address country :=
    reporting (CreateBuilding name parent_name latitude longitude address country)
      (cc_create_building cc name parent_name latitude longitude address country);
  cc_create_floor name parent_name floor_number :=
    reporting (CreateFloor name parent_name floor_number)
      (cc_create_floor cc name parent_name floor_number);
  cc_reserve_ip_subpool site_name reservation_name parent_pool subnet
      prefix_length :=
    reporting (ReserveIpSubpool site_name reservation_name parent_pool subnet
                 prefix_length)
      (cc_reserve_ip_subpool cc site_name reservation_name parent_pool subnet
         prefix_length);
  cc_delete_site site_name :=
    reporting (DeleteSite site_name) (cc_delete_site cc site_name);
  cc_delete_reservation site_name reservation_name :=
    reporting (DeleteReservation site_name reservation_name)
      (cc_delete_reservation cc site_name reservation_name)
|}.

(** The calls made by [m] started in state [w]. *)
Definition calls_of {W A} (m : M (W * list call) A) (w : W) : list call :=
  (m (w, [])).2.2.

(** A client whose every method returns [None] at once. *)
Definition null_client : client unit := {|
  cc_authenticate := mret PyNone;
  cc_create_ip_pool _ _ := mret PyNone;
  cc_create_area _ _ := mret PyNone;
  cc_create_building _ _ _ _ _ _ := mret PyNone;
  cc_create_floor _ _ _ := mret PyNone;
  cc_reserve_ip_subpool _ _ _ _ _ := mret PyNone;
  cc_delete_site _ := mret PyNone;
  cc_delete_reservation _ _ := mret PyNone
|}.

(** The rank of a deletion in the teardown: reservations, floors,
    buildings, leaf areas, the parent area.  Other calls have none. *)
Definition in_list (name : string) (names : list string) : bool :=
  existsb (String.eqb name) names.

Definition phase (c : call) : option nat :=
  match c with
  | DeleteReservation _ _ => Some 0%nat
  | DeleteSite name =>
      if in_list name floors then Some 1%nat
      else if in_list name buildings then Some 2%nat
      else if (name =? "United States")%string then Some 4%nat
      else if in_list name areas then Some 3%nat
      else None
  | _ => None
  end.

(** In [calls], a deletion of lower rank never comes after one of higher
    rank. *)
Definition ordered (calls : list call) : Prop :=
  forall (i j : nat) (ci cj : call) (a b : nat),
    calls !! i = Some ci -> calls !! j = Some cj ->
    phase ci = Some a -> phase cj = Some b ->
    (a < b)%nat -> (i < j)%nat.

(** No deletion in [calls] has a rank above [k]. *)
Definition below (k : nat) (calls : list call) : Prop :=
  forall (i : nat) (c : call) (a : nat),
    calls !! i = Some c -> phase c = Some a -> (a <= k)%nat.

Definition in_order_upto {W} (k : nat) (s : W * list call) : Prop :=
  ordered s.2 /\ below k s.2.

(** [w'] satisfies [I] if [w] did. *)
Definition preserving {W} (I : W -> Prop) (w w' : W) : Prop := I w -> I w'.

(** From a state in [I], [m] ends in a state in [J], whether it returns or
    raises. *)
Definition triple {W A} (I : W -> Prop) (m : M W A) (J : W -> Prop) : Prop :=
  forall w, I w -> J (m w).2.

(** A console at which DELETE is typed. *)
Definition typing_delete : string -> M unit string :=
  fun prompt => mret "DELETE".

(** The calls of [delete_infrastructure] on a client that finds nothing to
    delete. *)
Definition teardown_of_nothing : list call :=
  Eval vm_compute in
    calls_of (delete_infrastructure (spy null_client) (spy_input typing_delete)) tt.

(** The calls of [create_infrastructure] when nothing raises. *)
Definition creation_plan : list call :=
  Eval vm_compute in calls_of (create_infrastructure (spy null_client)) tt.

(** The parent name that a call to [create_floor] passes has a slash. *)
Definition floor_parent_has_slash (c : call) : bool :=
  match c with
  | CreateFloor _ parent_name _ => 0 <? count_char "/" parent_name
  | _ => true
  end.

Definition is_create_floor (c : call) : bool :=
  match c with CreateFloor _ _ _ => true | _ => false end.

(** ** Test doubles *)

(** A network that plays back a fixed list of answers, a console that plays
    back typed lines, a file system given as a function. *)
Record playback : Type := Playback {
  answers : list reply;
  typed : list (result string);
  files : string -> file_outcome
}.

#[global] Instance playback_outside : Outside playback := {|
  serve e now rq :=
    match answers e with
    | [] => (e, {| elapsed := 0; outcome := Raised ReqConnectionError |})
    | r :: rs => ({| answers := rs; typed := typed e; files := files e |}, r)
    end;
  read_line e prompt :=
    match typed e with
    | [] => (e, Raised EOFError)
    | l :: ls => ({| answers := answers e; typed := ls; files := files e |}, l)
    end;
  read_yaml e path := files e path;
  script_dir_join path := path;
  repr v := "<object>"
|}.

Definition json_reply (code : Z) (body : pyobj) : reply :=
  {| elapsed := 0;
     outcome := Returned {| status_code := code; text := "{...}";
                            resp_json := Some body |} |}.

Definition no_files (path : string) : file_outcome := Absent.

Definition fresh_world {E} (e : E) : World E :=
  MkWorld e 0 [] (new_client "https://cc" (PyStr "admin") (PyStr "secret")).

Definition playing (rs : list reply) : World playback :=
  fresh_world (Playback rs [] no_files).

Definition success_with_error : gmap string pyobj :=
  {[ "status" := PyStr "SUCCESS"; "bapiError" := PyStr "Pool overlaps" ]}.

Definition sync_false : gmap string pyobj :=
  {[ "status" := PyStr "false"; "message" := PyStr "Invalid subnet" ]}.

Definition success_with_sync_false : gmap string pyobj :=
  {[ "status" := PyStr "SUCCESS"; "bapiSyncResponseJson" := PyDict sync_false ]}.

Definition ended_with_sync_false : gmap string pyobj :=
  {[ "status" := PyStr "IN_PROGRESS";
     "bapiSyncResponseJson" := PyDict sync_false;
     "endTime" := PyInt 1700000000 ]}.

Definition floor_1_sunset : pyobj := PyDict {[
  "name" := PyStr "FLOOR_1"; "id" := PyStr "f-1";
  "siteNameHierarchy" :=
    PyStr "Global/United States/Golden Hills Campus/Sunset Tower/FLOOR_1" ]}.

Definition floor_1_windy : pyobj := PyDict {[
  "name" := PyStr "FLOOR_1"; "id" := PyStr "f-2";
  "siteNameHierarchy" :=
    PyStr "Global/United States/Lakefront Tower/Windy City Plaza/FLOOR_1" ]}.

Definition two_floors : reply :=
  json_reply 200 (PyDict {[ "response" := PyList [floor_1_sunset; floor_1_windy] ]}).

Definition us_corp_payload : pyobj := PyDict {[
  "name" := PyStr "US_CORP";
  "poolType" := PyStr "Generic";
  "addressSpace" := PyDict {[
    "subnet" := PyStr "10.201.0.0";
    "prefixLength" := PyInt 16 ]} ]}.

Definition nothing_listed : reply :=
  json_reply 200 (PyDict {[ "response" := PyList [] ]}).

Definition accepted_untracked : reply :=
  json_reply 202 (PyDict {[ "message" := PyStr "accepted" ]}).

Definition us_corp_pool : pyobj := PyDict {[
  "ipPoolName" := PyStr "US_CORP"; "ipPoolCidr" := PyStr "10.201.0.0/16";
  "id" := PyStr "pool-1" ]}.

Definition us_corp_listed : reply :=
  json_reply 200 (PyDict {[ "response" := PyList [us_corp_pool] ]}).

Definition accepted_tracked : reply :=
  json_reply 202 (PyDict {[ "executionId" := PyStr "t1" ]}).

Definition task_succeeded : reply :=
  json_reply 200 (PyDict {[ "status" := PyStr "SUCCESS" ]}).

Definition lab_config : gmap string pyobj :=
  {[ "CC_IP" := PyStr "198.18.129.100"; "CC_USERNAME" := PyStr "admin";
     "CC_PASSWORD" := PyStr "secret" ]}.

(** A controller that accepts every creation and then fails its task, and
    that lists no pool and no site. *)
Inductive refusing : Type := Refusing.

Definition refusing_serve (e : refusing) (now : Z) (rq : request)
  : refusing * reply :=
  (e,
   match rq_method rq with
   | POST =>
       if substring_at "/auth/token" (rq_url rq)
       then json_reply 200 (PyDict {[ "Token" := PyStr "eyJhbGciOi" ]})
       else json_reply 202 (PyDict {[ "executionId" := PyStr "4e0f8c57" ]})
   | GET =>
       if substring_at "/execution-status/" (rq_url rq)
       then json_reply 200 (PyDict {[ "status" := PyStr "FAILURE";
                                      "bapiError" := PyStr "NCIP10000" ]})
       else json_reply 200 (PyDict {[ "response" := PyList [] ]})
   | DELETE => json_reply 500 (PyDict ∅)
   end).

#[global] Instance refusing_outside : Outside refusing := {|
  serve := refusing_serve;
  read_line e prompt := (e, Returned "DELETE");
  read_yaml e path := Parsed (PyDict {[
    "CC_IP" := PyStr "198.18.129.100"; "CC_USERNAME" := PyStr "admin";
    "CC_PASSWORD" := PyStr "secret"; "CC_INSECURE" := PyBool true ]});
  script_dir_join path := path;
  repr v := "<object>"
|}.

(** The state of [main] against that controller once authenticated. *)
Definition refused_start : World refusing :=
  (main "none" "CC_Env.yml" (fresh_world Refusing)).2.

(** A session in which the token is granted and "no" is typed at the
    confirmation prompt. *)
Definition token_granted : reply :=
  json_reply 200 (PyDict {[ "Token" := PyStr "eyJhbGciOi" ]}).

Definition lab_files (path : string) : file_outcome := Parsed (PyDict lab_config).

Definition declining : World playback :=
  fresh_world (Playback [token_granted] [Returned "no"] lab_files).

Definition lab_credentials : credentials :=
  {| cfg_base_url := "https://198.18.129.100"; cfg_username := PyStr "admin";
     cfg_password := PyStr "secret"; cfg_verify_ssl := false |}.

(** The [verify_ssl] entry of the credentials read from [config]. *)
Definition loaded_verify_ssl (config : gmap string pyobj) : option bool :=
  match read_credentials (E := playback) (PyDict config) with
  | Returned (Some c) => Some (cfg_verify_ssl c)
  | _ => None
  end.

Definition in_progress : reply :=
  json_reply 200 (PyDict {[ "status" := PyStr "IN_PROGRESS" ]}).

Definition task_t1_url : string :=
  "https://cc/dna/intent/api/v1/dnacaap/management/execution-status/t1".

(** *** Vocabulary of the further properties *)

(** What makes [check_task] report a failure: a "SUCCESS" that carries an
    error or a nested status "false"/[False], a "FAILURE" or "FAILED", or a
    truthy [isError]. *)
Definition reports_failure (m : gmap string pyobj) : Prop :=
  let status := default (PyStr "") (m !! "status") in
  if eq_str status "SUCCESS" then
    truthy (default PyNone (m !! "bapiError")) = true
    \/ exists sm s,
         m !! "bapiSyncResponseJson" = Some (PyDict sm)
         /\ sm !! "status" = Some s
         /\ (eq_str s "false" || eq_False s)%bool = true
  else
    (eq_str status "FAILURE" || eq_str status "FAILED")%bool = true
    \/ truthy (default PyNone (m !! "isError")) = true.

(** A network call that is interrupted from the keyboard. *)
Definition interrupted : reply :=
  {| elapsed := 0; outcome := Raised KeyboardInterrupt |}.

Definition task_failed : reply :=
  json_reply 200 (PyDict {[ "status" := PyStr "FAILED" ]}).
(** The request of [authenticate]: a POST with HTTP Basic credentials and
    no headers of the client. *)
Definition token_request (me : CatalystCenterAPI) : request :=
  {| rq_method := POST;
     rq_url := base_url me ++ "/dna/system/api/v1/auth/token";
     rq_headers := None; rq_auth := Some (username me, password me);
     rq_json := None; rq_verify := false; rq_timeout := 30 |}.

(** The client object once [authenticate] has stored the token [tok]. *)
Definition logged_in (me : CatalystCenterAPI) (tok : pyobj)
  : CatalystCenterAPI :=
  {| base_url := base_url me; username := username me;
     password := password me; token := tok;
     headers := <["X-Auth-Token" := tok]> (headers me) |}.

(** [site["name"]] is defined and differs from [name]. *)
Definition is_named_otherwise (name : string) (site : pyobj) : Prop :=
  exists n, item site "name" = Returned n /\ eq_str n name = false.

(** [s] is the first of [sites] that is named [name]. *)
Definition first_named (name : string) (sites : list pyobj) (s : pyobj)
  : Prop :=
  exists before after,
    sites = (before ++ s :: after)%list
    /\ is_named s name
    /\ Forall (is_named_otherwise name) before.
(** The [payload] literals of [create_area], [create_building] and
    [create_floor]. *)
Definition area_payload (name parent_name : string) : pyobj :=
  PyDict {[
    "type" := PyStr "area";
    "site" := PyDict {[
      "area" := PyDict {[
        "name" := PyStr name;
        "parentName" := PyStr parent_name ]} ]} ]}.

Definition building_payload (name parent_name : string)
    (latitude longitude : spec_float) (address country : string) : pyobj :=
  PyDict {[
    "type" := PyStr "building";
    "site" := PyDict {[
      "building" := PyDict {[
        "name" := PyStr name;
        "parentName" := PyStr parent_name;
        "latitude" := PyFloat latitude;
        "longitude" := PyFloat longitude;
        "address" := PyStr address;
        "country" := PyStr country ]} ]} ]}.

Definition floor_payload (name parent_name : string) (floor_number : Z)
  : pyobj :=
  PyDict {[
    "type" := PyStr "floor";
    "site" := PyDict {[
      "floor" := PyDict {[
        "name" := PyStr name;
        "parentName" := PyStr parent_name;
        "rfModel" := PyStr "Cubes And Walled Offices";
        "width" := PyInt 100;
        "length" := PyInt 100;
        "height" := PyInt 10;
        "floorNumber" := PyInt floor_number ]} ]} ]}.

(** The payload that [create_ip_pool] posts for a subnet and a prefix
    length. *)
Definition pool_payload_for (name subnet : string) (prefix_length : Z)
  : pyobj :=
  PyDict {[
    "name" := PyStr name;
    "poolType" := PyStr "Generic";
    "addressSpace" := PyDict {[
      "subnet" := PyStr subnet;
      "prefixLength" := PyInt prefix_length ]} ]}.

Definition server_error : reply :=
  {| elapsed := 0;
     outcome := Returned {| status_code := 500; text := "Internal Server Error";
                            resp_json := None |} |}.

Definition ok_untracked : reply :=
  json_reply 200 (PyDict {[ "message" := PyStr "ok" ]}).
(** Counting the requests of one kind among the exchanges of a run. *)
Definition is_post_request (rq : request) : bool :=
  match rq_method rq with POST => true | _ => false end.

Definition is_delete_request (rq : request) : bool :=
  match rq_method rq with DELETE => true | _ => false end.

Definition count_of (c : request -> bool) (d : list (request * reply)) : nat :=
  length (List.filter (fun x => c x.1) d).

(** From whatever state, [m] sends at most [n] requests of kind [c]. *)
Definition sends_at_most {E} `{Outside E} {A} (c : request -> bool) (n : nat)
    (m : M (World E) A) : Prop :=
  forall w, exists d,
    log (m w).2 = (log w ++ d)%list /\ (count_of c d <= n)%nat.

(** The request of a deletion: a DELETE of [url] with the client's
    headers. *)
Definition delete_request (url : string) (me : CatalystCenterAPI) : request :=
  {| rq_method := DELETE; rq_url := url; rq_headers := Some (headers me);
     rq_auth := None; rq_json := None; rq_verify := false; rq_timeout := 30 |}.

Definition sunset_tower : pyobj := PyDict {[
  "name" := PyStr "Sunset Tower"; "id" := PyStr "b-1";
  "siteNameHierarchy" :=
    PyStr "Global/United States/Golden Hills Campus/Sunset Tower" ]}.

Definition sunset_listed : reply :=
  json_reply 200 (PyDict {[ "response" := PyList [sunset_tower] ]}).

Definition token_expired : reply :=
  {| elapsed := 0;
     outcome := Returned {| status_code := 401; text := "Unauthorized";
                            resp_json := None |} |}.

Definition deleted_untracked : reply :=
  {| elapsed := 0;
     outcome := Returned {| status_code := 202; text := "";
                            resp_json := None |} |}.
(** *** What the creation plan creates and needs

    A pool or a site, by its name; what a creating call brings into being;
    what it needs to be there: the site named last in its [parent_name]
    (none for a child of the root "Global"), and for a reservation its
    site and its pool. *)

Inductive resource : Type :=
| Site (name : string)
| Pool (name : string).

Definition resource_eqb (r r' : resource) : bool :=
  match r, r' with
  | Site a, Site b | Pool a, Pool b => (a =? b)%string
  | _, _ => false
  end.

Definition creates (c : call) : option resource :=
  match c with
  | CreateIpPool name _ => Some (Pool name)
  | CreateArea name _ | CreateBuilding name _ _ _ _ _ | CreateFloor name _ _ =>
      Some (Site name)
  | _ => None
  end.

Definition last_segment (path : string) : string :=
  default "" (last (split "/" path)).

Definition parent_site (parent_name : string) : list resource :=
  if (parent_name =? "Global")%string then []
  else [Site (last_segment parent_name)].

Definition needs (c : call) : list resource :=
  match c with
  | CreateArea _ parent_name | CreateBuilding _ parent_name _ _ _ _
  | CreateFloor _ parent_name _ => parent_site parent_name
  | ReserveIpSubpool site_name _ parent_pool _ _ =>
      [Site site_name; Pool parent_pool]
  | _ => []
  end.

(** Every call of [calls] comes after calls that create what it needs. *)
Definition supplied (calls : list call) : Prop :=
  forall (i : nat) (c : call) (r : resource),
    calls !! i = Some c -> In r (needs c) ->
    exists (j : nat) (d : call),
      (j < i)%nat /\ calls !! j = Some d /\ creates d = Some r.

(** The same, computed: [made] is what the calls so far have created. *)
Fixpoint suppliedb (made : list resource) (calls : list call) : bool :=
  match calls with
  | [] => true
  | c :: rest =>
      forallb (fun r => existsb (resource_eqb r) made) (needs c)
      && suppliedb (made ++ option_list (creates c)) rest
  end.

(** One pass of [delete_floors] over the floor names makes one of these
    two sequences of calls. *)
Definition floor_round (r : list call) : Prop :=
  r = [DeleteSite "FLOOR_1"]
  \/ r = [DeleteSite "FLOOR_1"; DeleteSite "FLOOR_2"].

(** A console at which "no" is typed. *)
Definition typing_no : string -> M unit string :=
  fun prompt => mret "no".
(** [site.get('name', '') == 'Global'] *)
Definition named_global (site : pyobj) : bool :=
  match get site "name" (PyStr "") with
  | Returned n => eq_str n "Global"
  | Raised _ => false
  end.

(** The hierarchy and the type that a site created by this call has on a
    controller that names a site by its parent's path, a slash and its
    name. *)
Definition created_site (c : call) : option (string * string) :=
  match c with
  | CreateArea name parent_name => Some (parent_name ++ "/" ++ name, "area")
  | CreateBuilding name parent_name _ _ _ _ =>
      Some (parent_name ++ "/" ++ name, "building")
  | CreateFloor name parent_name _ => Some (parent_name ++ "/" ++ name, "floor")
  | _ => None
  end.

(** The depth fallback gives the site created by [c] its type. *)
Definition typed_by_depth (c : call) : bool :=
  match created_site c with
  | Some (hierarchy, type) =>
      eq_str (type_by_depth PyNone (count_char "/" hierarchy)) type
  | None => true
  end.

(** A file system with one file. *)
Definition only_file (name : string) (content : pyobj) (path : string)
  : file_outcome :=
  if (path =? name)%string then Parsed content else Absent.

Definition unauthorized : reply :=
  {| elapsed := 0;
     outcome := Returned {| status_code := 401; text := "Unauthorized";
                            resp_json := None |} |}.
Definition accepted_with_url : reply :=
  json_reply 202 (PyDict {[
    "executionStatusUrl" := PyStr "/dna/platform/management/execution/e1" ]}).
(** The exchanges of a creating method that looks [path] up and posts
    [payload] to it: the lookup, then nothing more, or the POST of the
    payload followed by nothing but GETs. *)
Definition creation_trace (me : CatalystCenterAPI) (path : string)
    (payload : pyobj) (d : list (request * reply)) : Prop :=
  exists lookup rest,
    d = lookup :: rest
    /\ lookup.1 = lookup_request path me
    /\ (rest = []
        \/ exists rp gets,
             rest = (post_request path me payload, rp) :: gets
             /\ Forall (fun x => rq_method x.1 = GET) gets).
(** What a POST of [reserve_ip_subpool] has to be: the reservation payload
    with the CIDR of a pool named [parent_pool], posted under the id of a
    site named [site_name]. *)
Definition reserves_under {E} `{Outside E} (me : CatalystCenterAPI)
    (site_name reservation_name parent_pool subnet : string)
    (prefix_length : Z) (rq : request) : Prop :=
  rq_method rq = POST ->
  exists site site_id pool pool_name parent_cidr,
    is_named site site_name
    /\ item site "id" = Returned site_id
    /\ get pool "ipPoolName" PyNone = Returned pool_name
    /\ eq_str pool_name parent_pool = true
    /\ get pool "ipPoolCidr" PyNone = Returned parent_cidr
    /\ rq = post_request
              ("/dna/intent/api/v1/reserve-ip-subpool/" ++ str site_id) me
              (reservation_payload reservation_name parent_cidr subnet
                 prefix_length).

(** A reservation as the controller lists it, and the answer that lists
    it. *)
Definition st_corp : pyobj := PyDict {[
  "groupName" := PyStr "ST_CORP"; "id" := PyStr "r-1" ]}.

Definition st_corp_reserved : reply :=
  json_reply 200 (PyDict {[ "response" := PyList [st_corp] ]}).

(** * Properties *)

(** ** Python helpers on examples *)

Example split_path :
  split "/" "Global/United States/Area" = ["Global"; "United States"; "Area"].
Proof. reflexivity. Qed.

Example split_empty : split "/" "" = [""].
Proof. reflexivity. Qed.

Example rsplit1_subnet : rsplit1 "." "10.201.2.0" = ["10.201.2"; "0"].
Proof. reflexivity. Qed.

Example int_of_str_16 : int_of_str " +1_6 " = Returned 16.
Proof. reflexivity. Qed.

Example int_of_str_bad : int_of_str "1__6" = Raised ValueError.
Proof. reflexivity. Qed.

(** ** Running monadic code *)

Ltac run :=
  unfold mbind, M_bind, bind, mret, M_ret, ret, raise, lift, try_except,
    except_Exception, get_self, set_self, time_time, time_sleep,
    requests_get, requests_post, requests_delete, requests_post_auth, send;
  cbn [fst snd outside clock log self].

Section PollProperties.
Context {E : Type} `{Outside E}.

Lemma poll_judge (url : string) (w : World E) :
  poll url w =
  let rq := poll_request url (self w) in
  let '(e', rp) := serve (outside w) (clock w) rq in
  let w1 := answered w rq e' rp in
  match judge (outcome rp) with
  | Finished b => (Returned (Some b), w1)
  | StillRunning => (Returned None, slept (check_interval * 1000) w1)
  | Propagated e => (Raised e, w1)
  end.
Proof.
  unfold poll, judge, poll_request. run.
  destruct (serve _ _ _) as [e' rp]. cbn.
  destruct (outcome rp) as [resp | e]; cbn.
  - destruct (status_code resp =? 404); [reflexivity |].
    destruct (status_code resp =? 200); [| reflexivity].
    destruct (response_json resp) as [data | e]; cbn.
    + destruct (check_task data) as [[b |] | e]; cbn; try reflexivity.
      destruct e; reflexivity.
    + destruct e; reflexivity.
  - destruct e; reflexivity.
Qed.

Lemma wait_loop_unfold (n : nat) (url : string) (start timeout : Z) (w : World E) :
  wait_loop (S n) url start timeout w =
  if clock w - start <? timeout * 1000 then
    match poll url w with
    | (Returned (Some b), w1) => (Returned (Some b), w1)
    | (Returned None, w1) => wait_loop n url start timeout w1
    | (Raised e, w1) => (Raised e, w1)
    end
  else (Returned (Some true), w).
Proof.
  cbn [wait_loop]. run.
  destruct (clock w - start <? timeout * 1000); [| reflexivity].
  destruct (poll url w) as [[[b |] | e] w1]; reflexivity.
Qed.

(** The fuel handed over by [wait_for_task] is never used up: every round
    that does not return moves the clock by at least [check_interval]. *)
Lemma wait_loop_fuel (n : nat) (url : string) (start timeout : Z) :
  forall w : World E,
    timeout * 1000 - (clock w - start) <= check_interval * 1000 * Z.of_nat n ->
    (wait_loop (S n) url start timeout w).1 <> Returned None.
Proof.
  unfold check_interval.
  induction n as [| n IH]; intros w Hn; rewrite wait_loop_unfold.
  - destruct (Z.ltb_spec (clock w - start) (timeout * 1000)); [lia | discriminate].
  - destruct (Z.ltb_spec (clock w - start) (timeout * 1000)); [| discriminate].
    rewrite poll_judge. cbv zeta.
    destruct (serve _ _ _) as [e' rp].
    destruct (judge (outcome rp)); try discriminate.
    apply IH. unfold slept, answered, check_interval. cbn [clock]. lia.
Qed.

Lemma max_polls_covers (timeout : Z) :
  timeout * 1000 <= check_interval * 1000 * Z.of_nat (max_polls timeout).
Proof.
  unfold max_polls, check_interval.
  destruct (Z.le_gt_cases timeout 0) as [Hle | Hgt]; [lia |].
  rewrite Z2Nat.id by (apply Z.div_pos; lia).
  pose proof (Z.mul_div_le (timeout + 10 - 1) 10 ltac:(lia)).
  pose proof (Z.mod_pos_bound (timeout + 10 - 1) 10 ltac:(lia)).
  pose proof (Z.div_mod (timeout + 10 - 1) 10 ltac:(lia)). lia.
Qed.

Lemma wait_for_task_run (task_id task_url : pyobj) (timeout : Z) (url : string)
    (w : World E) :
  task_status_url (self w) task_id task_url = Returned url ->
  wait_for_task task_id task_url timeout w =
  match wait_loop (S (max_polls timeout)) url (clock w) timeout w with
  | (Returned r, w') => (Returned (default true r), w')
  | (Raised e, w') => (Raised e, w')
  end.
Proof.
  intros Hurl. unfold wait_for_task. run. rewrite Hurl.
  destruct (wait_loop _ _ _ _ _) as [[r | e] w']; reflexivity.
Qed.

(** A poll whose answer is judged final ends the wait with that result. *)
Lemma wait_loop_finished (n : nat) (url : string) (start timeout : Z)
    (w : World E) (b : bool) :
  clock w - start < timeout * 1000 ->
  judge (outcome (poll_answer w url)) = Finished b ->
  (wait_loop (S n) url start timeout w).1 = Returned (Some b).
Proof.
  intros Hin Hj. rewrite wait_loop_unfold.
  destruct (Z.ltb_spec (clock w - start) (timeout * 1000)); [| lia].
  rewrite poll_judge. cbv zeta. unfold poll_answer in Hj.
  destruct (serve _ _ _) as [e' rp]. cbn in Hj. rewrite Hj. reflexivity.
Qed.

Lemma wait_for_task_finished (task_id task_url : pyobj) (timeout : Z)
    (url : string) (w : World E) (b : bool) :
  task_status_url (self w) task_id task_url = Returned url ->
  0 < timeout ->
  judge (outcome (poll_answer w url)) = Finished b ->
  (wait_for_task task_id task_url timeout w).1 = Returned b.
Proof.
  intros Hurl Hpos Hj. rewrite (wait_for_task_run _ _ _ url) by assumption.
  pose proof (wait_loop_finished (max_polls timeout) url (clock w) timeout w b
                ltac:(lia) Hj) as Hloop.
  destruct (wait_loop _ _ _ _ _) as [[r | e] w']; cbn in *; [| discriminate].
  injection Hloop as ->. reflexivity.
Qed.

Lemma judge_200 (resp : response) (data : pyobj) :
  status_code resp = 200 -> resp_json resp = Some data ->
  judge (Returned resp) =
  match check_task data with
  | Returned (Some b) => Finished b
  | Returned None => StillRunning
  | Raised e => if is_Exception e then StillRunning else Propagated e
  end.
Proof.
  intros Hc Hj. unfold judge, response_json. rewrite Hc, Hj. reflexivity.
Qed.

Lemma check_task_success_with_error (m : gmap string pyobj) (err : pyobj) :
  m !! "status" = Some (PyStr "SUCCESS") ->
  m !! "bapiError" = Some err -> truthy err = true ->
  check_task (PyDict m) = Returned (Some false).
Proof.
  intros Hs He Ht. unfold check_task. cbn. rewrite Hs, He. cbn. rewrite Ht.
  reflexivity.
Qed.

Lemma check_task_success_sync_false (m sm : gmap string pyobj) (s : pyobj) :
  m !! "status" = Some (PyStr "SUCCESS") ->
  m !! "bapiSyncResponseJson" = Some (PyDict sm) ->
  sm !! "status" = Some s ->
  s = PyStr "false" \/ s = PyBool false ->
  check_task (PyDict m) = Returned (Some false).
Proof.
  intros Hs Hsync Hst Hfalse. unfold check_task. cbn. rewrite Hs. cbn.
  destruct (truthy (default PyNone (m !! "bapiError"))); [reflexivity |].
  rewrite Hsync. cbn. rewrite Hst. cbn.
  destruct Hfalse as [-> | ->]; reflexivity.
Qed.

(** C2.  A 200 answer whose top-level status is "SUCCESS" and which carries
    a non-empty (truthy) [bapiError] makes the wait report failure: in
    whichever round of the loop the answer arrives, and so for a call whose
    first poll gets it. *)
Theorem success_with_error_is_failure
    (w : World E) (url : string) (resp : response) (m : gmap string pyobj)
    (err : pyobj) :
  outcome (poll_answer w url) = Returned resp ->
  status_code resp = 200 ->
  resp_json resp = Some (PyDict m) ->
  m !! "status" = Some (PyStr "SUCCESS") ->
  m !! "bapiError" = Some err ->
  truthy err = true ->
  (forall (n : nat) (start timeout : Z),
     clock w - start < timeout * 1000 ->
     (wait_loop (S n) url start timeout w).1 = Returned (Some false))
  /\ (forall (task_id task_url : pyobj) (timeout : Z),
        task_status_url (self w) task_id task_url = Returned url ->
        0 < timeout ->
        (wait_for_task task_id task_url timeout w).1 = Returned false).
Proof.
  intros Hout Hcode Hjson Hs He Ht.
  assert (Hj : judge (outcome (poll_answer w url)) = Finished false).
  { rewrite Hout, (judge_200 _ _ Hcode Hjson).
    rewrite (check_task_success_with_error _ _ Hs He Ht). reflexivity. }
  split.
  - intros n start timeout Hin. apply wait_loop_finished; assumption.
  - intros task_id task_url timeout Hurl Hpos.
    apply (wait_for_task_finished _ _ _ url); assumption.
Qed.


End PollProperties.

Lemma success_with_error_is_failure_witness :
  (wait_for_task (PyStr "t1") PyNone 600
     (playing [json_reply 200 (PyDict success_with_error)])).1
  = Returned false.
Proof.
  refine (proj2 (success_with_error_is_failure
                   (playing [json_reply 200 (PyDict success_with_error)])
                   task_t1_url
                   {| status_code := 200; text := "{...}";
                      resp_json := Some (PyDict success_with_error) |}
                   success_with_error (PyStr "Pool overlaps")
                   _ _ _ _ _ _)
                (PyStr "t1") PyNone 600 _ _);
    vm_compute; reflexivity.
Defined.



(** ** Computations that move the state along a preorder *)

Section Steps.
Context {W : Type} (R : relation W) `{!PreOrder R}.

Lemma steps_ret {A} (a : A) : steps R (mret a : M W A).
Proof. intros w. reflexivity. Qed.

Lemma steps_raise {A} (e : exn) : steps R (raise e : M W A).
Proof. intros w. reflexivity. Qed.

Lemma steps_lift {A} (r : result A) : steps R (lift r : M W A).
Proof. intros w. reflexivity. Qed.

Lemma steps_bind {A B} (m : M W A) (k : A -> M W B) :
  steps R m -> (forall a, steps R (k a)) -> steps R (m ≫= k).
Proof.
  intros Hm Hk w. unfold mbind, M_bind, bind.
  specialize (Hm w). destruct (m w) as [[a | e] w1]; cbn in *.
  - etransitivity; [exact Hm | apply Hk].
  - exact Hm.
Qed.

Lemma steps_bind_lift {A B} (r : result A) (k : A -> M W B) :
  (forall a, r = Returned a -> steps R (k a)) -> steps R (lift r ≫= k).
Proof.
  intros Hk w. unfold mbind, M_bind, bind, lift.
  destruct r as [a | e]; cbn; [apply Hk; reflexivity | reflexivity].
Qed.

Lemma steps_try_except {A} (m : M W A) (handler : exn -> option (M W A)) :
  steps R m ->
  (forall e h, handler e = Some h -> steps R h) ->
  steps R (try_except m handler).
Proof.
  intros Hm Hh w. unfold try_except.
  specialize (Hm w). destruct (m w) as [[a | e] w1]; cbn in *; [exact Hm |].
  destruct (handler e) as [h |] eqn:He; cbn; [| exact Hm].
  etransitivity; [exact Hm | exact (Hh e h He w1)].
Qed.

Lemma steps_for_each_in {A B} (xs : list A) (body : A -> M W (option B)) :
  (forall x, In x xs -> steps R (body x)) -> steps R (for_each xs body).
Proof.
  induction xs as [| x xs IH]; intros Hbody; cbn [for_each].
  - intros w. reflexivity.
  - apply (steps_bind (body x)); [apply Hbody; left; reflexivity |].
    intros [b |]; [apply (steps_ret (Some b)) |].
    apply IH. intros y Hy. apply Hbody. right. exact Hy.
Qed.

Lemma steps_for_each {A B} (xs : list A) (body : A -> M W (option B)) :
  (forall x, steps R (body x)) -> steps R (for_each xs body).
Proof. intros Hbody. apply steps_for_each_in. intros x _. apply Hbody. Qed.

Lemma steps_for_all_in {A B} (xs : list A) (body : A -> M W B) :
  (forall x, In x xs -> steps R (body x)) -> steps R (for_all xs body).
Proof.
  intros Hbody. unfold for_all.
  apply steps_bind; [| intros; apply steps_ret].
  apply steps_for_each_in. intros x Hx.
  apply steps_bind; [apply Hbody; exact Hx | intros; apply steps_ret].
Qed.

Lemma steps_for_all {A B} (xs : list A) (body : A -> M W B) :
  (forall x, steps R (body x)) -> steps R (for_all xs body).
Proof. intros Hbody. apply steps_for_all_in. intros x _. apply Hbody. Qed.

End Steps.

Section Growth.
Context {E : Type} `{Outside E}.
Variable P : request -> Prop.

#[local] Instance grows_preorder : PreOrder (@grows E P).
Proof.
  split.
  - intros w. exists []. split; [symmetry; apply app_nil_r | constructor].
  - intros w1 w2 w3 (d1 & H1 & F1) (d2 & H2 & F2).
    exists (d1 ++ d2)%list. split.
    + rewrite H2, H1. symmetry. apply app_assoc.
    + apply Forall_app. split; assumption.
Qed.

Lemma steps_send (rq : request) : P rq -> steps (grows P) (send rq).
Proof.
  intros HP w. unfold send. destruct (serve _ _ _) as [e' rp]. cbn.
  exists [(rq, rp)]. split; [reflexivity |]. repeat constructor. exact HP.
Qed.

Lemma grows_same_log (w w' : World E) : log w' = log w -> grows P w w'.
Proof.
  intros Hlog. exists []. split; [rewrite Hlog, app_nil_r; reflexivity | constructor].
Qed.

Lemma steps_time_time : steps (grows P) (@time_time E).
Proof. intros w. apply grows_same_log. reflexivity. Qed.

Lemma steps_time_sleep (ms : Z) : steps (grows P) (@time_sleep E ms).
Proof. intros w. apply grows_same_log. reflexivity. Qed.

Lemma steps_get_self : steps (grows P) (@get_self E).
Proof. intros w. apply grows_same_log. reflexivity. Qed.

Lemma steps_set_self (me : CatalystCenterAPI) : steps (grows P) (@set_self E me).
Proof. intros w. apply grows_same_log. reflexivity. Qed.

Lemma steps_builtin_input (prompt : string) :
  steps (grows P) (builtin_input prompt).
Proof.
  intros w. apply grows_same_log. unfold builtin_input.
  destruct (read_line _ _). reflexivity.
Qed.

Lemma steps_load_credentials (file_path : string) :
  steps (grows P) (load_credentials_from_yaml file_path).
Proof. intros w. apply grows_same_log. reflexivity. Qed.

End Growth.

Section SameSelf.
Context {E : Type} `{Outside E}.

#[local] Instance same_self_preorder : PreOrder (@same_self E).
Proof.
  split.
  - intros w. reflexivity.
  - intros w1 w2 w3 H12 H23. unfold same_self in *. congruence.
Qed.

Lemma steps_send_same_self (rq : request) : steps same_self (send rq).
Proof. intros w. unfold send. destruct (serve _ _ _). reflexivity. Qed.

Lemma steps_time_time_same_self : steps same_self (@time_time E).
Proof. intros w. reflexivity. Qed.

Lemma steps_time_sleep_same_self (ms : Z) : steps same_self (@time_sleep E ms).
Proof. intros w. reflexivity. Qed.

Lemma steps_get_self_same_self : steps same_self (@get_self E).
Proof. intros w. reflexivity. Qed.

End SameSelf.

#[global] Existing Instance grows_preorder.
#[global] Existing Instance same_self_preorder.

Create HintDb steps discriminated.

#[global] Hint Resolve steps_time_time steps_time_sleep steps_get_self
  steps_set_self steps_builtin_input steps_load_credentials
  steps_time_time_same_self steps_time_sleep_same_self
  steps_get_self_same_self : steps.

(** Walks through a computation along its syntax; what is left are the
    conditions on the requests it sends. *)
Ltac steps_handler :=
  let e := fresh "e" in
  let h := fresh "h" in
  let Hh := fresh "Hh" in
  intros e h Hh; destruct e; cbn in Hh; try discriminate Hh;
  injection Hh as <-.

Ltac steps_walk :=
  repeat match goal with
  | |- steps ?R _ =>
      first
        [ apply (steps_ret R)
        | apply (steps_lift R)
        | solve [ auto with steps ]
        | apply (steps_bind_lift R); intros ? ?
        | apply (steps_bind R); [| intros ? ]
        | apply (steps_try_except R); [| steps_handler ]
        | apply (steps_for_each R); intros ?
        | apply (steps_for_all R); intros ?
        | apply steps_send
        | apply steps_send_same_self
        | match goal with
          | |- steps _ (if ?b then _ else _) => destruct b
          | |- steps _ (match ?x with _ => _ end) => destruct x
          | |- steps _ (let _ := _ in _) => cbv zeta
          end ]
  end.

Ltac steps_method :=
  unfold requests_get, requests_post, requests_delete, requests_post_auth;
  steps_walk.

Ltac steps_close :=
  try first
    [ assumption
    | match goal with H : allows_get _ |- _ => apply H end
    | match goal with H : allows_delete _ |- _ => apply H end
    | match goal with H : allows_auth _ |- _ => apply H end
    | match goal with H : allows_post _ _ |- _ => apply H; exact I end
    | match goal with H : forall _ _ _, _ |- _ => apply H; assumption end
    | match goal with H : forall _ _ _, _ |- _ => apply H end
    | solve [ auto with steps ] ].

Section MethodSteps.
Context {E : Type} `{Outside E}.
Variable P : request -> Prop.
Hypothesis Hget : allows_get P.

Lemma steps_poll (url : string) : steps (grows P) (poll url).
Proof. unfold poll. steps_method; apply Hget. Qed.
#[local] Hint Resolve steps_poll : steps.

Lemma steps_wait_loop (fuel : nat) (url : string) (start timeout : Z) :
  steps (grows P) (wait_loop fuel url start timeout).
Proof.
  induction fuel as [| fuel IH]; cbn [wait_loop]; steps_method; steps_close.
Qed.
#[local] Hint Resolve steps_wait_loop : steps.

Lemma steps_wait_for_task (task_id task_url : pyobj) (timeout : Z) :
  steps (grows P) (wait_for_task task_id task_url timeout).
Proof.
  unfold wait_for_task. steps_method; steps_close.
Qed.
#[local] Hint Resolve steps_wait_for_task : steps.

Lemma steps_authenticate : allows_auth P -> steps (grows P) authenticate.
Proof. intros Hauth. unfold authenticate. steps_method; steps_close. Qed.
#[local] Hint Resolve steps_authenticate : steps.

Lemma steps_get_site_by_name (site_name : string) :
  steps (grows P) (get_site_by_name site_name).
Proof. unfold get_site_by_name. steps_method; steps_close. Qed.
#[local] Hint Resolve steps_get_site_by_name : steps.

Lemma steps_get_site_by_name_and_parent (site_name parent_name : string) :
  steps (grows P) (get_site_by_name_and_parent site_name parent_name).
Proof. unfold get_site_by_name_and_parent. steps_method; steps_close. Qed.
#[local] Hint Resolve steps_get_site_by_name_and_parent : steps.

Lemma steps_get_global_pool_by_name (pool_name : string) :
  steps (grows P) (get_global_pool_by_name pool_name).
Proof. unfold get_global_pool_by_name. steps_method; steps_close. Qed.
#[local] Hint Resolve steps_get_global_pool_by_name : steps.

Lemma steps_get_reservation_by_name (site_name reservation_name : string) :
  steps (grows P) (get_reservation_by_name site_name reservation_name).
Proof.
  unfold get_reservation_by_name. steps_method; steps_close.
Qed.
#[local] Hint Resolve steps_get_reservation_by_name : steps.

Lemma steps_await_creation (result : pyobj) (pause : Z) :
  steps (grows P) (await_creation result pause).
Proof.
  unfold await_creation. steps_method; steps_close.
Qed.
#[local] Hint Resolve steps_await_creation : steps.

Lemma steps_pool_posted (name : string) (response : response) :
  steps (grows P) (pool_posted name response).
Proof. unfold pool_posted. steps_method; steps_close. Qed.
#[local] Hint Resolve steps_pool_posted : steps.

Lemma steps_create_ip_pool (name cidr : string) :
  (forall url hdrs payload,
     pool_payload name cidr = Returned payload ->
     P {| rq_method := POST; rq_url := url; rq_headers := Some hdrs;
          rq_auth := None; rq_json := Some payload; rq_verify := false;
          rq_timeout := 30 |}) ->
  steps (grows P) (create_ip_pool name cidr).
Proof.
  intros Hpost. unfold create_ip_pool. steps_method; steps_close.
Qed.
#[local] Hint Resolve steps_create_ip_pool : steps.

Lemma steps_reserve_ip_subpool
    (site_name reservation_name parent_pool subnet : string) (prefix_length : Z) :
  (forall url hdrs parent_cidr,
     P {| rq_method := POST; rq_url := url; rq_headers := Some hdrs;
          rq_auth := None;
          rq_json := Some (reservation_payload reservation_name parent_cidr
                             subnet prefix_length);
          rq_verify := false; rq_timeout := 30 |}) ->
  steps (grows P)
    (reserve_ip_subpool site_name reservation_name parent_pool subnet
       prefix_length).
Proof.
  intros Hpost. unfold reserve_ip_subpool. steps_method; steps_close.
Qed.
#[local] Hint Resolve steps_reserve_ip_subpool : steps.

Section Posting.
Hypothesis Hposts : allows_post P (fun _ => True).

Lemma steps_create_area (name parent_name : string) :
  steps (grows P) (create_area name parent_name).
Proof.
  unfold create_area. steps_method; steps_close.
Qed.
#[local] Hint Resolve steps_create_area : steps.

Lemma steps_create_building (name parent_name : string)
    (latitude longitude : spec_float) (address country : string) :
  steps (grows P)
    (create_building name parent_name latitude longitude address country).
Proof.
  unfold create_building. steps_method; steps_close.
Qed.
#[local] Hint Resolve steps_create_building : steps.

Lemma steps_post_floor (name parent_name : string) (floor_number : Z) :
  steps (grows P) (post_floor name parent_name floor_number).
Proof.
  unfold post_floor. steps_method; steps_close.
Qed.
#[local] Hint Resolve steps_post_floor : steps.

Lemma steps_create_floor (name parent_name : string) (floor_number : Z) :
  steps (grows P) (create_floor name parent_name floor_number).
Proof.
  unfold create_floor. steps_method; steps_close.
Qed.
#[local] Hint Resolve steps_create_floor : steps.
End Posting.

Section Deleting.
Hypothesis Hdelete : allows_delete P.

Lemma steps_await_deletion (response : response) (pause : Z) :
  steps (grows P) (await_deletion response pause).
Proof. unfold await_deletion. steps_method; steps_close. Qed.
#[local] Hint Resolve steps_await_deletion : steps.

Lemma steps_delete_site_attempt (url : string) (attempt : Z) :
  allows_auth P -> steps (grows P) (delete_site_attempt url attempt).
Proof.
  intros Hauth. unfold delete_site_attempt. steps_method; steps_close.
Qed.
#[local] Hint Resolve steps_delete_site_attempt : steps.

Lemma steps_delete_site (site_name : string) :
  allows_auth P -> steps (grows P) (delete_site site_name).
Proof.
  intros Hauth. unfold delete_site. steps_method; steps_close.
Qed.
#[local] Hint Resolve steps_delete_site : steps.

Lemma steps_delete_reservation (site_name reservation_name : string) :
  steps (grows P) (delete_reservation site_name reservation_name).
Proof.
  unfold delete_reservation. steps_method; steps_close.
Qed.
#[local] Hint Resolve steps_delete_reservation : steps.

Lemma steps_delete_global_pool (pool_name : string) :
  steps (grows P) (delete_global_pool pool_name).
Proof.
  unfold delete_global_pool. steps_method; steps_close.
Qed.
#[local] Hint Resolve steps_delete_global_pool : steps.
End Deleting.

End MethodSteps.

#[global] Hint Resolve steps_poll steps_wait_loop steps_wait_for_task
  steps_authenticate steps_get_site_by_name steps_get_site_by_name_and_parent
  steps_get_global_pool_by_name steps_get_reservation_by_name
  steps_await_creation steps_pool_posted steps_create_area steps_create_building
  steps_post_floor steps_create_floor steps_await_deletion
  steps_delete_site_attempt steps_delete_site steps_delete_reservation
  steps_delete_global_pool : steps.

(** ** The wait that times out *)

Section TimeoutProperties.
Context {E : Type} `{Outside E}.

Lemma quietb_sound (d : list (request * reply)) :
  forallb quietb d = true -> Forall quiet d.
Proof.
  induction d as [| x d IH]; cbn [forallb]; intros Hall; constructor.
  - apply andb_prop in Hall as [Hx _].
    unfold quietb, quiet, still_running, instant in *.
    destruct (judge (outcome x.2)); try discriminate.
    split; [reflexivity | apply N.eqb_eq; exact Hx].
  - apply IH. apply andb_prop in Hall as [_ Hd]. exact Hd.
Qed.

Lemma max_polls_lt (timeout : Z) (j : nat) :
  check_interval * 1000 * Z.of_nat j < timeout * 1000
  <-> (j < max_polls timeout)%nat.
Proof.
  unfold max_polls, check_interval.
  pose proof (Z.div_mod (timeout + 10 - 1) 10 ltac:(lia)) as Hdm.
  pose proof (Z.mod_pos_bound (timeout + 10 - 1) 10 ltac:(lia)) as Hb.
  destruct (Z.le_gt_cases timeout 0) as [Hle | Hgt].
  - assert ((timeout + 10 - 1) / 10 <= 0) by lia.
    rewrite Z2Nat.nonpos by assumption. lia.
  - assert (0 <= (timeout + 10 - 1) / 10) by (apply Z.div_pos; lia).
    lia.
Qed.

Lemma task_status_url_defined (me : CatalystCenterAPI) (task_id task_url : pyobj) :
  is_optional_str task_url ->
  exists url, task_status_url me task_id task_url = Returned url.
Proof.
  unfold task_status_url. destruct task_url; cbn; try contradiction; intros _.
  - eauto.
  - destruct (negb (s =? "")%string); eauto.
Qed.

Lemma app_eq_self_inv {A} (l d : list A) : l = (l ++ d)%list -> d = [].
Proof.
  intros Heq. apply (app_inv_head l). rewrite app_nil_r. symmetry. exact Heq.
Qed.

Lemma wait_loop_quiet (url : string) (start timeout : Z) (n : nat) :
  forall (w : World E) (j : nat) (d : list (request * reply)),
    clock w - start = check_interval * 1000 * Z.of_nat j ->
    (max_polls timeout - j <= n)%nat ->
    log (wait_loop (S n) url start timeout w).2 = (log w ++ d)%list ->
    Forall quiet d ->
    (wait_loop (S n) url start timeout w).1 = Returned (Some true)
    /\ length d = (max_polls timeout - j)%nat.
Proof.
  induction n as [| n IH]; intros w j d Hclock Hfuel; rewrite wait_loop_unfold;
    pose proof (max_polls_lt timeout j) as Hlt; rewrite <- Hclock in Hlt;
    destruct (Z.ltb_spec (clock w - start) (timeout * 1000)) as [Hin | Hout].
  - apply Hlt in Hin. lia.
  - cbn. intros Hlog _. rewrite (app_eq_self_inv _ _ Hlog).
    split; [reflexivity |]. cbn. destruct Hlt as [_ Hlt]. lia.
  - apply Hlt in Hin. rewrite poll_judge. cbv zeta.
    destruct (serve _ _ _) as [e' rp].
    set (rq := poll_request url (self w)).
    destruct (judge (outcome rp)) eqn:Hj.
    + cbn. intros Hlog Hq. apply app_inv_head in Hlog. subst d.
      apply Forall_cons in Hq as [[Hq _] _]. unfold still_running in Hq.
      cbn in Hq. congruence.
    + intros Hlog Hq.
      set (w2 := slept (check_interval * 1000) (answered w rq e' rp)) in *.
      destruct (steps_wait_loop (fun _ => True) ltac:(intros ? ?; exact I)
                  (S n) url start timeout w2) as (d2 & Hd2 & _).
      rewrite Hd2 in Hlog. subst w2. cbn [log slept answered] in Hlog.
      rewrite <- app_assoc in Hlog. apply app_inv_head in Hlog. subst d.
      apply Forall_cons in Hq as [[_ Hel] Hq2]. unfold instant in Hel.
      cbn in Hel.
      destruct (IH (slept (check_interval * 1000) (answered w rq e' rp))
                  (S j) d2) as [Hr Hlen]; try assumption.
      * cbn [clock slept answered]. rewrite Hel. lia.
      * lia.
      * split; [exact Hr |]. cbn [length app]. rewrite Hlen. lia.
    + cbn. intros Hlog Hq. apply app_inv_head in Hlog. subst d.
      apply Forall_cons in Hq as [[Hq _] _]. unfold still_running in Hq.
      cbn in Hq. congruence.
  - cbn. intros Hlog _. rewrite (app_eq_self_inv _ _ Hlog).
    split; [reflexivity |]. cbn. destruct Hlt as [_ Hlt]. lia.
Qed.

(** As long as every poll finds the task running, the loop can only end by
    its timeout exit (or by running out of fuel). *)
Lemma wait_loop_running (url : string) (start timeout : Z) (n : nat) :
  forall (w : World E) (d : list (request * reply)),
    log (wait_loop n url start timeout w).2 = (log w ++ d)%list ->
    Forall still_running d ->
    (wait_loop n url start timeout w).1 = Returned (Some true)
    \/ (wait_loop n url start timeout w).1 = Returned None.
Proof.
  induction n as [| n IH]; intros w d; [right; reflexivity |].
  rewrite wait_loop_unfold.
  destruct (clock w - start <? timeout * 1000); [| left; reflexivity].
  rewrite poll_judge. cbv zeta. destruct (serve _ _ _) as [e' rp].
  set (rq := poll_request url (self w)).
  destruct (judge (outcome rp)) eqn:Hj.
  - cbn. intros Hlog Hq. apply app_inv_head in Hlog. subst d.
    apply Forall_cons in Hq as [Hq _]. unfold still_running in Hq. cbn in Hq.
    congruence.
  - intros Hlog Hq.
    set (w2 := slept (check_interval * 1000) (answered w rq e' rp)) in *.
    destruct (steps_wait_loop (fun _ => True) ltac:(intros ? ?; exact I)
                n url start timeout w2) as (d2 & Hd2 & _).
    rewrite Hd2 in Hlog. subst w2. cbn [log slept answered] in Hlog.
    rewrite <- app_assoc in Hlog. apply app_inv_head in Hlog. subst d.
    apply Forall_cons in Hq as [_ Hq2]. exact (IH _ d2 Hd2 Hq2).
  - cbn. intros Hlog Hq. apply app_inv_head in Hlog. subst d.
    apply Forall_cons in Hq as [Hq _]. unfold still_running in Hq. cbn in Hq.
    congruence.
Qed.


End TimeoutProperties.



(** ** Looking a site up under its parent *)

Lemma split_parts_no_sep (sep : ascii) (s : string) :
  Forall (fun p => count_char sep p = 0) (split sep s).
Proof.
  induction s as [| c s IH]; cbn [split].
  - repeat constructor.
  - destruct (Ascii.eqb c sep) eqn:Hc.
    + constructor; [reflexivity | exact IH].
    + destruct (split sep s) as [| hd tl].
      * repeat constructor. cbn. rewrite Hc. reflexivity.
      * apply Forall_cons in IH as [Hhd Htl].
        constructor; [| exact Htl]. cbn. rewrite Hc, Hhd. reflexivity.
Qed.

Lemma direct_parent_is_spec (parts : list string) (parent_name : string) :
  direct_parent_is parts parent_name = true <->
  (2 <= length parts)%nat /\ parts !! (length parts - 2)%nat = Some parent_name.
Proof.
  unfold direct_parent_is. rewrite andb_true_iff, Nat.leb_le.
  destruct (parts !! (length parts - 2)%nat) as [p |].
  - rewrite String.eqb_eq. split; intros [? ?]; split; congruence.
  - split; intros [? ?]; discriminate.
Qed.

Lemma direct_parent_has_no_slash (h parent_name : string) :
  direct_parent_is (split "/" h) parent_name = true ->
  count_char "/" parent_name = 0.
Proof.
  intros Hd. apply direct_parent_is_spec in Hd as [_ Hl].
  pose proof (split_parts_no_sep "/" h) as Hall.
  rewrite Forall_lookup in Hall. exact (Hall _ _ Hl).
Qed.

Lemma parent_of_direct (m : gmap string pyobj) (h parent_name : string) :
  default (PyStr "") (m !! "siteNameHierarchy") = PyStr h ->
  direct_parent_is (split "/" h) parent_name = true <->
  parent_of (PyDict m) = Some parent_name.
Proof.
  intros Hh. unfold parent_of. rewrite Hh. cbv zeta.
  rewrite direct_parent_is_spec.
  destruct (Nat.leb_spec 2 (length (split "/" h))); split.
  - intros [_ Hl]. exact Hl.
  - intros Hl. split; [assumption | exact Hl].
  - intros [? _]. lia.
  - discriminate.
Qed.

(** What [first_site_under] returns, when it returns a site, is a listed
    site of that name whose direct parent is the one asked for. *)
Lemma first_site_under_sound (site_name parent_name : string)
    (sites : list pyobj) (s : pyobj) :
  first_site_under site_name parent_name sites = Returned s ->
  s = PyNone
  \/ (In s sites /\ is_named s site_name /\ parent_of s = Some parent_name).
Proof.
  induction sites as [| site rest IH]; cbn [first_site_under].
  - intros [= <-]. left. reflexivity.
  - destruct (item site "name") as [n |] eqn:Hname; cbn; [| discriminate].
    destruct (eq_str n site_name) eqn:Hn.
    + destruct site as [| | | | | | m]; try discriminate Hname. cbn.
      destruct (default (PyStr "") (m !! "siteNameHierarchy")) as [| | | | h | |]
        eqn:Hh; cbn; try discriminate.
      destruct (direct_parent_is (split "/" h) parent_name) eqn:Hd.
      * intros [= <-]. right. split; [left; reflexivity |]. split.
        -- exists n. split; assumption.
        -- apply (parent_of_direct m h); assumption.
      * intros Hrest. destruct (IH Hrest) as [-> | (Hin & Hrest')];
          [left; reflexivity | right; split; [right; exact Hin | exact Hrest']].
    + intros Hrest. destruct (IH Hrest) as [-> | (Hin & Hrest')];
        [left; reflexivity | right; split; [right; exact Hin | exact Hrest']].
Qed.

(** On a well-formed listing the search does not raise, and it finds a site
    under the parent whenever there is one. *)
Lemma first_site_under_complete (site_name parent_name : string)
    (sites : list pyobj) :
  Forall site_ok sites ->
  exists s,
    first_site_under site_name parent_name sites = Returned s
    /\ ((exists f, In f sites /\ is_named f site_name
                   /\ parent_of f = Some parent_name) ->
        In s sites /\ is_named s site_name /\ parent_of s = Some parent_name).
Proof.
  induction 1 as [| site rest (m & n & h & -> & Hn & Hh) Hrest IH];
    cbn [first_site_under].
  - exists PyNone. split; [reflexivity |]. intros (f & [] & _).
  - cbn. rewrite Hn. cbn. rewrite Hh. cbn.
    destruct IH as (s & Hs & Hfound).
    destruct (eq_str n site_name) eqn:Hnamed;
      [destruct (direct_parent_is (split "/" h) parent_name) eqn:Hd |].
    + exists (PyDict m). split; [reflexivity |]. intros _.
      split; [left; reflexivity |]. split.
      * exists n. cbn. rewrite Hn. split; [reflexivity | exact Hnamed].
      * apply (parent_of_direct m h); assumption.
    + exists s. split; [exact Hs |]. intros (f & [<- | Hin] & Hf & Hp).
      * apply (parent_of_direct m h) in Hp; [congruence | exact Hh].
      * destruct Hfound as (? & ? & ?); [exists f; auto |].
        split; [right; assumption | split; assumption].
    + exists s. split; [exact Hs |]. intros (f & [<- | Hin] & Hf & Hp).
      * destruct Hf as (n' & Hn' & Heq). cbn in Hn'. rewrite Hn in Hn'.
        injection Hn' as <-. congruence.
      * destruct Hfound as (? & ? & ?); [exists f; auto |].
        split; [right; assumption | split; assumption].
Qed.

Section LookupProperties.
Context {E : Type} `{Outside E}.

Lemma get_site_by_name_and_parent_run (site_name parent_name : string)
    (w : World E) :
  get_site_by_name_and_parent site_name parent_name w =
  (listing sites_path w ≫= first_site_under site_name parent_name,
   looked_up sites_path w).
Proof.
  unfold get_site_by_name_and_parent, listing, looked_up, lookup_request,
    sites_path. run.
  destruct (serve _ _ _) as [e' rp]. cbn.
  destruct (outcome rp) as [resp | e]; cbn; [| reflexivity].
  destruct (response_json resp) as [body | e]; cbn; [| reflexivity].
  destruct (item body "response") as [items | e]; cbn; [| reflexivity].
  destruct (iter items) as [sites | e]; cbn; reflexivity.
Qed.

(** C5.  A lookup of a name under parent [P] never returns a site whose
    direct parent is another [P']; sites under different parents are
    different sites; and on a well-formed listing the lookup does return a
    site of that name under [P] whenever there is one. *)
Theorem floor_lookup_keeps_to_parent
    (w : World E) (site_name P P' : string) (other : pyobj) :
  parent_of other = Some P' ->
  P <> P' ->
  (get_site_by_name_and_parent site_name P w).1 <> Returned other
  /\ (forall f, parent_of f = Some P -> f <> other)
  /\ (forall sites,
        listing sites_path w = Returned sites ->
        Forall site_ok sites ->
        (exists f, In f sites /\ is_named f site_name /\ parent_of f = Some P) ->
        exists s,
          (get_site_by_name_and_parent site_name P w).1 = Returned s
          /\ In s sites /\ is_named s site_name /\ parent_of s = Some P).
Proof.
  intros Hother Hne. rewrite get_site_by_name_and_parent_run. cbn [fst].
  repeat split.
  - destruct (listing sites_path w) as [sites | e]; cbn; [| discriminate].
    intros Hret. apply first_site_under_sound in Hret as [-> | (_ & _ & Hp)].
    + discriminate.
    + congruence.
  - intros f Hf ->. congruence.
  - intros sites -> Hok Hex. cbn.
    destruct (first_site_under_complete site_name P sites Hok) as (s & Hs & Hfound).
    exists s. split; [exact Hs | exact (Hfound Hex)].
Qed.

End LookupProperties.

Lemma floor_lookup_keeps_to_parent_witness :
  (get_site_by_name_and_parent "FLOOR_1" "Sunset Tower" (playing [two_floors])).1
  <> Returned floor_1_windy
  /\ (get_site_by_name_and_parent "FLOOR_1" "Windy City Plaza"
        (playing [two_floors])).1
     = Returned floor_1_windy.
Proof.
  split.
  - exact (proj1 (floor_lookup_keeps_to_parent (playing [two_floors])
                    "FLOOR_1" "Sunset Tower" "Windy City Plaza" floor_1_windy
                    eq_refl ltac:(discriminate))).
  - reflexivity.
Defined.

(** ** The calls of [create_infrastructure] *)

Lemma noting_bind {W A B} (c : call) (m : M W A) (k : A -> M (W * list call) B)
    (w : W) (calls : list call) :
  (noting c m ≫= k) (w, calls) =
  match m w with
  | (Returned a, w') => k a (w', (calls ++ [c])%list)
  | (Raised e, w') => (Raised e, (w', (calls ++ [c])%list))
  end.
Proof.
  unfold mbind, M_bind, bind, noting. destruct (m w) as [[a | e] w'];
    reflexivity.
Qed.

Ltac next_call :=
  rewrite noting_bind;
  match goal with
  | |- context [match ?m ?w with _ => _ end] =>
      destruct (m w) as [[? | ?] ?]; cbn [snd app];
      [| eexists; reflexivity]
  end.

(** Whatever the client does, the calls that [create_infrastructure] makes
    are the first calls of [creation_plan]: it stops only if a call raises. *)
Lemma create_infrastructure_calls {W} (cc : client W) (w : W) :
  calls_of (create_infrastructure (spy cc)) w `prefix_of` creation_plan.
Proof.
  unfold calls_of, create_infrastructure, spy, creation_plan.
  cbn [cc_create_ip_pool cc_create_area cc_create_building cc_create_floor
       cc_reserve_ip_subpool].
  do 35 next_call.
  exists []. reflexivity.
Qed.

Lemma forallb_prefix {A} (f : A -> bool) (l1 l2 : list A) :
  l1 `prefix_of` l2 -> forallb f l2 = true -> forallb f l1 = true.
Proof.
  intros [k ->]. rewrite forallb_app. intros Hall.
  apply andb_prop in Hall as [Hl1 _]. exact Hl1.
Qed.

(** ** A parent name with a slash *)

Lemma first_site_under_slash (site_name parent_name : string)
    (sites : list pyobj) (s : pyobj) :
  0 < count_char "/" parent_name ->
  first_site_under site_name parent_name sites = Returned s -> s = PyNone.
Proof.
  intros Hslash Hret.
  apply first_site_under_sound in Hret as [-> | (_ & _ & Hp)]; [reflexivity |].
  destruct s as [| | | | | | m]; try discriminate Hp.
  destruct (default (PyStr "") (m !! "siteNameHierarchy")) as [| | | | h | |]
    eqn:Hh; try (unfold parent_of in Hp; rewrite Hh in Hp; discriminate Hp).
  apply (parent_of_direct m h _ Hh) in Hp.
  apply direct_parent_has_no_slash in Hp. lia.
Qed.

Section SlashProperties.
Context {E : Type} `{Outside E}.

(** C10.  When [parent_name] has a slash, the lookup under that parent
    finds nothing: it returns [None] on every well-formed listing (and
    otherwise returns [None] or raises), so [create_floor] goes on to its
    POST whenever the lookup returns.  Every call to [create_floor] that
    [create_infrastructure] makes, on whatever client, passes such a name. *)
Theorem slash_parent_is_never_found
    (w : World E) (name parent_name : string) (floor_number : Z) :
  0 < count_char "/" parent_name ->
  (forall s, (get_site_by_name_and_parent name parent_name w).1 = Returned s ->
             s = PyNone)
  /\ (forall sites,
        listing sites_path w = Returned sites ->
        Forall site_ok sites ->
        (get_site_by_name_and_parent name parent_name w).1 = Returned PyNone)
  /\ create_floor name parent_name floor_number w
     = (get_site_by_name_and_parent name parent_name
          ≫= fun _ => post_floor name parent_name floor_number) w
  /\ (forall W (cc : client W) (w0 : W),
        forallb floor_parent_has_slash
          (calls_of (create_infrastructure (spy cc)) w0) = true).
Proof.
  intros Hslash.
  assert (Hnone : forall s,
             (get_site_by_name_and_parent name parent_name w).1 = Returned s ->
             s = PyNone).
  { intros s. rewrite get_site_by_name_and_parent_run. cbn [fst].
    destruct (listing sites_path w) as [sites | e]; cbn; [| discriminate].
    apply first_site_under_slash. exact Hslash. }
  repeat split.
  - exact Hnone.
  - intros sites Hl Hok.
    destruct (first_site_under_complete name parent_name sites Hok)
      as (s & Hs & _).
    assert (Hrun : (get_site_by_name_and_parent name parent_name w).1
                   = Returned s).
    { rewrite get_site_by_name_and_parent_run. cbn [fst]. rewrite Hl. exact Hs. }
    rewrite Hrun. rewrite (Hnone s Hrun). reflexivity.
  - unfold create_floor, mbind, M_bind, bind.
    destruct (get_site_by_name_and_parent name parent_name w) as [[s | e] w1]
      eqn:Hrun; [| reflexivity].
    rewrite (Hnone s eq_refl). reflexivity.
  - intros W cc w0.
    apply (forallb_prefix _ _ creation_plan);
      [apply create_infrastructure_calls | reflexivity].
Qed.

End SlashProperties.

Lemma slash_parent_is_never_found_witness :
  (get_site_by_name_and_parent "FLOOR_1"
     "Global/United States/Golden Hills Campus/Sunset Tower"
     (playing [two_floors])).1 = Returned PyNone.
Proof.
  refine (proj1 (proj2 (slash_parent_is_never_found (playing [two_floors])
                          "FLOOR_1"
                          "Global/United States/Golden Hills Campus/Sunset Tower"
                          1 eq_refl))
            [floor_1_sunset; floor_1_windy] eq_refl _).
  repeat constructor; eexists _, _, _; repeat split; reflexivity.
Defined.

(** ** The payloads of the end-to-end scenario *)

Lemma rcut_last (sep : ascii) (p q : string) :
  count_char sep q = 0 ->
  rcut sep (p ++ String sep q) = Some (p, q).
Proof.
  intros Hq.
  assert (Hnone : rcut sep q = None).
  { induction q as [| c q IH]; [reflexivity |]. cbn in Hq |- *.
    destruct (Ascii.eqb c sep).
    - assert (0 <= count_char sep q) by (clear; induction q as [| c' q' IH'];
        cbn; [lia | destruct (Ascii.eqb c' sep); lia]). lia.
    - rewrite IH by lia. reflexivity. }
  induction p as [| c p IH].
  - change (match rcut sep q with
            | Some (h, t) => Some (String sep h, t)
            | None => if Ascii.eqb sep sep then Some (EmptyString, q) else None
            end = Some (EmptyString, q)).
    rewrite Hnone, Ascii.eqb_refl. reflexivity.
  - change (match rcut sep (p ++ String sep q) with
            | Some (h, t) => Some (String c h, t)
            | None => if Ascii.eqb c sep
                      then Some (EmptyString, p ++ String sep q) else None
            end = Some (String c p, q)).
    rewrite IH. reflexivity.
Qed.

Lemma gateway_of_dotted (p q : string) :
  count_char "." q = 0 -> gateway_of (p ++ "." ++ q) = p ++ ".1".
Proof.
  intros Hq. unfold gateway_of, rsplit1.
  change (p ++ "." ++ q) with (p ++ String "." q).
  rewrite (rcut_last "." p q Hq). reflexivity.
Qed.

Section ScenarioProperties.
Context {E : Type} `{Outside E}.

Lemma self_looked_up (path : string) (w : World E) :
  self (looked_up path w) = self w.
Proof. unfold looked_up. destruct (serve _ _ _). reflexivity. Qed.

Lemma log_looked_up (path : string) (w : World E) :
  exists x, log (looked_up path w) = (log w ++ [x])%list
            /\ x.1 = lookup_request path (self w).
Proof.
  unfold looked_up. destruct (serve _ _ _) as [e' rp]. cbn.
  eexists. split; reflexivity.
Qed.

Lemma get_global_pool_by_name_run (pool_name : string) (w : World E) :
  get_global_pool_by_name pool_name w =
  (listing pools_path w ≫= first_pool_named pool_name,
   looked_up pools_path w).
Proof.
  unfold get_global_pool_by_name, listing, looked_up, lookup_request,
    pools_path. run.
  destruct (serve _ _ _) as [e' rp]. cbn.
  destruct (outcome rp) as [resp | e]; cbn; [| reflexivity].
  destruct (response_json resp) as [body | e]; cbn; [| reflexivity].
  destruct (item body "response") as [items | e]; cbn; [| reflexivity].
  destruct (iter items) as [pools | e]; cbn; reflexivity.
Qed.

(** A pool that is not listed is posted; the rest is [pool_posted]. *)
Lemma create_ip_pool_absent (name cidr : string) (payload : pyobj)
    (w : World E) :
  (get_global_pool_by_name name w).1 = Returned PyNone ->
  pool_payload name cidr = Returned payload ->
  create_ip_pool name cidr w =
  let w1 := looked_up pools_path w in
  match outcome (post_answer pools_path payload w1) with
  | Returned response => pool_posted name response (posted pools_path payload w1)
  | Raised e => (Raised e, posted pools_path payload w1)
  end.
Proof.
  intros Habsent Hpayload. unfold create_ip_pool. run.
  rewrite get_global_pool_by_name_run in Habsent |- *. cbn [fst] in Habsent.
  rewrite Habsent. cbn [truthy]. rewrite Hpayload. cbv zeta.
  unfold post_answer, posted, post_request, pools_path.
  destruct (serve _ _ _) as [e' rp]. cbn.
  destruct (outcome rp); reflexivity.
Qed.

Lemma new_exchanges_app (w w' : World E) (d : list (request * reply)) :
  log w' = (log w ++ d)%list -> new_exchanges w w' = d.
Proof. intros Hlog. unfold new_exchanges. rewrite Hlog. apply drop_app_length. Qed.

Lemma log_posted (path : string) (payload : pyobj) (w : World E) :
  log (posted path payload w)
  = (log w ++ [(post_request path (self w) payload, post_answer path payload w)])%list.
Proof.
  unfold posted, post_answer. destruct (serve _ _ _) as [e' rp]. reflexivity.
Qed.

Lemma method_get_allows_get : allows_get (fun rq => rq_method rq = GET).
Proof. intros url hdrs. reflexivity. Qed.

(** The exchanges of a [create_ip_pool] that finds no pool: the lookup, the
    POST of the payload, then nothing but GETs. *)
Lemma create_ip_pool_absent_log (name cidr : string) (payload : pyobj)
    (w : World E) :
  (get_global_pool_by_name name w).1 = Returned PyNone ->
  pool_payload name cidr = Returned payload ->
  exists x d,
    new_exchanges w (create_ip_pool name cidr w).2
    = x :: (post_request pools_path (self w) payload,
            post_answer pools_path payload (looked_up pools_path w)) :: d
    /\ x.1 = lookup_request pools_path (self w)
    /\ Forall (fun z => rq_method z.1 = GET) d.
Proof.
  intros Habsent Hpayload.
  rewrite (create_ip_pool_absent name cidr payload w Habsent Hpayload).
  cbv zeta. set (w1 := looked_up pools_path w).
  destruct (log_looked_up pools_path w) as (x & Hx & Hrq). fold w1 in Hx.
  pose proof (log_posted pools_path payload w1) as Hpost.
  rewrite Hx, (self_looked_up pools_path w : self w1 = self w) in Hpost.
  destruct (outcome (post_answer pools_path payload w1)) as [response | e].
  - destruct (steps_pool_posted (fun rq => rq_method rq = GET)
                method_get_allows_get name response
                (posted pools_path payload w1)) as (d & Hd & Hgets).
    exists x, d. split; [| split; assumption].
    apply new_exchanges_app. rewrite Hd, Hpost, <- !app_assoc. reflexivity.
  - exists x, []. split; [| split; [assumption | constructor]].
    apply new_exchanges_app. cbn [snd]. rewrite Hpost, <- !app_assoc.
    reflexivity.
Qed.


End ScenarioProperties.


(** ** Creating a pool twice *)

Lemma first_pool_named_found (pool_name : string) (pools : list pyobj)
    (p : pyobj) :
  first_pool_named pool_name pools = Returned p ->
  p = PyNone \/ truthy p = true.
Proof.
  induction pools as [| pool rest IH]; cbn [first_pool_named].
  - intros [= <-]. left. reflexivity.
  - destruct pool as [| | | | | | m]; try discriminate. cbn.
    destruct (m !! "ipPoolName") as [n |] eqn:Hn; cbn; [| exact IH].
    destruct (eq_str n pool_name); [| exact IH].
    intros [= <-]. right. cbn.
    destruct (Nat.eqb_spec (size m) 0) as [Hsize | _]; [| reflexivity].
    apply map_size_empty_iff in Hsize. subst m.
    rewrite lookup_empty in Hn. discriminate.
Qed.

Section IdempotenceProperties.
Context {E : Type} `{Outside E}.

Lemma steps_wait_loop_same_self (fuel : nat) (url : string) (start timeout : Z) :
  steps same_self (wait_loop (E := E) fuel url start timeout).
Proof.
  induction fuel as [| fuel IH]; cbn [wait_loop]; steps_method; steps_close.
Qed.

Lemma steps_wait_for_task_same_self (task_id task_url : pyobj) (timeout : Z) :
  steps same_self (wait_for_task (E := E) task_id task_url timeout).
Proof.
  unfold wait_for_task. steps_method. apply steps_wait_loop_same_self.
Qed.

Lemma wait_for_task_gets (task_id task_url : pyobj) (timeout : Z) (w : World E) :
  exists polls,
    log (wait_for_task task_id task_url timeout w).2 = (log w ++ polls)%list
    /\ Forall (fun z => rq_method z.1 = GET) polls
    /\ self (wait_for_task task_id task_url timeout w).2 = self w.
Proof.
  destruct (steps_wait_for_task (fun rq => rq_method rq = GET)
              method_get_allows_get task_id task_url timeout w)
    as (polls & Hlog & Hgets).
  exists polls. split; [exact Hlog |]. split; [exact Hgets |].
  apply steps_wait_for_task_same_self.
Qed.

(** A pool that is listed is returned after the lookup, and nothing else
    happens. *)
Lemma create_ip_pool_present (name cidr : string) (p : pyobj) (w : World E) :
  (get_global_pool_by_name name w).1 = Returned p ->
  p <> PyNone ->
  create_ip_pool name cidr w = (Returned p, looked_up pools_path w).
Proof.
  intros Hfound Hsome. unfold create_ip_pool. run.
  rewrite get_global_pool_by_name_run in Hfound |- *. cbn [fst] in Hfound.
  rewrite Hfound.
  destruct (listing pools_path w) as [pools | e]; [| discriminate Hfound].
  destruct (first_pool_named_found name pools p Hfound) as [-> | ->];
    [contradiction | reflexivity].
Qed.

(** What a successful [pool_posted] adds to the log: when the answer to the
    POST names a task, the GETs that follow the task and then, last, one
    lookup of the pool; when it names none, nothing. *)
Lemma pool_posted_log (name : string) (response : response) (result v : pyobj)
    (w : World E) :
  (pool_posted name response w).1 = Returned v ->
  truthy v = true ->
  response_json response = Returned result ->
  if tracked result then
    exists polls c,
      new_exchanges w (pool_posted name response w).2 = (polls ++ [c])%list
      /\ c.1 = lookup_request pools_path (self w)
      /\ Forall (fun z => rq_method z.1 = GET) polls
  else new_exchanges w (pool_posted name response w).2 = [].
Proof.
  intros Hret Hv Hjson. unfold tracked. revert Hret.
  unfold pool_posted. run. rewrite Hjson.
  destruct (raise_for_status response); [| discriminate].
  destruct (get result "executionId" PyNone) as [task_id |]; [| discriminate].
  destruct (get result "executionStatusUrl" PyNone) as [task_url |];
    [| discriminate].
  destruct (truthy task_id) eqn:Hid; cbn [orb].
  - destruct (slice_prefix task_id); [| discriminate].
    destruct (wait_for_task_gets task_id task_url 600 w)
      as (polls & Hlog & Hgets & Hself).
    destruct (wait_for_task task_id task_url 600 w) as [[[|] | e] w2];
      cbn [fst snd] in *; try discriminate.
    + rewrite get_global_pool_by_name_run.
      set (w3 := MkWorld (outside w2) (clock w2 + 5000) (log w2) (self w2)).
      destruct (log_looked_up pools_path w3) as (c & Hc & Hrq).
      destruct (listing pools_path w3 ≫= first_pool_named name)
        as [created | e]; [| discriminate].
      intros _. exists polls, c. split; [| split; [| exact Hgets]].
      * apply new_exchanges_app.
        destruct (truthy created); cbn [snd]; rewrite Hc; subst w3; cbn [log];
          rewrite Hlog, <- app_assoc; reflexivity.
      * rewrite Hrq. subst w3. cbn [self]. rewrite Hself. reflexivity.
    + intros [= <-]. discriminate Hv.
  - destruct (truthy task_url) eqn:Hurl.
    + match goal with
      | |- context [serve ?e ?now ?rq] => destruct (serve e now rq) as [e' rp]
      end.
      cbn [outside clock log self outcome].
      destruct (outcome rp) as [status_resp | e]; [| discriminate].
      destruct (response_json status_resp) as [status |]; [| discriminate].
      destruct (get status "status" PyNone) as [st |]; [| discriminate].
      destruct (eq_str st "SUCCESS").
      * rewrite get_global_pool_by_name_run. cbn [fst snd].
        match goal with
        | |- context [looked_up pools_path ?w3] =>
            destruct (log_looked_up pools_path w3) as (c & Hc & Hrq)
        end.
        intros _. eexists [_], c. split; [| split].
        -- apply new_exchanges_app. rewrite Hc. cbn [log].
           rewrite <- app_assoc. reflexivity.
        -- rewrite Hrq. reflexivity.
        -- repeat constructor.
      * intros [= <-]. discriminate Hv.
    + intros _. apply new_exchanges_app. cbn [snd].
      symmetry. apply app_nil_r.
Qed.

Lemma pool_posted_parses (name : string) (response : response) (v : pyobj)
    (w : World E) :
  (pool_posted name response w).1 = Returned v ->
  exists result, response_json response = Returned result.
Proof.
  unfold pool_posted. run.
  destruct (raise_for_status response); [| discriminate].
  destruct (response_json response) as [result | e]; [| discriminate].
  intros _. exists result. reflexivity.
Qed.

Lemma self_posted (path : string) (payload : pyobj) (w : World E) :
  self (posted path payload w) = self w.
Proof. unfold posted. destruct (serve _ _ _). reflexivity. Qed.

Lemma no_post_among_gets (d : list (request * reply)) :
  Forall (fun z => rq_method z.1 = GET) d -> List.filter is_post d = [].
Proof.
  induction 1 as [| z d Hz _ IH]; [reflexivity |].
  cbn [List.filter]. unfold is_post at 1. rewrite Hz. exact IH.
Qed.

(** The exchanges of a [create_ip_pool] that creates the pool and succeeds. *)
Lemma create_ip_pool_created_log (name cidr : string) (payload v : pyobj)
    (w : World E) :
  (get_global_pool_by_name name w).1 = Returned PyNone ->
  pool_payload name cidr = Returned payload ->
  (create_ip_pool name cidr w).1 = Returned v ->
  truthy v = true ->
  exists x d response result,
    outcome (post_answer pools_path payload (looked_up pools_path w))
    = Returned response
    /\ response_json response = Returned result
    /\ new_exchanges w (create_ip_pool name cidr w).2
       = x :: (post_request pools_path (self w) payload,
               post_answer pools_path payload (looked_up pools_path w)) :: d
    /\ x.1 = lookup_request pools_path (self w)
    /\ Forall (fun z => rq_method z.1 = GET) d
    /\ if tracked result then
         exists polls c,
           d = (polls ++ [c])%list
           /\ c.1 = lookup_request pools_path (self w)
           /\ Forall (fun z => rq_method z.1 = GET) polls
       else d = [].
Proof.
  intros Habsent Hpayload.
  rewrite (create_ip_pool_absent name cidr payload w Habsent Hpayload).
  cbv zeta. set (w1 := looked_up pools_path w).
  destruct (log_looked_up pools_path w) as (x & Hx & Hrq). fold w1 in Hx.
  pose proof (log_posted pools_path payload w1) as Hpost.
  pose proof (self_looked_up pools_path w : self w1 = self w) as Hself1.
  rewrite Hx, Hself1 in Hpost.
  destruct (outcome (post_answer pools_path payload w1)) as [response | e];
    [| discriminate].
  set (wp := posted pools_path payload w1) in *.
  intros Hret Hv.
  destruct (pool_posted_parses name response v wp Hret) as [result Hjson].
  destruct (steps_pool_posted (fun rq => rq_method rq = GET)
              method_get_allows_get name response wp) as (d & Hd & Hgets).
  pose proof (pool_posted_log name response result v wp Hret Hv Hjson) as Htail.
  rewrite (new_exchanges_app _ _ d Hd) in Htail.
  assert (Hselfp : self wp = self w).
  { subst wp. rewrite self_posted. exact Hself1. }
  rewrite Hselfp in Htail.
  exists x, d, response, result. repeat split; try assumption.
  apply new_exchanges_app. rewrite Hd, Hpost, <- !app_assoc. reflexivity.
Qed.

(** C4, as amended.  After a first [create_ip_pool] that found no pool,
    posted one and succeeded, and with the pool listed from then on, a
    second call for the same name makes one lookup, nothing else, and
    returns the listed pool.  The first call made the existence lookup, one
    POST, then only GETs; over both calls there is exactly one POST.  The
    GETs of the first call end with one lookup of the pool, the
    confirmation, when the answer to the POST named a task ([executionId]
    or [executionStatusUrl]); when it named none, there are no such GETs. *)
Theorem second_create_only_looks_up
    (w0 : World E) (name cidr cidr' : string) (payload v p : pyobj) :
  (get_global_pool_by_name name w0).1 = Returned PyNone ->
  pool_payload name cidr = Returned payload ->
  (create_ip_pool name cidr w0).1 = Returned v ->
  truthy v = true ->
  (get_global_pool_by_name name (create_ip_pool name cidr w0).2).1
  = Returned p ->
  p <> PyNone ->
  let w1 := (create_ip_pool name cidr w0).2 in
  let w2 := (create_ip_pool name cidr' w1).2 in
  (create_ip_pool name cidr' w1).1 = Returned p
  /\ (exists x, new_exchanges w1 w2 = [x]
                /\ x.1 = lookup_request pools_path (self w1))
  /\ (exists x d response result,
        outcome (post_answer pools_path payload (looked_up pools_path w0))
        = Returned response
        /\ response_json response = Returned result
        /\ new_exchanges w0 w1
           = x :: (post_request pools_path (self w0) payload,
                   post_answer pools_path payload (looked_up pools_path w0)) :: d
        /\ x.1 = lookup_request pools_path (self w0)
        /\ Forall (fun z => rq_method z.1 = GET) d
        /\ if tracked result then
             exists polls c,
               d = (polls ++ [c])%list
               /\ c.1 = lookup_request pools_path (self w0)
               /\ Forall (fun z => rq_method z.1 = GET) polls
           else d = [])
  /\ length (List.filter is_post (new_exchanges w0 w1 ++ new_exchanges w1 w2))
     = 1%nat.
Proof.
  intros Habsent Hpayload Hret Hv Hlisted Hsome w1 w2.
  pose proof (create_ip_pool_present name cidr' p w1 Hlisted Hsome) as Hsecond.
  destruct (log_looked_up pools_path w1) as (x2 & Hx2 & Hrq2).
  assert (Hnew2 : new_exchanges w1 w2 = [x2]).
  { apply new_exchanges_app. subst w2. rewrite Hsecond. exact Hx2. }
  destruct (create_ip_pool_created_log name cidr payload v w0
              Habsent Hpayload Hret Hv)
    as (x & d & response & result & Hout & Hjson & Hnew1 & Hrq & Hgets & Htail).
  fold w1 in Hnew1.
  split; [rewrite Hsecond; reflexivity |].
  split; [exists x2; split; assumption |].
  split; [exists x, d, response, result; repeat split; assumption |].
  rewrite Hnew1, Hnew2. cbn [app List.filter].
  unfold is_post at 1 2. rewrite Hrq. cbn [fst rq_method lookup_request post_request].
  rewrite List.filter_app, (no_post_among_gets d Hgets). cbn [app List.filter].
  unfold is_post. rewrite Hrq2. reflexivity.
Qed.

End IdempotenceProperties.

Lemma second_create_only_looks_up_witness :
  let w0 := playing [nothing_listed; accepted_tracked; task_succeeded;
                     us_corp_listed; us_corp_listed] in
  let w1 := (create_ip_pool "US_CORP" "10.201.0.0/16" w0).2 in
  let w2 := (create_ip_pool "US_CORP" "10.201.0.0/16" w1).2 in
  (create_ip_pool "US_CORP" "10.201.0.0/16" w1).1 = Returned us_corp_pool
  /\ (exists x, new_exchanges w1 w2 = [x]
                /\ x.1 = lookup_request pools_path (self w1))
  /\ length (List.filter is_post (new_exchanges w0 w1 ++ new_exchanges w1 w2))
     = 1%nat.
Proof.
  intros w0 w1 w2.
  pose proof (second_create_only_looks_up w0 "US_CORP" "10.201.0.0/16"
                "10.201.0.0/16" us_corp_payload us_corp_pool us_corp_pool
                eq_refl eq_refl eq_refl eq_refl eq_refl
                ltac:(discriminate)) as (Hret & Hlookup & _ & Hcount).
  exact (conj Hret (conj Hlookup Hcount)).
Defined.

(** C4 as stated fails when the answer to the POST names no task: the first
    call returns that answer at once, so the two calls make one POST and no
    confirmation lookup at all. *)
Lemma untracked_creation_is_not_confirmed :
  let w0 := playing [nothing_listed; accepted_untracked; us_corp_listed] in
  let w1 := (create_ip_pool "US_CORP" "10.201.0.0/16" w0).2 in
  let w2 := (create_ip_pool "US_CORP" "10.201.0.0/16" w1).2 in
  (create_ip_pool "US_CORP" "10.201.0.0/16" w0).1
  = Returned (PyDict {[ "message" := PyStr "accepted" ]})
  /\ map (fun x => rq_method x.1) (new_exchanges w0 w1) = [GET; POST]
  /\ (create_ip_pool "US_CORP" "10.201.0.0/16" w1).1 = Returned us_corp_pool
  /\ map (fun x => rq_method x.1) (new_exchanges w1 w2) = [GET].
Proof. vm_compute. repeat split; reflexivity. Qed.

(** ** The order of the teardown *)

Lemma ordered_snoc (k : nat) (calls : list call) (c : call) :
  ordered calls -> below k calls ->
  (forall a, phase c = Some a -> a = k) ->
  ordered (calls ++ [c]) /\ below k (calls ++ [c]).
Proof.
  intros Hord Hbelow Hc. split.
  - intros i j ci cj a b Hi Hj Ha Hb Hlt.
    destruct (Nat.lt_ge_cases j (length calls)) as [Hjl | Hjl].
    + rewrite lookup_app_l in Hj by exact Hjl.
      destruct (Nat.lt_ge_cases i (length calls)) as [Hil | Hil].
      * rewrite lookup_app_l in Hi by exact Hil. eauto.
      * rewrite lookup_app_r in Hi by exact Hil.
        destruct (i - length calls)%nat; [| discriminate Hi].
        injection Hi as <-. apply Hc in Ha. subst a.
        pose proof (Hbelow j cj b Hj Hb). lia.
    + rewrite lookup_app_r in Hj by exact Hjl.
      destruct (j - length calls)%nat eqn:Hjd; [| discriminate Hj].
      injection Hj as <-.
      destruct (Nat.lt_ge_cases i (length calls)) as [Hil | Hil]; [lia |].
      rewrite lookup_app_r in Hi by exact Hil.
      destruct (i - length calls)%nat; [| discriminate Hi].
      injection Hi as <-. rewrite Ha in Hb. injection Hb as <-. lia.
  - intros i c' a Hi Ha.
    destruct (Nat.lt_ge_cases i (length calls)) as [Hil | Hil].
    + rewrite lookup_app_l in Hi by exact Hil. eauto.
    + rewrite lookup_app_r in Hi by exact Hil.
      destruct (i - length calls)%nat; [| discriminate Hi].
      injection Hi as <-. apply Hc in Ha. lia.
Qed.

Lemma below_mono (k k' : nat) (calls : list call) :
  (k <= k')%nat -> below k calls -> below k' calls.
Proof. intros Hle Hb i c a Hi Ha. pose proof (Hb i c a Hi Ha). lia. Qed.

Section TeardownOrder.
Context {W : Type}.
Variable cc : client W.
Variable input : string -> M W string.

#[local] Instance preserving_preorder {S} (I : S -> Prop) :
  PreOrder (preserving I).
Proof. split; unfold preserving; [intros w; tauto | intros w1 w2 w3; tauto]. Qed.

Abbreviation keeps k := (steps (preserving (@in_order_upto W k))).

Lemma keeps_noting {A} (k : nat) (c : call) (m : M W A) :
  (forall a, phase c = Some a -> a = k) -> keeps k (noting c m).
Proof.
  intros Hc [w calls] [Hord Hbelow]. unfold noting.
  destruct (m w) as [r w']. exact (ordered_snoc k calls c Hord Hbelow Hc).
Qed.

Lemma triple_keeps {A} (k k' : nat) (m : M (W * list call) A) :
  (k <= k')%nat -> keeps k' m -> triple (in_order_upto k) m (in_order_upto k').
Proof.
  intros Hle Hm s [Hord Hbelow]. apply Hm.
  split; [exact Hord | exact (below_mono k k' _ Hle Hbelow)].
Qed.

Lemma triple_bind {A B} (I J K : W * list call -> Prop)
    (m : M (W * list call) A) (k : A -> M (W * list call) B) :
  triple I m J -> (forall s, J s -> K s) -> (forall a, triple J (k a) K) ->
  triple I (m ≫= k) K.
Proof.
  intros Hm HJK Hk s Hs. unfold mbind, M_bind, bind.
  specialize (Hm s Hs). destruct (m s) as [[a | e] s1]; cbn in *.
  - apply Hk. exact Hm.
  - apply HJK. exact Hm.
Qed.

Lemma triple_ret {A} (k k' : nat) (a : A) :
  (k <= k')%nat ->
  triple (in_order_upto k) (mret a : M (W * list call) A) (in_order_upto k').
Proof.
  intros Hle s [Hord Hbelow].
  split; [exact Hord | exact (below_mono k k' _ Hle Hbelow)].
Qed.

Lemma in_order_upto_mono (k k' : nat) (s : W * list call) :
  (k <= k')%nat -> in_order_upto k s -> in_order_upto k' s.
Proof.
  intros Hle [Hord Hbelow].
  split; [exact Hord | exact (below_mono k k' _ Hle Hbelow)].
Qed.

Lemma keeps_confirm_deletion (k : nat) :
  keeps k (confirm_deletion (spy_input input)).
Proof.
  unfold confirm_deletion, spy_input. steps_walk.
  apply keeps_noting. discriminate.
Qed.

Lemma keeps_authenticate (k : nat) : keeps k (cc_authenticate (spy cc)).
Proof. apply keeps_noting. discriminate. Qed.

Tactic Notation "along" uconstr(lem) :=
  match goal with
  | |- steps ?R _ => apply (lem R); try apply preserving_preorder
  end.

Ltac one_of_names :=
  repeat match goal with
  | H : In _ (_ :: _) |- _ => destruct H as [<- | H]
  | H : In _ [] |- _ => destruct H
  end.

Lemma keeps_delete_reservations : keeps 0 (delete_reservations (spy cc)).
Proof.
  unfold delete_reservations. along steps_for_all. intros [building_name rs].
  along steps_for_all. intros reservation_name.
  apply keeps_noting. intros a [= <-]. reflexivity.
Qed.

Lemma keeps_delete_floors : keeps 1 (delete_floors (spy cc)).
Proof.
  unfold delete_floors. along steps_for_all. intros _.
  along steps_for_each_in. intros floor_name Hin.
  along steps_try_except; [| steps_handler; along steps_ret].
  along steps_bind; [| intros result; destruct (is_None result); along steps_ret].
  apply keeps_noting. unfold floors in Hin. one_of_names;
    intros a [= <-]; reflexivity.
Qed.

Lemma keeps_delete_buildings :
  keeps 2 (for_all buildings (fun building => cc_delete_site (spy cc) building)).
Proof.
  along steps_for_all_in. intros building Hin.
  apply keeps_noting. unfold buildings in Hin. one_of_names;
    intros a [= <-]; reflexivity.
Qed.

Lemma for_all_app {S A B} (xs ys : list A) (body : A -> M S B) (s : S) :
  for_all (xs ++ ys) body s = (for_all xs body;; for_all ys body) s.
Proof.
  unfold for_all, mbind, M_bind, bind, mret, M_ret, ret.
  revert s. induction xs as [| x xs IH]; intros s; cbn [app for_each].
  - unfold ret. destruct (for_each ys _ s) as [[r | e] s']; reflexivity.
  - unfold bind. destruct (body x s) as [[b | e] s1]; [| reflexivity].
    apply IH.
Qed.

Lemma triple_delete_areas :
  triple (in_order_upto 3)
    (for_all areas (fun area => cc_delete_site (spy cc) area))
    (in_order_upto 4).
Proof.
  intros s Hs.
  change areas with
    (["Golden Hills Campus"; "Lakefront Tower"; "Oceanfront Mansion";
      "Desert Oasis Branch"] ++ ["United States"])%list.
  rewrite for_all_app. revert s Hs.
  apply (triple_bind _ (in_order_upto 3)).
  - apply (triple_keeps 3 3); [lia |].
    along steps_for_all_in. intros area Hin.
    apply keeps_noting. one_of_names; intros a [= <-]; reflexivity.
  - intros s. apply in_order_upto_mono. lia.
  - intros _. apply (triple_keeps 3 4); [lia |].
    along steps_for_all_in. intros area Hin.
    apply keeps_noting. one_of_names; intros a [= <-]; reflexivity.
Qed.

Lemma triple_delete_infrastructure :
  triple (in_order_upto 0)
    (delete_infrastructure (spy cc) (spy_input input))
    (in_order_upto 4).
Proof.
  unfold delete_infrastructure.
  apply (triple_bind _ (in_order_upto 0));
    [ apply (triple_keeps 0 0); [lia | apply keeps_confirm_deletion]
    | intros s; apply in_order_upto_mono; lia | ].
  intros [code |]; [apply triple_ret; lia |].
  apply (triple_bind _ (in_order_upto 0));
    [ apply (triple_keeps 0 0); [lia |]
    | intros s; apply in_order_upto_mono; lia | ].
  { along steps_try_except; [| steps_handler; along steps_ret].
    along steps_bind; [apply keeps_authenticate | intros; along steps_ret]. }
  intros [code |]; [apply triple_ret; lia |].
  apply (triple_bind _ (in_order_upto 0));
    [ apply (triple_keeps 0 0); [lia | apply keeps_delete_reservations]
    | intros s; apply in_order_upto_mono; lia | intros _ ].
  apply (triple_bind _ (in_order_upto 1));
    [ apply (triple_keeps 0 1); [lia | apply keeps_authenticate]
    | intros s; apply in_order_upto_mono; lia | intros _ ].
  apply (triple_bind _ (in_order_upto 1));
    [ apply (triple_keeps 1 1); [lia | apply keeps_delete_floors]
    | intros s; apply in_order_upto_mono; lia | intros _ ].
  apply (triple_bind _ (in_order_upto 2));
    [ apply (triple_keeps 1 2); [lia | apply keeps_authenticate]
    | intros s; apply in_order_upto_mono; lia | intros _ ].
  apply (triple_bind _ (in_order_upto 2));
    [ apply (triple_keeps 2 2); [lia | apply keeps_delete_buildings]
    | intros s; apply in_order_upto_mono; lia | intros _ ].
  apply (triple_bind _ (in_order_upto 3));
    [ apply (triple_keeps 2 3); [lia | apply keeps_authenticate]
    | intros s; apply in_order_upto_mono; lia | intros _ ].
  apply (triple_bind _ (in_order_upto 4));
    [ apply triple_delete_areas | intros s Hs; exact Hs | intros _ ].
  apply triple_ret. lia.
Qed.

End TeardownOrder.

(** C6.  In the calls that [delete_infrastructure] makes on its client,
    whatever the client and the console do, a deletion of lower rank never
    comes after one of higher rank, the ranks being: reservations, floors,
    buildings, leaf areas, "United States".  A teardown that runs to its end
    goes through all of them: 16 reservations, the floors, 4 buildings, 4
    leaf areas, the parent area. *)
Theorem teardown_order {W} (cc : client W) (input : string -> M W string)
    (w : W) (i j : nat) (ci cj : call) (a b : nat) :
  calls_of (delete_infrastructure (spy cc) (spy_input input)) w !! i = Some ci ->
  calls_of (delete_infrastructure (spy cc) (spy_input input)) w !! j = Some cj ->
  phase ci = Some a ->
  phase cj = Some b ->
  (a < b)%nat ->
  (i < j)%nat
  /\ omap phase teardown_of_nothing
     = (replicate 16 0%nat ++ replicate 6 1%nat ++ replicate 4 2%nat
        ++ replicate 4 3%nat ++ [4%nat])%list
  /\ omap phase [DeleteReservation "Sunset Tower" "ST_CORP";
                 DeleteSite "FLOOR_1"; DeleteSite "FLOOR_2";
                 DeleteSite "Sunset Tower"; DeleteSite "Golden Hills Campus";
                 DeleteSite "United States"; Authenticate]
     = [0; 1; 1; 2; 3; 4]%nat.
Proof.
  intros Hi Hj Ha Hb Hlt. split; [| split; reflexivity].
  destruct (triple_delete_infrastructure cc input (w, [])) as [Hord _].
  - split.
    + intros i' j' ci' cj' a' b' Hnil. cbn in Hnil. discriminate.
    + intros i' c a' Hnil. cbn in Hnil. discriminate.
  - exact (Hord i j ci cj a b Hi Hj Ha Hb Hlt).
Qed.

Lemma teardown_order_witness :
  (2 < 19)%nat
  /\ teardown_of_nothing !! 2%nat
     = Some (DeleteReservation "Sunset Tower" "ST_CORP")
  /\ teardown_of_nothing !! 19%nat = Some (DeleteSite "FLOOR_1").
Proof.
  split; [| split; reflexivity].
  exact (proj1 (teardown_order null_client typing_delete tt 2 19
                  (DeleteReservation "Sunset Tower" "ST_CORP")
                  (DeleteSite "FLOOR_1") 0 1
                  eq_refl eq_refl eq_refl eq_refl (le_n 1))).
Defined.

(** ** Certificate verification *)

Section ScriptSteps.
Context {W : Type} (R : relation W) `{!PreOrder R}.
Variable cc : client W.
Variable input : string -> M W string.
Hypothesis Hcc : client_steps R cc.
Hypothesis Hinput : forall prompt, steps R (input prompt).

Lemma steps_create_infrastructure : steps R (create_infrastructure cc).
Proof.
  destruct Hcc. unfold create_infrastructure. steps_walk; auto.
Qed.

Lemma steps_delete_infrastructure : steps R (delete_infrastructure cc input).
Proof.
  destruct Hcc.
  unfold delete_infrastructure, confirm_deletion, delete_reservations,
    delete_floors.
  steps_walk; auto.
Qed.

End ScriptSteps.

Section InsecureKey.
Context {E : Type} {H : Outside E}.

(** Two configurations that agree outside [CC_INSECURE] load the same base
    URL, user name and password (or both lack a required key). *)
Lemma read_credentials_insecure (m m' : gmap string pyobj) :
  (forall k, k <> "CC_INSECURE" -> m !! k = m' !! k) ->
  exists config config',
    read_credentials (E := E) (PyDict m) = Returned config
    /\ read_credentials (E := E) (PyDict m') = Returned config'
    /\ match config, config' with
       | None, None => True
       | Some c, Some c' =>
           cfg_base_url c = cfg_base_url c'
           /\ cfg_username c = cfg_username c'
           /\ cfg_password c = cfg_password c'
           /\ cfg_verify_ssl c
              = negb (truthy (default (PyBool true) (m !! "CC_INSECURE")))
           /\ cfg_verify_ssl c'
              = negb (truthy (default (PyBool true) (m' !! "CC_INSECURE")))
       | _, _ => False
       end.
Proof.
  intros Hsame. unfold read_credentials. cbn.
  rewrite <- !(Hsame "CC_IP"), <- !(Hsame "CC_USERNAME"),
    <- !(Hsame "CC_PASSWORD") by discriminate.
  destruct (m !! "CC_IP") as [ip |]; cbn.
  2: { eexists _, _. split; [reflexivity |]. split; [reflexivity | exact I]. }
  destruct (m !! "CC_USERNAME") as [user |]; cbn.
  2: { eexists _, _. split; [reflexivity |]. split; [reflexivity | exact I]. }
  destruct (m !! "CC_PASSWORD") as [pass |]; cbn.
  2: { eexists _, _. split; [reflexivity |]. split; [reflexivity | exact I]. }
  eexists _, _. split; [reflexivity |]. split; [reflexivity |].
  cbn. repeat split; reflexivity.
Qed.

Lemma main_with_config_fields (c c' : credentials) (action : string)
    (w : World E) :
  cfg_base_url c = cfg_base_url c' ->
  cfg_username c = cfg_username c' ->
  cfg_password c = cfg_password c' ->
  main_with_config (Some c) action w = main_with_config (Some c') action w.
Proof.
  intros Hb Hu Hp. unfold main_with_config. rewrite Hb, Hu, Hp. reflexivity.
Qed.

End InsecureKey.

Section InsecureFiles.
Context {E : Type} {H : Outside E}.

(** What is loaded from two file systems that agree but for [CC_INSECURE]:
    the same failure, or credentials with the same three fields. *)
Lemma first_existing_insecure (files files' : E -> string -> file_outcome)
    (e : E) (paths : list string) :
  (forall e path, agree_but_insecure (files e path) (files' e path)) ->
  match @first_existing E (with_files H files) e paths,
        @first_existing E (with_files H files') e paths with
  | Returned None, Returned None => True
  | Returned (Some c), Returned (Some c') =>
      cfg_base_url c = cfg_base_url c'
      /\ cfg_username c = cfg_username c'
      /\ cfg_password c = cfg_password c'
  | Raised ex, Raised ex' => ex = ex'
  | _, _ => False
  end.
Proof.
  intros Hagree. induction paths as [| path rest IH]; [exact I |].
  cbn [first_existing].
  change (@read_yaml E (with_files H files) e path) with (files e path).
  change (@read_yaml E (with_files H files') e path) with (files' e path).
  change (@read_credentials E (with_files H files'))
    with (@read_credentials E (with_files H files)).
  specialize (Hagree e path). unfold agree_but_insecure in Hagree.
  destruct (files e path) as [| ex | config].
  - rewrite <- Hagree. exact IH.
  - rewrite <- Hagree. destruct (is_Exception ex); [exact I | reflexivity].
  - destruct config as [| | | | | | m];
      try (rewrite <- Hagree;
           match goal with
           | |- context [read_credentials ?v] =>
               destruct (read_credentials v) as [[c |] | ex];
               [ repeat split | exact I
               | destruct (is_Exception ex); [exact I | reflexivity] ]
           end).
    destruct (files' e path) as [| ex' | config']; try discriminate Hagree.
    destruct config' as [| | | | | | m']; try discriminate Hagree.
    destruct (@read_credentials_insecure E (with_files H files) m m' Hagree)
      as (c & c' & -> & -> & Hfields).
    destruct c as [c |], c' as [c' |]; try contradiction; [| exact I].
    destruct Hfields as (Hb & Hu & Hp & _). repeat split; assumption.
Qed.

(** Two runs of [main] whose configuration files agree but for
    [CC_INSECURE] are the same run. *)
Lemma main_insecure (files files' : E -> string -> file_outcome)
    (action config_path : string) (w : World E) :
  (forall e path, agree_but_insecure (files e path) (files' e path)) ->
  @main E (with_files H files) action config_path w
  = @main E (with_files H files') action config_path w.
Proof.
  intros Hagree.
  pose proof (first_existing_insecure files files' (outside w)
                [config_path; @script_dir_join E H config_path] Hagree)
    as Hload.
  unfold main, load_credentials_from_yaml. run.
  change (@script_dir_join E (with_files H files) config_path)
    with (@script_dir_join E H config_path).
  change (@script_dir_join E (with_files H files') config_path)
    with (@script_dir_join E H config_path).
  destruct (@first_existing E (with_files H files) _ _) as [[c |] | ex],
    (@first_existing E (with_files H files') _ _) as [[c' |] | ex'];
    try contradiction; try reflexivity.
  - destruct Hload as (Hb & Hu & Hp).
    change (@main_with_config E (with_files H files') (Some c') action w)
      with (@main_with_config E (with_files H files) (Some c') action w).
    apply (@main_with_config_fields E (with_files H files)); assumption.
  - rewrite Hload. reflexivity.
Qed.

End InsecureFiles.

Section Unverified.
Context {E : Type} {H : Outside E}.

Lemma unverified_get : allows_get unverified.
Proof. intros url hdrs. reflexivity. Qed.

Lemma unverified_delete : allows_delete unverified.
Proof. intros url hdrs. reflexivity. Qed.

Lemma unverified_auth : allows_auth unverified.
Proof. intros url auth. reflexivity. Qed.

Lemma unverified_post (ok : pyobj -> Prop) : allows_post unverified ok.
Proof. intros url hdrs payload _. reflexivity. Qed.

Lemma the_client_unverified : client_steps (grows unverified) (the_client (E := E)).
Proof.
  pose proof unverified_get. pose proof unverified_delete.
  pose proof unverified_auth. pose proof (unverified_post (fun _ => True)).
  split; cbn [the_client cc_authenticate cc_create_ip_pool cc_create_area
              cc_create_building cc_create_floor cc_reserve_ip_subpool
              cc_delete_site cc_delete_reservation]; intros; auto with steps.
  - apply steps_create_ip_pool; [assumption |]. intros. reflexivity.
  - apply steps_reserve_ip_subpool; [assumption |]. intros. reflexivity.
Qed.

Lemma steps_check_infrastructure (P : request -> Prop) :
  allows_get P -> steps (grows P) (check_infrastructure (E := E)).
Proof.
  intros Hget.
  unfold check_infrastructure, report_listing, report_reservations,
    report_building.
  steps_method; steps_close.
Qed.

Lemma steps_create_all :
  steps (grows unverified) (create_infrastructure (the_client (E := E))).
Proof.
  apply steps_create_infrastructure; [exact _ | apply the_client_unverified].
Qed.

Lemma steps_delete_all :
  steps (grows unverified)
    (delete_infrastructure (the_client (E := E)) builtin_input).
Proof.
  apply steps_delete_infrastructure;
    [exact _ | apply the_client_unverified | auto with steps].
Qed.

Lemma steps_check_all :
  steps (grows unverified) (check_infrastructure (E := E)).
Proof. apply steps_check_infrastructure. apply unverified_get. Qed.

#[local] Hint Resolve steps_create_all steps_delete_all steps_check_all : steps.

Lemma steps_main_with_config (config : option credentials) (action : string) :
  steps (grows unverified) (main_with_config (E := E) config action).
Proof.
  pose proof unverified_get. pose proof unverified_auth.
  unfold main_with_config, run_action. destruct config as [config |];
    steps_method; auto with steps.
Qed.

Lemma steps_main (action config_path : string) :
  steps (grows unverified) (main (E := E) action config_path).
Proof.
  unfold main. steps_method. apply steps_main_with_config.
Qed.

(** C9.  Every request that a run of [main] sends has [verify=False], and
    so has every request of every method of the client and of the status
    report.  Two runs of [main] whose configuration files agree but for
    [CC_INSECURE] are the same: same result, same requests, although the
    [verify_ssl] that is loaded differs with that key. *)
Theorem verification_is_always_off
    (w : World E) (action config_path : string) :
  Forall (fun x => rq_verify x.1 = false)
    (new_exchanges w (main action config_path w).2)
  /\ client_steps (grows unverified) (the_client (E := E))
  /\ (forall task_id task_url timeout,
        steps (grows unverified) (wait_for_task (E := E) task_id task_url timeout))
  /\ (forall name, steps (grows unverified) (get_site_by_name (E := E) name))
  /\ (forall name parent,
        steps (grows unverified) (get_site_by_name_and_parent (E := E) name parent))
  /\ (forall name, steps (grows unverified) (get_global_pool_by_name (E := E) name))
  /\ (forall site name,
        steps (grows unverified) (get_reservation_by_name (E := E) site name))
  /\ (forall name, steps (grows unverified) (delete_global_pool (E := E) name))
  /\ steps (grows unverified) (check_infrastructure (E := E))
  /\ (forall files files' : E -> string -> file_outcome,
        (forall e path, agree_but_insecure (files e path) (files' e path)) ->
        @main E (with_files H files) action config_path w
        = @main E (with_files H files') action config_path w).
Proof.
  pose proof unverified_get. pose proof unverified_delete.
  repeat match goal with |- _ /\ _ => split end;
    auto using the_client_unverified with steps.
  - destruct (steps_main action config_path w) as (d & Hd & Hall).
    rewrite (new_exchanges_app _ _ d Hd). exact Hall.
  - intros files files' Hagree. apply main_insecure. exact Hagree.
Qed.

End Unverified.

Lemma verification_is_always_off_witness :
  @main playback (with_files playback_outside (fun _ _ => Parsed (PyDict
     (<["CC_INSECURE" := PyBool false]> lab_config)))) "create" "CC_Env.yml"
    (playing [])
  = @main playback (with_files playback_outside (fun _ _ => Parsed (PyDict
       (<["CC_INSECURE" := PyBool true]> lab_config)))) "create" "CC_Env.yml"
      (playing []).
Proof.
  apply (proj2 (proj2 (proj2 (proj2 (proj2 (proj2 (proj2 (proj2 (proj2
           (@verification_is_always_off playback playback_outside
              (playing []) "create" "CC_Env.yml")))))))))).
  intros e path k Hk. rewrite !lookup_insert_ne by congruence. reflexivity.
Defined.

(** The [verify_ssl] that is computed, and then not used. *)
Example verify_ssl_follows_insecure :
  loaded_verify_ssl (<["CC_INSECURE" := PyBool false]> lab_config) = Some true
  /\ loaded_verify_ssl (<["CC_INSECURE" := PyBool true]> lab_config) = Some false
  /\ loaded_verify_ssl lab_config = Some false.
Proof. vm_compute. repeat split; reflexivity. Qed.

(** ** Exit codes *)

Section Yields.
Context {W : Type}.

Lemma yields_ret {A} (V : A -> Prop) (a : A) : V a -> yields V (mret a : M W A).
Proof. intros Ha w. exact Ha. Qed.

Lemma yields_bind_from {A B} (U : A -> Prop) (V : B -> Prop)
    (m : M W A) (k : A -> M W B) :
  yields U m -> (forall a, U a -> yields V (k a)) -> yields V (m ≫= k).
Proof.
  intros Hm Hk w. unfold mbind, M_bind, bind.
  specialize (Hm w). destruct (m w) as [[a | e] w1]; cbn in *; [| exact I].
  apply Hk. exact Hm.
Qed.

Lemma yields_bind {A B} (V : B -> Prop) (m : M W A) (k : A -> M W B) :
  (forall a, yields V (k a)) -> yields V (m ≫= k).
Proof.
  intros Hk. apply (yields_bind_from (fun _ => True)).
  - intros w. destruct (m w).1; exact I.
  - intros a _. apply Hk.
Qed.

Lemma yields_try_except {A} (V : A -> Prop) (m : M W A)
    (handler : exn -> option (M W A)) :
  yields V m -> (forall e h, handler e = Some h -> yields V h) ->
  yields V (try_except m handler).
Proof.
  intros Hm Hh w. unfold try_except.
  specialize (Hm w). destruct (m w) as [[a | e] w1]; cbn in *; [exact Hm |].
  destruct (handler e) as [h |] eqn:He; [| exact I].
  exact (Hh e h He w1).
Qed.

Variable cc : client W.
Variable input : string -> M W string.

(** [create_infrastructure] returns [None], whatever its calls return. *)
Lemma create_infrastructure_yields :
  yields (fun v => v = PyNone) (create_infrastructure cc).
Proof.
  unfold create_infrastructure.
  repeat (apply yields_bind; intros _). apply yields_ret. reflexivity.
Qed.

Lemma confirm_deletion_yields :
  yields (fun r => r = None \/ r = Some (PyInt 1)) (confirm_deletion input).
Proof.
  unfold confirm_deletion. apply yields_try_except.
  - apply yields_bind. intros confirm.
    destruct (negb _); apply yields_ret; auto.
  - intros e h Hh. destruct e; try discriminate Hh; injection Hh as <-;
      apply yields_ret; auto.
Qed.

(** [delete_infrastructure] returns 1 or 0, whatever its calls return. *)
Lemma delete_infrastructure_yields :
  yields (fun v => v = PyInt 0 \/ v = PyInt 1) (delete_infrastructure cc input).
Proof.
  unfold delete_infrastructure.
  apply (yields_bind_from _ _ _ _ confirm_deletion_yields).
  intros cancelled [-> | ->]; [| apply yields_ret; auto].
  apply (yields_bind_from (fun r => r = None \/ r = Some (PyInt 1))).
  - apply yields_try_except.
    + apply yields_bind. intros _. apply yields_ret. auto.
    + intros e h Hh. unfold except_Exception in Hh.
      destruct (is_Exception e); [| discriminate Hh]. injection Hh as <-.
      apply yields_ret. auto.
  - intros failed [-> | ->]; [| apply yields_ret; auto].
    repeat (apply yields_bind; intros _). apply yields_ret. auto.
Qed.

End Yields.

Section ExitCodes.
Context {E : Type} `{Outside E}.

Lemma check_infrastructure_yields :
  yields (fun v => v = PyInt 0) (check_infrastructure (E := E)).
Proof.
  unfold check_infrastructure.
  repeat (apply yields_bind; intros _). apply yields_ret. reflexivity.
Qed.

Lemma run_action_yields (action : string) :
  yields (fun v => v = PyNone \/ v = PyInt 0 \/ v = PyInt 1)
    (run_action (E := E) action).
Proof.
  intros w. unfold run_action.
  destruct (action =? "create")%string.
  { pose proof (create_infrastructure_yields (the_client (E := E)) w) as Hy.
    destruct (create_infrastructure the_client w).1; auto. }
  destruct (action =? "delete")%string.
  { pose proof (delete_infrastructure_yields (the_client (E := E))
                  builtin_input w) as Hy.
    destruct (delete_infrastructure the_client builtin_input w).1; tauto. }
  destruct (action =? "status")%string.
  { pose proof (check_infrastructure_yields w) as Hy.
    destruct (check_infrastructure w).1; auto. }
  cbn. auto.
Qed.

(** [main] with credentials: authenticate in [booted], then act. *)
Lemma main_with_config_run (config : credentials) (action : string)
    (w : World E) :
  main_with_config (Some config) action w =
  match authenticate (booted config w) with
  | (Returned _, w1) => run_action action w1
  | (Raised e, w1) =>
      if is_Exception e then (Returned (PyInt 1), w1) else (Raised e, w1)
  end.
Proof.
  unfold main_with_config. run. fold (booted config w).
  destruct (authenticate (booted config w)) as [[tok | e] w1]; cbn;
    [reflexivity |].
  destruct (is_Exception e); reflexivity.
Qed.

Lemma main_run (action config_path : string) (w : World E) :
  main action config_path w =
  match (load_credentials_from_yaml config_path w).1 with
  | Returned config => main_with_config config action w
  | Raised e => (Raised e, w)
  end.
Proof.
  unfold main, load_credentials_from_yaml. run.
  destruct (first_existing _ _); reflexivity.
Qed.

Lemma main_yields (action config_path : string) :
  yields (fun v => v = PyNone \/ v = PyInt 0 \/ v = PyInt 1)
    (main (E := E) action config_path).
Proof.
  intros w. rewrite main_run.
  destruct (load_credentials_from_yaml config_path w).1 as [[config |] | e];
    [| cbn; auto | cbn; auto].
  rewrite main_with_config_run.
  destruct (authenticate (booted config w)) as [[tok | e] w1].
  - apply run_action_yields.
  - destruct (is_Exception e); cbn; auto.
Qed.

Lemma script_exit (action config_path : string) (w : World E) :
  (script action config_path w).1 = exit_of (main action config_path w).1.
Proof.
  unfold script. destruct (main action config_path w) as [[v | e] w'];
    [reflexivity | destruct e; reflexivity].
Qed.


End ExitCodes.



(** * Further properties *)

(** ** The requests of a wait *)

Section WaitProperties.
Context {E : Type} `{Outside E}.

(** What a wait adds to the log, from a round that starts at least [j]
    intervals after the start. *)
Lemma wait_loop_polls (url : string) (start timeout : Z) (n : nat) :
  forall (w : World E) (j : nat),
    check_interval * 1000 * Z.of_nat j <= clock w - start ->
    exists d,
      log (wait_loop n url start timeout w).2 = (log w ++ d)%list
      /\ (length d <= max_polls timeout - j)%nat
      /\ Forall (fun x => x.1 = poll_request url (self w)) d
      /\ self (wait_loop n url start timeout w).2 = self w.
Proof.
  induction n as [| n IH]; intros w j Hj.
  - exists []. cbn. rewrite app_nil_r. repeat split; [lia | constructor].
  - rewrite wait_loop_unfold.
    destruct (Z.ltb_spec (clock w - start) (timeout * 1000)) as [Hin | Hout].
    2: { exists []. cbn. rewrite app_nil_r. repeat split; [lia | constructor]. }
    assert (Hlt : (j < max_polls timeout)%nat) by (apply max_polls_lt; lia).
    rewrite poll_judge. cbv zeta. destruct (serve _ _ _) as [e' rp].
    set (rq := poll_request url (self w)).
    destruct (judge (outcome rp)).
    + exists [(rq, rp)]. cbn. repeat split; [lia | repeat constructor].
    + destruct (IH (slept (check_interval * 1000) (answered w rq e' rp)) (S j))
        as (d & Hd & Hlen & Hall & Hself).
      { cbn [clock slept answered]. unfold check_interval in *. lia. }
      exists ((rq, rp) :: d). cbn [self slept answered] in *.
      split; [| split; [| split]].
      * rewrite Hd. cbn [log slept answered]. rewrite <- app_assoc. reflexivity.
      * cbn [length]. lia.
      * constructor; [reflexivity | exact Hall].
      * exact Hself.
    + exists [(rq, rp)]. cbn. repeat split; [lia | repeat constructor].
Qed.

(** X1.  Whatever the network answers, a wait of [timeout] seconds sends at
    most [max_polls timeout] requests (the least number of ten-second
    intervals that cover the timeout), each of them the GET of the one
    status URL with the client's headers, and leaves the client object as
    it was.  With a timeout that is not positive it asks nothing: it
    returns [True] at once and the state is untouched. *)
Theorem wait_for_task_polls_bounded
    (w : World E) (task_id task_url : pyobj) (timeout : Z) (url : string) :
  task_status_url (self w) task_id task_url = Returned url ->
  (length (new_exchanges w (wait_for_task task_id task_url timeout w).2)
   <= max_polls timeout)%nat
  /\ Forall (fun x => x.1 = poll_request url (self w))
       (new_exchanges w (wait_for_task task_id task_url timeout w).2)
  /\ self (wait_for_task task_id task_url timeout w).2 = self w
  /\ (timeout <= 0 ->
      wait_for_task task_id task_url timeout w = (Returned true, w)).
Proof.
  intros Hurl. rewrite (wait_for_task_run _ _ _ url) by assumption.
  destruct (wait_loop_polls url (clock w) timeout (S (max_polls timeout)) w 0)
    as (d & Hd & Hlen & Hall & Hself).
  { unfold check_interval. lia. }
  assert (Hnone : timeout <= 0 ->
            wait_loop (S (max_polls timeout)) url (clock w) timeout w
            = (Returned (Some true), w)).
  { intros Hle. rewrite wait_loop_unfold.
    destruct (Z.ltb_spec (clock w - clock w) (timeout * 1000)); [lia |].
    reflexivity. }
  destruct (wait_loop _ _ _ _ _) as [[r | e] w'] eqn:Hrun; cbn [fst snd] in *;
    rewrite (new_exchanges_app _ _ d Hd);
    (split; [lia | split; [assumption | split; [assumption |]]]);
    intros Hle; specialize (Hnone Hle);
    [injection Hnone as -> -> | discriminate Hnone]; reflexivity.
Qed.

Lemma check_task_raises (v : pyobj) (e : exn) :
  check_task v = Raised e -> is_Exception e = true.
Proof.
  unfold check_task.
  destruct v as [| | | | | | m]; cbn; try (intros [= <-]; reflexivity).
  destruct (eq_str _ "SUCCESS").
  - destruct (truthy _); [discriminate |].
    destruct (default (PyDict ∅) (m !! "bapiSyncResponseJson"));
      cbn; try discriminate.
    destruct (_ || _)%bool; discriminate.
  - destruct (_ || _)%bool; [discriminate |].
    destruct (truthy _); [discriminate |].
    destruct (_ || _)%bool; [| discriminate].
    destruct (_ || _)%bool; discriminate.
Qed.

Lemma judge_propagated (o : result response) (e : exn) :
  judge o = Propagated e -> o = Raised e /\ is_Exception e = false.
Proof.
  unfold judge. destruct o as [r | e'].
  - destruct (status_code r =? 404); [discriminate |].
    destruct (status_code r =? 200); [| discriminate].
    unfold response_json. destruct (resp_json r) as [data |]; cbn;
      [| discriminate].
    destruct (check_task data) as [[b |] | e'] eqn:Hc; try discriminate.
    rewrite (check_task_raises _ _ Hc). discriminate.
  - destruct (is_Exception e') eqn:He; [discriminate |].
    intros [= <-]. split; [reflexivity | exact He].
Qed.

Lemma judge_finished (o : result response) (b : bool) :
  judge o = Finished b ->
  exists resp,
    o = Returned resp
    /\ ((status_code resp = 404 /\ b = true)
        \/ (status_code resp = 200
            /\ exists data, resp_json resp = Some data
                            /\ check_task data = Returned (Some b))).
Proof.
  unfold judge. destruct o as [r | e'].
  - intros Hj. exists r. split; [reflexivity |].
    destruct (Z.eqb_spec (status_code r) 404) as [H404 | _].
    { injection Hj as <-. left. split; [assumption | reflexivity]. }
    destruct (Z.eqb_spec (status_code r) 200) as [H200 | _]; [| discriminate].
    right. split; [assumption |]. unfold response_json in Hj.
    destruct (resp_json r) as [data |]; cbn in Hj; [| discriminate].
    exists data. split; [reflexivity |].
    destruct (check_task data) as [[b' |] | e']; try discriminate.
    + injection Hj as <-. reflexivity.
    + destruct (is_Exception e'); discriminate.
  - destruct (is_Exception e'); discriminate.
Qed.

(** How a wait ends when it does not time out: on its last exchange. *)
Lemma wait_loop_last (url : string) (start timeout : Z) (n : nat) :
  forall w : World E,
    match (wait_loop n url start timeout w).1 with
    | Returned (Some false) =>
        exists x, last (new_exchanges w (wait_loop n url start timeout w).2)
                  = Some x
                  /\ judge (outcome x.2) = Finished false
    | Raised e =>
        exists x, last (new_exchanges w (wait_loop n url start timeout w).2)
                  = Some x
                  /\ judge (outcome x.2) = Propagated e
    | _ => True
    end.
Proof.
  induction n as [| n IH]; intros w; [exact I |].
  rewrite wait_loop_unfold.
  destruct (clock w - start <? timeout * 1000); [| exact I].
  rewrite poll_judge. cbv zeta. destruct (serve _ _ _) as [e' rp].
  set (rq := poll_request url (self w)).
  destruct (judge (outcome rp)) as [[|] | | e] eqn:Hj; cbn [fst snd].
  - exact I.
  - exists (rq, rp). split; [| exact Hj].
    rewrite (new_exchanges_app _ _ [(rq, rp)]) by reflexivity. reflexivity.
  - set (w2 := slept (check_interval * 1000) (answered w rq e' rp)).
    specialize (IH w2).
    destruct (steps_wait_loop (fun _ => True) ltac:(intros ? ?; exact I)
                n url start timeout w2) as (d & Hd & _).
    assert (Hnew : new_exchanges w (wait_loop n url start timeout w2).2
                   = (rq, rp) :: d).
    { apply new_exchanges_app. rewrite Hd. subst w2.
      cbn [log slept answered]. rewrite <- app_assoc. reflexivity. }
    rewrite (new_exchanges_app _ _ d Hd) in IH. rewrite Hnew.
    destruct (wait_loop n url start timeout w2).1 as [[[|] |] | e];
      try exact I; destruct IH as (x & Hlast & Hx); exists x;
      (split; [| exact Hx]);
      rewrite last_cons, Hlast; reflexivity.
  - exists (rq, rp). split; [| exact Hj].
    rewrite (new_exchanges_app _ _ [(rq, rp)]) by reflexivity. reflexivity.
Qed.


Lemma check_task_failure (m : gmap string pyobj) :
  check_task (PyDict m) = Returned (Some false) <-> reports_failure m.
Proof.
  unfold check_task, reports_failure. cbn.
  destruct (eq_str (default (PyStr "") (m !! "status")) "SUCCESS").
  - destruct (truthy (default PyNone (m !! "bapiError")));
      [split; [left; reflexivity | reflexivity] |].
    destruct (m !! "bapiSyncResponseJson") as [sync |]; cbn.
    + destruct sync as [| | | | | | sm]; cbn;
        try (split; [discriminate | intros [? | (? & ? & [=] & _)]; discriminate]).
      destruct (sm !! "status") as [s |] eqn:Hs; cbn.
      * destruct (eq_str s "false" || eq_False s)%bool eqn:Hf.
        -- split; [| reflexivity]. intros _. right. exists sm, s. auto.
        -- split; [discriminate |].
           intros [? | (sm' & s' & [= <-] & Hs' & Hf')]; [discriminate |].
           rewrite Hs in Hs'. injection Hs' as <-. congruence.
      * split; [discriminate |].
        intros [? | (sm' & s' & [= <-] & Hs' & _)]; [discriminate |].
        rewrite Hs in Hs'. discriminate.
    + rewrite lookup_empty. cbn.
      split; [discriminate | intros [? | (? & ? & [=] & _)]; discriminate].
  - destruct (_ || _)%bool; [split; [left; reflexivity | reflexivity] |].
    destruct (truthy (default PyNone (m !! "isError")));
      [split; [right; reflexivity | reflexivity] |].
    destruct (_ || _)%bool; cbn;
      (split; [discriminate | intros [? | ?]; discriminate]).
Qed.

(** X3.  A wait reports a failure only on evidence: when it returns
    [False], its last request was answered with status 200 and a JSON
    object that says so (see [reports_failure]).  No network error, no
    other status code and no malformed body makes it return [False]. *)
Theorem failure_needs_evidence
    (w : World E) (task_id task_url : pyobj) (timeout : Z) :
  (wait_for_task task_id task_url timeout w).1 = Returned false ->
  exists x resp m,
    last (new_exchanges w (wait_for_task task_id task_url timeout w).2) = Some x
    /\ outcome x.2 = Returned resp
    /\ status_code resp = 200
    /\ resp_json resp = Some (PyDict m)
    /\ reports_failure m.
Proof.
  unfold wait_for_task at 1 2. run.
  destruct (task_status_url (self w) task_id task_url) as [url | e];
    [| discriminate].
  pose proof (wait_loop_last url (clock w) timeout (S (max_polls timeout)) w)
    as Hlast.
  destruct (wait_loop _ _ _ _ _) as [[[[|] |] | e'] w']; cbn [fst snd] in *;
    try discriminate.
  intros _. destruct Hlast as (x & Hx & Hj).
  apply judge_finished in Hj as (resp & Hout & [[_ [=]] | (H200 & data & Hjson & Hc)]).
  destruct data as [| | | | | | m]; try discriminate Hc.
  exists x, resp, m. repeat split; try assumption.
  apply check_task_failure. exact Hc.
Qed.

End WaitProperties.

Lemma wait_for_task_polls_bounded_witness :
  (length (new_exchanges (playing [in_progress; task_succeeded])
             (wait_for_task (PyStr "t1") PyNone 600
                (playing [in_progress; task_succeeded])).2)
   <= max_polls 600)%nat
  /\ Forall (fun x => x.1 = poll_request task_t1_url
                              (self (playing [in_progress; task_succeeded])))
       (new_exchanges (playing [in_progress; task_succeeded])
          (wait_for_task (PyStr "t1") PyNone 600
             (playing [in_progress; task_succeeded])).2)
  /\ wait_for_task (PyStr "t1") PyNone 0 (playing [task_failed])
     = (Returned true, playing [task_failed]).
Proof.
  destruct (wait_for_task_polls_bounded (playing [in_progress; task_succeeded])
              (PyStr "t1") PyNone 600 task_t1_url eq_refl)
    as (Hlen & Hall & _).
  split; [exact Hlen |]. split; [exact Hall |].
  apply (wait_for_task_polls_bounded (playing [task_failed])
           (PyStr "t1") PyNone 0 task_t1_url eq_refl).
  lia.
Defined.


Lemma failure_needs_evidence_witness :
  exists x resp m,
    last (new_exchanges (playing [in_progress; task_failed])
            (wait_for_task (PyStr "t1") PyNone 600
               (playing [in_progress; task_failed])).2) = Some x
    /\ outcome x.2 = Returned resp
    /\ status_code resp = 200
    /\ resp_json resp = Some (PyDict m)
    /\ reports_failure m.
Proof.
  exact (failure_needs_evidence (playing [in_progress; task_failed])
           (PyStr "t1") PyNone 600 eq_refl).
Defined.

(** ** Logging in *)

Section LoginProperties.
Context {E : Type} `{Outside E}.

Lemma authenticate_log (w : World E) :
  exists rp,
    log (authenticate w).2 = (log w ++ [(token_request (self w), rp)])%list.
Proof.
  unfold authenticate. run. fold (token_request (self w)).
  destruct (serve _ _ _) as [e' rp]. exists rp. cbn [fst snd].
  destruct (outcome rp) as [resp | e]; [| reflexivity]. cbn.
  destruct (raise_for_status resp) as [[] | e]; [| reflexivity]. cbn.
  destruct (response_json resp) as [body | e]; [| reflexivity]. cbn.
  destruct (item body "Token"); reflexivity.
Qed.

Lemma authenticate_stores (w : World E) (tok : pyobj) :
  (authenticate w).1 = Returned tok ->
  self (authenticate w).2 = logged_in (self w) tok.
Proof.
  unfold authenticate. run.
  destruct (serve _ _ _) as [e' rp]. cbn [fst snd].
  destruct (outcome rp) as [resp | e]; [| discriminate]. cbn.
  destruct (raise_for_status resp) as [[] | e]; [| discriminate]. cbn.
  destruct (response_json resp) as [body | e]; [| discriminate]. cbn.
  destruct (item body "Token") as [tok' | e]; [| discriminate]. cbn.
  intros [= ->]. reflexivity.
Qed.

(** X4.  [authenticate] sends one request, the token request.  When it
    returns, the token is the ["Token"] entry of the answer, which was no
    4xx or 5xx, and it is stored in [self.token] and under "X-Auth-Token"
    in [self.headers], nothing else of the client being changed.  When it
    raises, the client object is as it was. *)
Theorem authenticate_effect (w : World E) :
  exists rp,
    new_exchanges w (authenticate w).2 = [(token_request (self w), rp)]
    /\ match (authenticate w).1 with
       | Returned tok =>
           self (authenticate w).2 = logged_in (self w) tok
           /\ exists resp body,
                outcome rp = Returned resp
                /\ raise_for_status resp = Returned tt
                /\ resp_json resp = Some body
                /\ item body "Token" = Returned tok
       | Raised e => self (authenticate w).2 = self w
       end.
Proof.
  unfold authenticate. run. fold (token_request (self w)).
  destruct (serve _ _ _) as [e' rp]. exists rp. cbn [fst snd].
  split.
  - apply new_exchanges_app.
    destruct (outcome rp) as [resp | e]; [| reflexivity]. cbn.
    destruct (raise_for_status resp) as [[] | e]; [| reflexivity]. cbn.
    unfold response_json. destruct (resp_json resp) as [body |];
      [| reflexivity]. cbn.
    destruct (item body "Token"); reflexivity.
  - destruct (outcome rp) as [resp | e]; [| reflexivity]. cbn.
    destruct (raise_for_status resp) as [[] | e] eqn:Hst; [| reflexivity]. cbn.
    unfold response_json. destruct (resp_json resp) as [body |] eqn:Hbody;
      [| reflexivity]. cbn.
    destruct (item body "Token") as [tok | e] eqn:Htok; [| reflexivity]. cbn.
    split; [reflexivity |]. exists resp, body. auto.
Qed.

Lemma get_site_by_name_run (site_name : string) (w : World E) :
  get_site_by_name site_name w =
  (listing sites_path w ≫= first_site_named site_name,
   looked_up sites_path w).
Proof.
  unfold get_site_by_name, listing, looked_up, lookup_request, sites_path. run.
  destruct (serve _ _ _) as [e' rp]. cbn.
  destruct (outcome rp) as [resp | e]; cbn; [| reflexivity].
  destruct (response_json resp) as [body | e]; cbn; [| reflexivity].
  destruct (item body "response") as [items | e]; cbn; [| reflexivity].
  destruct (iter items) as [sites | e]; cbn; reflexivity.
Qed.

Lemma new_exchanges_looked_up (path : string) (w : World E) :
  exists x, new_exchanges w (looked_up path w) = [x]
            /\ x.1 = lookup_request path (self w).
Proof.
  destruct (log_looked_up path w) as (x & Hx & Hrq).
  exists x. split; [apply new_exchanges_app; exact Hx | exact Hrq].
Qed.

(** X5.  After a successful [authenticate], each of the three lookups
    sends one request, and that request carries the token just obtained
    under "X-Auth-Token", next to the headers the client had before. *)
Theorem lookups_carry_the_token (w : World E) (tok : pyobj) :
  (authenticate w).1 = Returned tok ->
  let w1 := (authenticate w).2 in
  (forall path, exists hdrs,
      rq_headers (lookup_request path (self w1)) = Some hdrs
      /\ hdrs !! "X-Auth-Token" = Some tok
      /\ forall k, k <> "X-Auth-Token" -> hdrs !! k = headers (self w) !! k)
  /\ (forall name, exists x,
        new_exchanges w1 (get_site_by_name name w1).2 = [x]
        /\ x.1 = lookup_request sites_path (self w1))
  /\ (forall name parent, exists x,
        new_exchanges w1 (get_site_by_name_and_parent name parent w1).2 = [x]
        /\ x.1 = lookup_request sites_path (self w1))
  /\ (forall name, exists x,
        new_exchanges w1 (get_global_pool_by_name name w1).2 = [x]
        /\ x.1 = lookup_request pools_path (self w1)).
Proof.
  intros Hret w1.
  pose proof (authenticate_stores w tok Hret) as Hself. fold w1 in Hself.
  split; [| split; [| split]].
  - intros path. exists (<["X-Auth-Token" := tok]> (headers (self w))).
    rewrite Hself. split; [reflexivity |]. split.
    + apply lookup_insert_eq.
    + intros k Hk. apply lookup_insert_ne. congruence.
  - intros name. rewrite get_site_by_name_run. apply new_exchanges_looked_up.
  - intros name parent. rewrite get_site_by_name_and_parent_run.
    apply new_exchanges_looked_up.
  - intros name. rewrite get_global_pool_by_name_run.
    apply new_exchanges_looked_up.
Qed.

End LoginProperties.

Lemma lookups_carry_the_token_witness :
  exists hdrs,
    rq_headers (lookup_request sites_path
                  (self (authenticate (playing [token_granted])).2)) = Some hdrs
    /\ hdrs !! "X-Auth-Token" = Some (PyStr "eyJhbGciOi")
    /\ forall k, k <> "X-Auth-Token" ->
         hdrs !! k = headers (self (playing [token_granted])) !! k.
Proof.
  exact (proj1 (lookups_carry_the_token (playing [token_granted])
                  (PyStr "eyJhbGciOi") eq_refl) sites_path).
Defined.

(** ** Looking up by name *)

Lemma first_site_named_spec (name : string) (sites : list pyobj) (s : pyobj) :
  first_site_named name sites = Returned s ->
  (s = PyNone /\ Forall (is_named_otherwise name) sites)
  \/ first_named name sites s.
Proof.
  revert s. induction sites as [| site rest IH]; intros s; cbn [first_site_named].
  - intros [= <-]. left. split; [reflexivity | constructor].
  - destruct (item site "name") as [n |] eqn:Hname; cbn; [| discriminate].
    destruct (eq_str n name) eqn:Hn.
    + intros [= <-]. right. exists [], rest. split; [reflexivity |].
      split; [exists n; split; assumption | constructor].
    + intros Hrest.
      assert (Hsite : is_named_otherwise name site) by (exists n; auto).
      destruct (IH s Hrest) as [[-> Hall] | (before & after & -> & Hs & Hall)].
      * left. split; [reflexivity | constructor; assumption].
      * right. exists (site :: before), after. split; [reflexivity |].
        split; [exact Hs | constructor; assumption].
Qed.

Lemma is_named_truthy (s : pyobj) (name : string) :
  is_named s name -> truthy s = true /\ s <> PyNone.
Proof.
  intros (n & Hn & _). destruct s as [| | | | | | m]; try discriminate Hn.
  split; [| discriminate]. cbn in *.
  destruct (Nat.eqb_spec (size m) 0) as [Hsize | _]; [| reflexivity].
  apply map_size_empty_iff in Hsize. subst m. rewrite lookup_empty in Hn.
  discriminate.
Qed.

(** A lookup under a parent finds something only where the lookup by name
    does. *)
Lemma first_site_under_named (name parent : string) (sites : list pyobj)
    (s : pyobj) :
  first_site_under name parent sites = Returned s ->
  s <> PyNone ->
  exists s', first_site_named name sites = Returned s' /\ is_named s' name.
Proof.
  induction sites as [| site rest IH]; cbn [first_site_under first_site_named].
  - intros [= <-] Hs. contradiction.
  - destruct (item site "name") as [n |] eqn:Hname; cbn; [| discriminate].
    destruct (eq_str n name) eqn:Hn.
    + intros _ _. exists site. split; [reflexivity |]. exists n. auto.
    + exact IH.
Qed.

Lemma first_site_named_none (name parent : string) (sites : list pyobj) :
  first_site_named name sites = Returned PyNone ->
  first_site_under name parent sites = Returned PyNone.
Proof.
  induction sites as [| site rest IH]; cbn [first_site_under first_site_named].
  - reflexivity.
  - destruct (item site "name") as [n |] eqn:Hname; cbn; [| discriminate].
    destruct (eq_str n name) eqn:Hn; [| exact IH].
    intros [= ->]. discriminate Hname.
Qed.

Section NameLookupProperties.
Context {E : Type} `{Outside E}.

(** X6.  [get_site_by_name] sends one request, the lookup of the sites,
    and returns the first listed site whose ["name"] is the one asked for:
    every site listed before it has another name.  It returns [None] only
    when every listed site has another name. *)
Theorem get_site_by_name_first_match (w : World E) (name : string) (s : pyobj) :
  (get_site_by_name name w).1 = Returned s ->
  (get_site_by_name name w).2 = looked_up sites_path w
  /\ exists sites,
       listing sites_path w = Returned sites
       /\ ((s = PyNone /\ Forall (is_named_otherwise name) sites)
           \/ first_named name sites s).
Proof.
  rewrite get_site_by_name_run. cbn [fst snd]. intros Hret.
  split; [reflexivity |].
  destruct (listing sites_path w) as [sites | e]; [| discriminate Hret].
  exists sites. split; [reflexivity |].
  apply first_site_named_spec. exact Hret.
Qed.

(** X7.  On the same listing, the lookup under a parent finds a site only
    if the lookup by name finds one (of that name, not later in the
    listing), and finds nothing where the lookup by name finds nothing. *)
Theorem parent_lookup_refines_name_lookup
    (w : World E) (name parent : string) :
  (forall s,
     (get_site_by_name_and_parent name parent w).1 = Returned s ->
     s <> PyNone ->
     exists s', (get_site_by_name name w).1 = Returned s' /\ is_named s' name)
  /\ ((get_site_by_name name w).1 = Returned PyNone ->
      (get_site_by_name_and_parent name parent w).1 = Returned PyNone)
  /\ (get_site_by_name_and_parent name parent w).2 = (get_site_by_name name w).2.
Proof.
  rewrite get_site_by_name_run, get_site_by_name_and_parent_run. cbn [fst snd].
  split; [| split; [| reflexivity]].
  - intros s Hret Hs.
    destruct (listing sites_path w) as [sites | e]; [| discriminate Hret].
    exact (first_site_under_named name parent sites s Hret Hs).
  - destruct (listing sites_path w) as [sites | e]; [| discriminate].
    apply first_site_named_none.
Qed.

End NameLookupProperties.

Lemma get_site_by_name_first_match_witness :
  exists sites,
    listing sites_path (playing [two_floors]) = Returned sites
    /\ ((floor_1_sunset = PyNone /\ Forall (is_named_otherwise "FLOOR_1") sites)
        \/ first_named "FLOOR_1" sites floor_1_sunset).
Proof.
  exact (proj2 (get_site_by_name_first_match (playing [two_floors]) "FLOOR_1"
                  floor_1_sunset eq_refl)).
Defined.

Lemma parent_lookup_refines_name_lookup_witness :
  exists s',
    (get_site_by_name "FLOOR_1" (playing [two_floors])).1 = Returned s'
    /\ is_named s' "FLOOR_1".
Proof.
  apply (proj1 (parent_lookup_refines_name_lookup (playing [two_floors])
                  "FLOOR_1" "Windy City Plaza") floor_1_windy);
    [reflexivity | discriminate].
Defined.

(** ** Creating what is there, and what is refused *)

Lemma first_named_found (name : string) (sites : list pyobj) (s : pyobj) :
  first_named name sites s -> first_site_named name sites = Returned s.
Proof.
  intros (before & after & -> & (n & Hn & Heq) & Hall).
  induction Hall as [| site before (n' & Hn' & Hne) _ IH];
    cbn [app first_site_named].
  - rewrite Hn. cbn. rewrite Heq. reflexivity.
  - rewrite Hn'. cbn. rewrite Hne. exact IH.
Qed.

Lemma first_site_under_truthy (name parent : string) (sites : list pyobj)
    (s : pyobj) :
  first_site_under name parent sites = Returned s ->
  s <> PyNone -> truthy s = true.
Proof.
  intros Hret Hs.
  apply first_site_under_sound in Hret as [-> | (_ & Hnamed & _)];
    [contradiction |].
  apply (is_named_truthy s name). exact Hnamed.
Qed.

Section CreationProperties.
Context {E : Type} `{Outside E}.

(** X8.  A site is not created twice.  When a site of that name is listed,
    under whatever parent and of whatever kind, [create_area] and
    [create_building] return the first such site after their one lookup
    and send nothing else; [create_floor] does so when a site of that name
    is listed under the parent asked for. *)
Theorem existing_site_is_not_created_again
    (w : World E) (name : string) (sites : list pyobj) (f : pyobj) :
  listing sites_path w = Returned sites ->
  first_named name sites f ->
  (forall parent,
     create_area name parent w = (Returned f, looked_up sites_path w))
  /\ (forall parent latitude longitude address country,
        create_building name parent latitude longitude address country w
        = (Returned f, looked_up sites_path w))
  /\ (forall parent number s,
        first_site_under name parent sites = Returned s ->
        s <> PyNone ->
        create_floor name parent number w = (Returned s, looked_up sites_path w)).
Proof.
  intros Hlist Hfirst.
  pose proof (first_named_found name sites f Hfirst) as Hfound.
  destruct Hfirst as (before & after & _ & Hnamed & _).
  destruct (is_named_truthy f name Hnamed) as [Htrue _].
  split; [| split].
  - intros parent. unfold create_area. run.
    rewrite get_site_by_name_run, Hlist. cbn. rewrite Hfound, Htrue.
    reflexivity.
  - intros parent latitude longitude address country.
    unfold create_building. run.
    rewrite get_site_by_name_run, Hlist. cbn. rewrite Hfound, Htrue.
    reflexivity.
  - intros parent number s Hunder Hs. unfold create_floor. run.
    rewrite get_site_by_name_and_parent_run, Hlist. cbn. rewrite Hunder.
    rewrite (first_site_under_truthy name parent sites s Hunder Hs).
    reflexivity.
Qed.

(** X9.  A creation that is refused.  [create_floor] takes any answer to
    its POST other than 202 for a refusal: it returns [None] without
    raising, without reading the body and without polling.  [create_area]
    and [create_building] raise [HTTPError] when their POST is answered
    with a 4xx or 5xx status; nothing is polled either. *)
Theorem refused_creation (w : World E) (name parent : string) :
  (forall number resp,
     (get_site_by_name_and_parent name parent w).1 = Returned PyNone ->
     outcome (post_answer sites_path (floor_payload name parent number)
                (looked_up sites_path w)) = Returned resp ->
     status_code resp <> 202 ->
     create_floor name parent number w
     = (Returned PyNone,
        posted sites_path (floor_payload name parent number)
          (looked_up sites_path w)))
  /\ ((get_site_by_name name w).1 = Returned PyNone ->
      (forall resp,
         outcome (post_answer sites_path (area_payload name parent)
                    (looked_up sites_path w)) = Returned resp ->
         400 <= status_code resp < 600 ->
         create_area name parent w
         = (Raised HTTPError,
            posted sites_path (area_payload name parent)
              (looked_up sites_path w)))
      /\ (forall latitude longitude address country resp,
            outcome (post_answer sites_path
                       (building_payload name parent latitude longitude
                          address country)
                       (looked_up sites_path w)) = Returned resp ->
            400 <= status_code resp < 600 ->
            create_building name parent latitude longitude address country w
            = (Raised HTTPError,
               posted sites_path
                 (building_payload name parent latitude longitude address
                    country)
                 (looked_up sites_path w)))).
Proof.
  split.
  - intros number resp Habsent Hout Hcode. unfold create_floor. run.
    rewrite get_site_by_name_and_parent_run in Habsent |- *.
    cbn [fst] in Habsent. rewrite Habsent. cbn [truthy].
    unfold post_floor. run. fold (floor_payload name parent number).
    revert Hout. unfold post_answer, posted, post_request, sites_path.
    destruct (serve _ _ _) as [e' rp]. cbn. intros ->.
    destruct (Z.eqb_spec (status_code resp) 202); [contradiction | reflexivity].
  - intros Habsent. rewrite get_site_by_name_run in Habsent.
    cbn [fst] in Habsent. split.
    + intros resp Hout [Hlo Hhi]. unfold create_area. run.
      rewrite get_site_by_name_run, Habsent. cbn [truthy fst snd].
      fold (area_payload name parent).
      revert Hout. unfold post_answer, posted, post_request, sites_path.
      destruct (serve _ _ _) as [e' rp]. cbn. intros ->.
      unfold raise_for_status.
      destruct (Z.leb_spec 400 (status_code resp)); [| lia].
      destruct (Z.ltb_spec (status_code resp) 600); [| lia]. reflexivity.
    + intros latitude longitude address country resp Hout [Hlo Hhi].
      unfold create_building. run.
      rewrite get_site_by_name_run, Habsent. cbn [truthy fst snd].
      fold (building_payload name parent latitude longitude address country).
      revert Hout. unfold post_answer, posted, post_request, sites_path.
      destruct (serve _ _ _) as [e' rp]. cbn. intros ->.
      unfold raise_for_status.
      destruct (Z.leb_spec 400 (status_code resp)); [| lia].
      destruct (Z.ltb_spec (status_code resp) 600); [| lia]. reflexivity.
Qed.

End CreationProperties.

Lemma existing_site_is_not_created_again_witness :
  create_area "FLOOR_1" "Global" (playing [two_floors])
  = (Returned floor_1_sunset, looked_up sites_path (playing [two_floors])).
Proof.
  refine (proj1 (existing_site_is_not_created_again (playing [two_floors])
                   "FLOOR_1" [floor_1_sunset; floor_1_windy] floor_1_sunset
                   eq_refl _) "Global").
  exists [], [floor_1_windy]. split; [reflexivity |].
  split; [eexists; split; reflexivity | constructor].
Defined.

Lemma refused_creation_witness :
  (create_floor "FLOOR_1" "Sunset Tower" 1
     (playing [nothing_listed; ok_untracked])).1 = Returned PyNone
  /\ (create_area "United States" "Global"
        (playing [nothing_listed; server_error])).1 = Raised HTTPError.
Proof.
  split.
  - rewrite (proj1 (refused_creation (playing [nothing_listed; ok_untracked])
                      "FLOOR_1" "Sunset Tower") 1
               {| status_code := 200; text := "{...}";
                  resp_json := Some (PyDict {[ "message" := PyStr "ok" ]}) |});
      [reflexivity | vm_compute; reflexivity | vm_compute; reflexivity
      | discriminate].
  - assert (Habsent : (get_site_by_name "United States"
                         (playing [nothing_listed; server_error])).1
                      = Returned PyNone) by (vm_compute; reflexivity).
    rewrite (proj1 (proj2 (refused_creation
                             (playing [nothing_listed; server_error])
                             "United States" "Global") Habsent)
               {| status_code := 500; text := "Internal Server Error";
                  resp_json := None |});
      [reflexivity | vm_compute; reflexivity
      | split; [discriminate | reflexivity]].
Defined.

(** ** The CIDR of a pool *)

Lemma count_char_nonneg (sep : ascii) (s : string) : 0 <= count_char sep s.
Proof.
  induction s as [| c s IH]; cbn; [lia | destruct (Ascii.eqb c sep); lia].
Qed.

Lemma split_length (sep : ascii) (s : string) :
  Z.of_nat (length (split sep s)) = 1 + count_char sep s.
Proof.
  induction s as [| c s IH]; cbn [split count_char]; [reflexivity |].
  pose proof (count_char_nonneg sep s).
  destruct (Ascii.eqb c sep).
  - cbn [length]. lia.
  - destruct (split sep s) as [| hd tl]; cbn [length] in *; lia.
Qed.

Lemma split_no_sep (sep : ascii) (s : string) :
  count_char sep s = 0 -> split sep s = [s].
Proof.
  induction s as [| c s IH]; cbn [split count_char]; [reflexivity |].
  pose proof (count_char_nonneg sep s).
  destruct (Ascii.eqb c sep); [lia |]. intros Hs. rewrite IH by lia.
  reflexivity.
Qed.

Lemma split_at_sep (sep : ascii) (a b : string) :
  count_char sep a = 0 ->
  split sep (a ++ String sep b) = a :: split sep b.
Proof.
  induction a as [| c a IH]; intros Ha.
  - change (split sep (String sep b) = "" :: split sep b).
    cbn [split]. rewrite Ascii.eqb_refl. reflexivity.
  - change (split sep (String c (a ++ String sep b))
            = String c a :: split sep b).
    cbn [split count_char] in *. pose proof (count_char_nonneg sep a).
    destruct (Ascii.eqb c sep); [lia |]. rewrite IH by lia. reflexivity.
Qed.

Lemma pool_payload_raises (name cidr : string) (e : exn) :
  pool_payload name cidr = Raised e -> e = ValueError.
Proof.
  unfold pool_payload.
  destruct (split "/" cidr) as [| subnet [| prefix [| ? ?]]]; cbn;
    try (intros [= <-]; reflexivity).
  unfold int_of_str.
  destruct (match rstrip (lstrip prefix) with
            | String "-" r => Z.opp <$> digits 0 false r
            | String "+" r => digits 0 false r
            | _ => digits 0 false (rstrip (lstrip prefix))
            end); cbn; [discriminate | intros [= <-]; reflexivity].
Qed.

Lemma pool_payload_slashes (name cidr : string) :
  count_char "/" cidr <> 1 -> pool_payload name cidr = Raised ValueError.
Proof.
  intros Hcount. pose proof (split_length "/" cidr) as Hlen.
  unfold pool_payload.
  destruct (split "/" cidr) as [| subnet [| prefix [| ? ?]]]; cbn in *;
    try reflexivity.
  lia.
Qed.



Section CidrProperties.
Context {E : Type} `{Outside E}.

(** X11.  The CIDR is read only when the pool is to be created.  For a
    pool that is not listed, a CIDR that does not have exactly one slash
    makes [create_ip_pool] raise [ValueError] after its lookup, before
    anything is posted; for a pool that is listed, the same CIDR goes
    unnoticed. *)
Theorem malformed_cidr_is_rejected_before_the_post
    (w : World E) (name cidr : string) :
  count_char "/" cidr <> 1 ->
  ((get_global_pool_by_name name w).1 = Returned PyNone ->
   create_ip_pool name cidr w = (Raised ValueError, looked_up pools_path w))
  /\ (forall p,
        (get_global_pool_by_name name w).1 = Returned p ->
        p <> PyNone ->
        create_ip_pool name cidr w = (Returned p, looked_up pools_path w)).
Proof.
  intros Hcount. split.
  - intros Habsent. unfold create_ip_pool. run.
    rewrite get_global_pool_by_name_run in Habsent |- *. cbn [fst] in Habsent.
    rewrite Habsent. cbn [truthy].
    rewrite (pool_payload_slashes name cidr Hcount). reflexivity.
  - intros p Hfound Hp. apply create_ip_pool_present; assumption.
Qed.

End CidrProperties.

Lemma malformed_cidr_is_rejected_before_the_post_witness :
  create_ip_pool "US_CORP" "10.201.0.0" (playing [nothing_listed])
  = (Raised ValueError, looked_up pools_path (playing [nothing_listed])).
Proof.
  apply (malformed_cidr_is_rejected_before_the_post (playing [nothing_listed])
           "US_CORP" "10.201.0.0" ltac:(discriminate)).
  vm_compute. reflexivity.
Defined.

(** ** How many requests of a kind a method sends *)

Lemma count_of_app (c : request -> bool) (d1 d2 : list (request * reply)) :
  count_of c (d1 ++ d2) = (count_of c d1 + count_of c d2)%nat.
Proof. unfold count_of. rewrite List.filter_app, length_app. reflexivity. Qed.

Lemma count_of_none (c : request -> bool) (d : list (request * reply)) :
  Forall (fun x => c x.1 = false) d -> count_of c d = 0%nat.
Proof.
  unfold count_of. induction 1 as [| x d Hx _ IH]; [reflexivity |].
  cbn [List.filter]. rewrite Hx. exact IH.
Qed.

Section Budget.
Context {E : Type} `{Outside E}.
Variable c : request -> bool.

Lemma budget_ret {A} (n : nat) (a : A) :
  sends_at_most c n (mret a : M (World E) A).
Proof. intros w. exists []. cbn. rewrite app_nil_r. split; [reflexivity | lia]. Qed.

Lemma budget_lift {A} (n : nat) (r : result A) :
  sends_at_most c n (lift r : M (World E) A).
Proof. intros w. exists []. cbn. rewrite app_nil_r. split; [reflexivity | lia]. Qed.

Lemma budget_mono {A} (n n' : nat) (m : M (World E) A) :
  (n <= n')%nat -> sends_at_most c n m -> sends_at_most c n' m.
Proof.
  intros Hle Hm w. destruct (Hm w) as (d & Hd & Hn). exists d.
  split; [exact Hd | lia].
Qed.

Lemma budget_bind {A B} (a b : nat) (m : M (World E) A)
    (k : A -> M (World E) B) :
  sends_at_most c a m -> (forall x, sends_at_most c b (k x)) ->
  sends_at_most c (a + b) (m ≫= k).
Proof.
  intros Hm Hk w. unfold mbind, M_bind, bind.
  destruct (Hm w) as (d1 & Hd1 & Hn1).
  destruct (m w) as [[x | e] w1]; cbn [snd] in *.
  - destruct (Hk x w1) as (d2 & Hd2 & Hn2). exists (d1 ++ d2)%list.
    split; [rewrite Hd2, Hd1, app_assoc; reflexivity |].
    rewrite count_of_app. lia.
  - exists d1. split; [exact Hd1 | lia].
Qed.

Lemma budget_try {A} (a b : nat) (m : M (World E) A)
    (handler : exn -> option (M (World E) A)) :
  sends_at_most c a m ->
  (forall e h, handler e = Some h -> sends_at_most c b h) ->
  sends_at_most c (a + b) (try_except m handler).
Proof.
  intros Hm Hh w. unfold try_except.
  destruct (Hm w) as (d1 & Hd1 & Hn1).
  destruct (m w) as [[x | e] w1]; cbn [snd] in *.
  - exists d1. split; [exact Hd1 | lia].
  - destruct (handler e) as [h |] eqn:He.
    + destruct (Hh e h He w1) as (d2 & Hd2 & Hn2). exists (d1 ++ d2)%list.
      split; [rewrite Hd2, Hd1, app_assoc; reflexivity |].
      rewrite count_of_app. lia.
    + exists d1. split; [exact Hd1 | lia].
Qed.

Lemma budget_send (rq : request) : sends_at_most c 1 (send rq).
Proof.
  intros w. unfold send. destruct (serve _ _ _) as [e' rp]. cbn.
  exists [(rq, rp)]. split; [reflexivity |].
  unfold count_of. cbn. destruct (c rq); cbn; lia.
Qed.

Lemma budget_steps {A} (n : nat) (m : M (World E) A) :
  steps (grows (fun rq => c rq = false)) m -> sends_at_most c n m.
Proof.
  intros Hm w. destruct (Hm w) as (d & Hd & Hall). exists d.
  split; [exact Hd |]. rewrite (count_of_none c d Hall). lia.
Qed.

End Budget.

Ltac budget_quiet :=
  apply budget_steps; unfold await_deletion; steps_method; steps_close;
  try reflexivity.

Section RequestBudgets.
Context {E : Type} `{Outside E}.

Lemma posts_of_answer (n : nat) (result : pyobj) (pause : Z) :
  sends_at_most is_post_request n (await_creation (E := E) result pause).
Proof.
  apply budget_steps. apply steps_await_creation. intros url hdrs. reflexivity.
Qed.

(** X12.  Each of the five creating methods sends at most one POST,
    whatever the controller answers, and no DELETE. *)
Theorem creation_posts_at_most_once :
  (forall name cidr,
     sends_at_most is_post_request 1 (create_ip_pool (E := E) name cidr)
     /\ sends_at_most is_delete_request 0 (create_ip_pool (E := E) name cidr))
  /\ (forall name parent,
        sends_at_most is_post_request 1 (create_area (E := E) name parent)
        /\ sends_at_most is_delete_request 0 (create_area (E := E) name parent))
  /\ (forall name parent latitude longitude address country,
        sends_at_most is_post_request 1
          (create_building (E := E) name parent latitude longitude address
             country)
        /\ sends_at_most is_delete_request 0
             (create_building (E := E) name parent latitude longitude address
                country))
  /\ (forall name parent number,
        sends_at_most is_post_request 1
          (create_floor (E := E) name parent number)
        /\ sends_at_most is_delete_request 0
             (create_floor (E := E) name parent number))
  /\ (forall site reservation pool subnet prefix,
        sends_at_most is_post_request 1
          (reserve_ip_subpool (E := E) site reservation pool subnet prefix)
        /\ sends_at_most is_delete_request 0
             (reserve_ip_subpool (E := E) site reservation pool subnet prefix)).
Proof.
  assert (Hget : allows_get (fun rq => is_post_request rq = false))
    by (intros url hdrs; reflexivity).
  assert (Hget' : allows_get (fun rq => is_delete_request rq = false))
    by (intros url hdrs; reflexivity).
  assert (Hpost' : allows_post (fun rq => is_delete_request rq = false)
                     (fun _ => True))
    by (intros url hdrs payload _; reflexivity).
  repeat match goal with |- _ /\ _ => split | |- forall _, _ => intro end.
  - unfold create_ip_pool.
    apply (budget_bind _ 0 1); [budget_quiet | intros existing].
    destruct (truthy existing); [apply budget_ret |].
    apply (budget_bind _ 0 1); [apply budget_lift | intros payload].
    apply (budget_bind _ 0 1); [budget_quiet | intros me].
    apply (budget_bind _ 1 0); [apply budget_send | intros response].
    budget_quiet.
  - apply budget_steps. apply steps_create_ip_pool; [assumption |].
    intros; reflexivity.
  - unfold create_area.
    apply (budget_bind _ 0 1); [budget_quiet | intros existing].
    destruct (truthy existing); [apply budget_ret |].
    apply (budget_bind _ 0 1); [budget_quiet | intros me]. cbv zeta.
    apply (budget_bind _ 1 0); [apply budget_send | intros response].
    budget_quiet.
  - apply budget_steps. apply steps_create_area; assumption.
  - unfold create_building.
    apply (budget_bind _ 0 1); [budget_quiet | intros existing].
    destruct (truthy existing); [apply budget_ret |].
    apply (budget_bind _ 0 1); [budget_quiet | intros me]. cbv zeta.
    apply (budget_bind _ 1 0); [apply budget_send | intros response].
    budget_quiet.
  - apply budget_steps. apply steps_create_building; assumption.
  - unfold create_floor.
    apply (budget_bind _ 0 1); [budget_quiet | intros existing].
    destruct (truthy existing); [apply budget_ret |]. unfold post_floor.
    apply (budget_bind _ 0 1); [budget_quiet | intros me]. cbv zeta.
    apply (budget_bind _ 1 0); [apply budget_send | intros response].
    budget_quiet.
  - apply budget_steps. apply steps_create_floor; assumption.
  - unfold reserve_ip_subpool.
    apply (budget_bind _ 0 1); [budget_quiet | intros existing].
    destruct (truthy existing); [apply budget_ret |].
    apply (budget_bind _ 0 1); [budget_quiet | intros site0].
    destruct (negb (truthy site0)); [apply budget_ret |].
    apply (budget_bind _ 0 1); [apply budget_lift | intros site_id].
    apply (budget_bind _ 0 1); [budget_quiet | intros parent_pool_obj].
    destruct (negb (truthy parent_pool_obj)); [apply budget_ret |].
    apply (budget_bind _ 0 1); [apply budget_lift | intros parent_cidr].
    apply (budget_bind _ 0 1); [budget_quiet | intros me]. cbv zeta.
    apply (budget_bind _ 1 0); [apply budget_send | intros response].
    budget_quiet.
  - apply budget_steps. apply steps_reserve_ip_subpool; [assumption |].
    intros; reflexivity.
Qed.

Lemma deletes_of_attempt (url : string) (attempt : Z) :
  sends_at_most is_delete_request 1 (delete_site_attempt (E := E) url attempt).
Proof.
  assert (Hget : allows_get (fun rq => is_delete_request rq = false))
    by (intros u hdrs; reflexivity).
  assert (Hauth : allows_auth (fun rq => is_delete_request rq = false))
    by (intros u auth; reflexivity).
  unfold delete_site_attempt.
  apply (budget_try _ 1 0).
  - apply (budget_bind _ 0 1); [budget_quiet | intros me].
    apply (budget_bind _ 1 0); [apply budget_send | intros response].
    budget_quiet.
  - intros e h Hh. cbv beta in Hh.
    destruct (is_RequestException e); [| discriminate Hh].
    injection Hh as <-. budget_quiet.
Qed.

(** X13.  [delete_site] sends at most two DELETEs, [delete_reservation]
    and [delete_global_pool] at most one each, whatever the controller
    answers. *)
Theorem deletion_request_budget :
  (forall name, sends_at_most is_delete_request 2 (delete_site (E := E) name))
  /\ (forall site reservation,
        sends_at_most is_delete_request 1
          (delete_reservation (E := E) site reservation))
  /\ (forall name,
        sends_at_most is_delete_request 1 (delete_global_pool (E := E) name)).
Proof.
  assert (Hget : allows_get (fun rq => is_delete_request rq = false))
    by (intros u hdrs; reflexivity).
  split; [| split].
  - intros name. unfold delete_site.
    apply (budget_bind _ 0 2); [budget_quiet | intros site].
    destruct (negb (truthy site)); [apply budget_ret |].
    apply (budget_bind _ 0 2); [apply budget_lift | intros site_id].
    apply (budget_bind _ 0 2); [budget_quiet | intros me]. cbv zeta.
    apply (budget_bind _ 2 0); [| intros r; apply budget_ret].
    cbn [for_each].
    apply (budget_bind (A := option pyobj) _ 1 1 (delete_site_attempt _ 0));
      [apply deletes_of_attempt | intros [v |]; [apply budget_ret |]].
    apply (budget_bind (A := option pyobj) _ 1 0 (delete_site_attempt _ 1));
      [apply deletes_of_attempt | intros [v |]; apply budget_ret].
  - intros site reservation. unfold delete_reservation.
    apply (budget_bind _ 0 1); [budget_quiet | intros site0].
    destruct (negb (truthy site0)); [apply budget_ret |].
    apply (budget_bind _ 0 1); [apply budget_lift | intros site_id].
    apply (budget_try _ 1 0);
      [| intros e h Hh; unfold except_Exception in Hh;
         destruct (is_Exception e); [| discriminate Hh];
         injection Hh as <-; apply budget_ret].
    apply (budget_bind _ 0 1); [budget_quiet | intros me]. cbv zeta.
    apply (budget_bind _ 0 1); [budget_quiet | intros response].
    destruct (status_code response =? 200); [| apply budget_ret].
    apply (budget_bind _ 0 1); [apply budget_lift | intros body].
    apply (budget_bind _ 0 1); [apply budget_lift | intros reservations].
    apply (budget_bind _ 0 1); [apply budget_lift | intros rs].
    apply (budget_bind _ 0 1); [apply budget_lift | intros reservation_id].
    destruct (negb (truthy reservation_id)); [apply budget_ret |].
    apply (budget_bind _ 0 1); [budget_quiet | intros me']. cbv zeta.
    apply (budget_bind _ 1 0); [apply budget_send | intros del_response].
    budget_quiet.
  - intros name. unfold delete_global_pool.
    apply (budget_bind _ 0 1); [budget_quiet | intros pool].
    destruct (negb (truthy pool)); [apply budget_ret |].
    apply (budget_bind _ 0 1); [apply budget_lift | intros pool_id].
    apply (budget_bind _ 0 1); [budget_quiet | intros me]. cbv zeta.
    apply (budget_bind _ 1 0); [apply budget_send | intros response].
    budget_quiet.
Qed.

End RequestBudgets.

(** ** Deleting *)

Lemma try_except_contains {W A} (m : M W A) (a : A) (w : W) (e : exn) :
  (try_except m (except_Exception (mret a)) w).1 = Raised e ->
  is_Exception e = false.
Proof.
  unfold try_except, except_Exception.
  destruct (m w) as [[x | e'] w1]; cbn; [discriminate |].
  destruct (is_Exception e') eqn:He; cbn; [discriminate |].
  intros [= <-]. exact He.
Qed.

Section DeletionProperties.
Context {E : Type} `{Outside E}.

(** X14.  Nothing is done for what is missing.  When the site is not
    listed, [delete_site], [delete_reservation] and
    [get_reservation_by_name] return [None] after their one lookup, and
    [reserve_ip_subpool] returns [None] after a second lookup that does
    not list it either; when the pool is not listed, [delete_global_pool]
    returns [None] after its one lookup.  Nothing is posted or deleted. *)
Theorem nothing_is_done_for_what_is_missing (w : World E) (name : string) :
  ((get_site_by_name name w).1 = Returned PyNone ->
   delete_site name w = (Returned PyNone, looked_up sites_path w)
   /\ (forall reservation,
         delete_reservation name reservation w
         = (Returned PyNone, looked_up sites_path w)
         /\ get_reservation_by_name name reservation w
            = (Returned PyNone, looked_up sites_path w))
   /\ ((get_site_by_name name (looked_up sites_path w)).1 = Returned PyNone ->
       forall reservation parent_pool subnet prefix_length,
         reserve_ip_subpool name reservation parent_pool subnet prefix_length w
         = (Returned PyNone, looked_up sites_path (looked_up sites_path w))))
  /\ ((get_global_pool_by_name name w).1 = Returned PyNone ->
      delete_global_pool name w = (Returned PyNone, looked_up pools_path w)).
Proof.
  split.
  - intros Habsent. rewrite get_site_by_name_run in Habsent.
    cbn [fst] in Habsent.
    assert (Hres : forall reservation,
               get_reservation_by_name name reservation w
               = (Returned PyNone, looked_up sites_path w)).
    { intros reservation. unfold get_reservation_by_name. run.
      rewrite get_site_by_name_run, Habsent. reflexivity. }
    split; [| split].
    + unfold delete_site. run. rewrite get_site_by_name_run, Habsent.
      reflexivity.
    + intros reservation. split; [| apply Hres].
      unfold delete_reservation. run.
      rewrite get_site_by_name_run, Habsent. reflexivity.
    + intros Hsecond reservation parent_pool subnet prefix_length.
      rewrite get_site_by_name_run in Hsecond. cbn [fst] in Hsecond.
      unfold reserve_ip_subpool. run. rewrite Hres. cbn [truthy].
      rewrite get_site_by_name_run, Hsecond. reflexivity.
  - intros Habsent. rewrite get_global_pool_by_name_run in Habsent.
    cbn [fst] in Habsent.
    unfold delete_global_pool. run.
    rewrite get_global_pool_by_name_run, Habsent. reflexivity.
Qed.

(** X15.  Once the site is found and has an ["id"], no [Exception] leaves
    [get_reservation_by_name] or [delete_reservation]: whatever goes wrong
    with their further requests ends in [None].  A listed site without an
    ["id"] is the exception: both raise what [site["id"]] raises. *)
Theorem reservation_failures_are_contained
    (w : World E) (site_name reservation_name : string) (site : pyobj) :
  (get_site_by_name site_name w).1 = Returned site ->
  ((site = PyNone \/ exists site_id, item site "id" = Returned site_id) ->
   forall e,
     (get_reservation_by_name site_name reservation_name w).1 = Raised e
     \/ (delete_reservation site_name reservation_name w).1 = Raised e ->
     is_Exception e = false)
  /\ (forall e,
        site <> PyNone ->
        item site "id" = Raised e ->
        get_reservation_by_name site_name reservation_name w
        = (Raised e, looked_up sites_path w)
        /\ delete_reservation site_name reservation_name w
           = (Raised e, looked_up sites_path w)).
Proof.
  intros Hsite. rewrite get_site_by_name_run in Hsite. cbn [fst] in Hsite.
  assert (Htruthy : site <> PyNone -> truthy site = true).
  { intros Hne.
    destruct (listing sites_path w) as [sites | e0]; [| discriminate Hsite].
    cbn in Hsite.
    destruct (first_site_named_spec site_name sites site Hsite)
      as [[-> _] | (before & after & _ & Hnamed & _)]; [contradiction |].
    apply (is_named_truthy site site_name Hnamed). }
  split.
  - intros Hid e.
    unfold get_reservation_by_name, delete_reservation, mbind, M_bind, bind.
    rewrite get_site_by_name_run, Hsite.
    destruct Hid as [-> | [site_id Hid]]; [intros [He | He]; discriminate He |].
    destruct (negb (truthy site)); [intros [He | He]; discriminate He |].
    unfold lift at 1 3. rewrite Hid.
    intros [He | He]; exact (try_except_contains _ _ _ _ He).
  - intros e Hne Hid. specialize (Htruthy Hne).
    unfold get_reservation_by_name, delete_reservation, mbind, M_bind, bind.
    rewrite get_site_by_name_run, Hsite, Htruthy. cbn [negb].
    unfold lift. rewrite Hid. split; reflexivity.
Qed.

Lemma self_answered (w : World E) (rq : request) (e' : E) (rp : reply) :
  self (answered w rq e' rp) = self w.
Proof. reflexivity. Qed.

(** The first attempt of [delete_site], answered with 401. *)
Lemma attempt_unauthorized (url : string) (w : World E) (resp : response)
    (tok : pyobj) :
  let answer := serve (outside w) (clock w) (delete_request url (self w)) in
  let w2 := answered w (delete_request url (self w)) answer.1 answer.2 in
  outcome answer.2 = Returned resp ->
  status_code resp = 401 ->
  (authenticate w2).1 = Returned tok ->
  delete_site_attempt url 0 w = (Returned None, (authenticate w2).2).
Proof.
  cbv zeta. unfold delete_site_attempt, answered. run.
  fold (delete_request url (self w)).
  destruct (serve _ _ _) as [e' rp]. cbn [fst snd].
  intros -> Hcode. rewrite Hcode. change (0 <? max_retries - 1) with true.
  cbn.
  destruct (authenticate _) as [[t | e] w3]; cbn; [reflexivity | discriminate].
Qed.

(** The last attempt of [delete_site]: a DELETE, then only GETs. *)
Lemma attempt_last (url : string) (w : World E) :
  exists rp d,
    log (delete_site_attempt url 1 w).2
    = (log w ++ (delete_request url (self w), rp) :: d)%list
    /\ Forall (fun x => rq_method x.1 = GET) d.
Proof.
  unfold delete_site_attempt. run. fold (delete_request url (self w)).
  destruct (serve _ _ _) as [e' rp]. exists rp. cbn [fst snd].
  destruct (outcome rp) as [resp | e]; cbn.
  - change (1 <? max_retries - 1) with false. rewrite andb_false_r.
    destruct (negb (status_code resp =? 202) && negb (status_code resp =? 200))%bool.
    { exists []. split; [reflexivity | constructor]. }
    match goal with
    | |- context [await_deletion resp 500 ?w1] =>
        destruct (steps_await_deletion (fun rq => rq_method rq = GET)
                    method_get_allows_get resp 500 w1) as (d & Hd & Hall);
        destruct (await_deletion resp 500 w1) as [[r | e] w2]
    end; cbn [fst snd] in *.
    + exists d. split; [rewrite Hd; cbn; rewrite <- app_assoc; reflexivity
                       | exact Hall].
    + exists d. destruct (is_RequestException e);
        (split; [cbn; rewrite Hd; cbn; rewrite <- app_assoc; reflexivity
                | exact Hall]).
  - exists []. destruct (is_RequestException e);
      (split; [reflexivity | constructor]).
Qed.

(** X16.  When the first DELETE of [delete_site] is answered with 401 and
    the re-authentication succeeds, the second DELETE goes to the same URL
    and carries the new token.  The exchanges are then: the lookup, the
    refused DELETE, the token request, the second DELETE, and after it
    nothing but GETs. *)
Theorem retry_carries_the_new_token
    (w : World E) (name : string) (site site_id tok : pyobj)
    (resp : response) :
  (get_site_by_name name w).1 = Returned site ->
  site <> PyNone ->
  item site "id" = Returned site_id ->
  let w1 := looked_up sites_path w in
  let url := base_url (self w) ++ "/dna/intent/api/v1/site/" ++ str site_id in
  let answer := serve (outside w1) (clock w1) (delete_request url (self w)) in
  let w2 := answered w1 (delete_request url (self w)) answer.1 answer.2 in
  outcome answer.2 = Returned resp ->
  status_code resp = 401 ->
  (authenticate w2).1 = Returned tok ->
  exists lookup login rp d,
    new_exchanges w (delete_site name w).2
    = lookup :: (delete_request url (self w), answer.2) :: login
      :: (delete_request url (logged_in (self w) tok), rp) :: d
    /\ lookup.1 = lookup_request sites_path (self w)
    /\ login.1 = token_request (self w)
    /\ Forall (fun x => rq_method x.1 = GET) d.
Proof.
  intros Hsite Hne Hid w1 url answer w2 Hout Hcode Hauth.
  rewrite get_site_by_name_run in Hsite. cbn [fst] in Hsite.
  assert (Htruthy : truthy site = true).
  { destruct (listing sites_path w) as [sites | e0]; [| discriminate Hsite].
    cbn in Hsite.
    destruct (first_site_named_spec name sites site Hsite)
      as [[-> _] | (before & after & _ & Hnamed & _)]; [contradiction |].
    apply (is_named_truthy site name Hnamed). }
  pose proof (self_looked_up sites_path w : self w1 = self w) as Hself1.
  destruct (log_looked_up sites_path w) as (lookup & Hlookup & Hrq).
  fold w1 in Hlookup.
  pose proof (authenticate_stores w2 tok Hauth) as Hself3.
  assert (Hself2 : self w2 = self w) by exact Hself1.
  rewrite Hself2 in Hself3.
  destruct (authenticate_log w2) as (rp_login & Hlog3).
  rewrite Hself2 in Hlog3.
  destruct (attempt_last url (authenticate w2).2) as (rp & d & Hlast & Hgets).
  rewrite Hself3 in Hlast.
  pose proof (attempt_unauthorized url w1 resp tok) as Hfirst.
  cbv zeta in Hfirst. rewrite Hself1 in Hfirst.
  specialize (Hfirst Hout Hcode Hauth).
  assert (Hlog : log (delete_site name w).2
                 = log (delete_site_attempt url 1 (authenticate w2).2).2).
  { unfold delete_site. run. rewrite get_site_by_name_run, Hsite, Htruthy.
    cbn [negb]. rewrite Hid. fold w1. rewrite Hself1. fold url.
    cbn [for_each]. unfold bind, ret. rewrite Hfirst.
    destruct (delete_site_attempt url 1 _) as [[[v |] | e] w4]; reflexivity. }
  exists lookup, (token_request (self w), rp_login), rp, d.
  split; [| split; [exact Hrq | split; [reflexivity | exact Hgets]]].
  apply new_exchanges_app. rewrite Hlog, Hlast, Hlog3.
  subst w2. cbn [log answered]. rewrite Hlookup, <- !app_assoc. reflexivity.
Qed.

End DeletionProperties.

Lemma reservation_failures_are_contained_witness :
  (delete_reservation "Sunset Tower" "ST_CORP"
     (playing [sunset_listed; interrupted])).1 = Raised KeyboardInterrupt
  /\ is_Exception KeyboardInterrupt = false.
Proof.
  assert (Hsite : (get_site_by_name "Sunset Tower"
                     (playing [sunset_listed; interrupted])).1
                  = Returned sunset_tower) by (vm_compute; reflexivity).
  assert (Hraised : (delete_reservation "Sunset Tower" "ST_CORP"
                       (playing [sunset_listed; interrupted])).1
                    = Raised KeyboardInterrupt) by (vm_compute; reflexivity).
  split; [exact Hraised |].
  exact (proj1 (reservation_failures_are_contained
                  (playing [sunset_listed; interrupted])
                  "Sunset Tower" "ST_CORP" sunset_tower Hsite)
           (or_intror (ex_intro _ (PyStr "b-1") eq_refl))
           KeyboardInterrupt (or_intror Hraised)).
Defined.

Lemma retry_carries_the_new_token_witness :
  exists lookup login rp d,
    new_exchanges
      (playing [sunset_listed; token_expired; token_granted; deleted_untracked])
      (delete_site "Sunset Tower"
         (playing [sunset_listed; token_expired; token_granted;
                   deleted_untracked])).2
    = lookup
      :: (delete_request "https://cc/dna/intent/api/v1/site/b-1"
            (self (playing [sunset_listed; token_expired; token_granted;
                            deleted_untracked])), token_expired)
      :: login
      :: (delete_request "https://cc/dna/intent/api/v1/site/b-1"
            (logged_in
               (self (playing [sunset_listed; token_expired; token_granted;
                               deleted_untracked]))
               (PyStr "eyJhbGciOi")), rp)
      :: d
    /\ lookup.1 = lookup_request sites_path
                    (self (playing [sunset_listed; token_expired; token_granted;
                                    deleted_untracked]))
    /\ login.1 = token_request
                   (self (playing [sunset_listed; token_expired; token_granted;
                                   deleted_untracked]))
    /\ Forall (fun x => rq_method x.1 = GET) d.
Proof.
  assert (Hsite : (get_site_by_name "Sunset Tower"
                     (playing [sunset_listed; token_expired; token_granted;
                               deleted_untracked])).1
                  = Returned sunset_tower) by (vm_compute; reflexivity).
  refine (retry_carries_the_new_token
            (playing [sunset_listed; token_expired; token_granted;
                      deleted_untracked])
            "Sunset Tower" sunset_tower (PyStr "b-1") (PyStr "eyJhbGciOi")
            {| status_code := 401; text := "Unauthorized"; resp_json := None |}
            Hsite ltac:(discriminate) eq_refl _ _ _);
    vm_compute; reflexivity.
Defined.

Lemma nothing_is_done_for_what_is_missing_witness :
  delete_site "Sunset Tower" (playing [nothing_listed; deleted_untracked])
  = (Returned PyNone,
     looked_up sites_path (playing [nothing_listed; deleted_untracked]))
  /\ reserve_ip_subpool "Sunset Tower" "ST_CORP" "US_CORP" "10.201.2.0" 24
       (playing [nothing_listed; nothing_listed; accepted_tracked])
     = (Returned PyNone,
        looked_up sites_path
          (looked_up sites_path
             (playing [nothing_listed; nothing_listed; accepted_tracked]))).
Proof.
  split.
  - apply (proj1 (nothing_is_done_for_what_is_missing
                    (playing [nothing_listed; deleted_untracked])
                    "Sunset Tower")).
    vm_compute. reflexivity.
  - assert (Hfirst : (get_site_by_name "Sunset Tower"
                        (playing [nothing_listed; nothing_listed;
                                  accepted_tracked])).1 = Returned PyNone)
      by (vm_compute; reflexivity).
    apply (proj1 (nothing_is_done_for_what_is_missing
                    (playing [nothing_listed; nothing_listed; accepted_tracked])
                    "Sunset Tower") Hfirst).
    vm_compute. reflexivity.
Defined.

(** ** The order of the creation *)

Lemma resource_eqb_eq (r r' : resource) : resource_eqb r r' = true -> r = r'.
Proof.
  destruct r, r'; cbn; try discriminate;
    intros Heq; apply String.eqb_eq in Heq; congruence.
Qed.

Lemma suppliedb_sound (calls : list call) :
  forall (before : list call) (made : list resource),
    suppliedb made calls = true ->
    (forall r, In r made ->
       exists j d, before !! j = Some d /\ creates d = Some r) ->
    forall (i : nat) (c : call) (r : resource),
      calls !! i = Some c -> In r (needs c) ->
      exists (j : nat) (d : call),
        (j < length before + i)%nat
        /\ (before ++ calls)%list !! j = Some d /\ creates d = Some r.
Proof.
  induction calls as [| c0 rest IH]; intros before made Hb Hmade i c r Hi Hr.
  - discriminate Hi.
  - cbn [suppliedb] in Hb. apply andb_prop in Hb as [Hneeds Hrest].
    destruct i as [| i].
    + injection Hi as <-.
      rewrite forallb_forall in Hneeds. specialize (Hneeds r Hr).
      apply existsb_exists in Hneeds as (r' & Hin & Heq).
      apply resource_eqb_eq in Heq. subst r'.
      destruct (Hmade r Hin) as (j & d & Hj & Hd).
      pose proof (lookup_lt_Some _ _ _ Hj) as Hlt.
      exists j, d. split; [lia |]. split; [| exact Hd].
      rewrite lookup_app_l by exact Hlt. exact Hj.
    + cbn in Hi.
      destruct (IH (before ++ [c0])%list (made ++ option_list (creates c0))%list
                  Hrest) with (i := i) (c := c) (r := r)
        as (j & d & Hlt & Hj & Hd); try assumption.
      * intros r' Hin. apply in_app_or in Hin as [Hin | Hin].
        -- destruct (Hmade r' Hin) as (j & d & Hj & Hd).
           exists j, d. split; [| exact Hd].
           rewrite lookup_app_l by exact (lookup_lt_Some _ _ _ Hj). exact Hj.
        -- destruct (creates c0) as [r0 |] eqn:Hc0; [| destruct Hin].
           destruct Hin as [<- | []].
           exists (length before), c0. split; [| exact Hc0].
           rewrite lookup_app_r by lia. rewrite Nat.sub_diag. reflexivity.
      * exists j, d. rewrite length_app in Hlt. cbn in Hlt.
        split; [lia |]. split; [| exact Hd].
        rewrite <- app_assoc in Hj. exact Hj.
Qed.

Lemma supplied_prefix (l1 l2 : list call) :
  l1 `prefix_of` l2 -> supplied l2 -> supplied l1.
Proof.
  intros [k ->] Hs i c r Hi Hr.
  pose proof (lookup_lt_Some _ _ _ Hi) as Hlt.
  destruct (Hs i c r) as (j & d & Hji & Hj & Hd); [| exact Hr |].
  - rewrite lookup_app_l by exact Hlt. exact Hi.
  - exists j, d. split; [exact Hji |]. split; [| exact Hd].
    rewrite lookup_app_l in Hj by lia. exact Hj.
Qed.

(** X17.  Whatever the client does, [create_infrastructure] calls it in an
    order that respects what depends on what: before an area, a building
    or a floor is created, the site named last in its parent path has been
    created (the root "Global" apart), and before a reservation is made,
    its building and its global pool have been. *)
Theorem creation_respects_dependencies {W} (cc : client W) (w : W) :
  supplied (calls_of (create_infrastructure (spy cc)) w).
Proof.
  apply (supplied_prefix _ creation_plan);
    [apply create_infrastructure_calls |].
  intros i c r Hi Hr.
  destruct (suppliedb_sound creation_plan [] [] eq_refl
              ltac:(intros ? []) i c r Hi Hr) as (j & d & Hlt & Hj & Hd).
  exists j, d. auto.
Qed.

(** ** The floors of the teardown *)

Lemma for_all_cons {S A B} (x : A) (xs : list A) (body : A -> M S B) (s : S) :
  for_all (x :: xs) body s =
  match body x s with
  | (Returned _, s1) => for_all xs body s1
  | (Raised e, s1) => (Raised e, s1)
  end.
Proof.
  unfold for_all, mbind, M_bind, bind, mret, M_ret, ret. cbn [for_each].
  unfold bind, ret. destruct (body x s) as [[b | e] s1]; reflexivity.
Qed.

(** The calls of a loop whose every pass adds calls of the shape [Q]. *)
Lemma rounds_of_for_all {W A B} (Q : list call -> Prop)
    (body : M (W * list call) B) :
  (forall s, exists r, (body s).2.2 = (s.2 ++ r)%list /\ Q r) ->
  forall (xs : list A) (s : W * list call),
    exists rounds,
      (for_all xs (fun _ => body) s).2.2 = (s.2 ++ concat rounds)%list
      /\ (length rounds <= length xs)%nat
      /\ Forall Q rounds
      /\ ((forall s', exists v, (body s').1 = Returned v) ->
          length rounds = length xs).
Proof.
  intros Hbody xs. induction xs as [| x xs IH]; intros s.
  - exists []. cbn. rewrite app_nil_r. repeat split; constructor.
  - rewrite for_all_cons. destruct (Hbody s) as (r & Hr & HQ).
    destruct (body s) as [[b | e] s1] eqn:Hrun; cbn [fst snd] in *.
    + destruct (IH s1) as (rounds & Hcalls & Hlen & Hall & Hfull).
      exists (r :: rounds). cbn [concat length].
      split; [rewrite Hcalls, Hr, <- app_assoc; reflexivity |].
      split; [lia |]. split; [constructor; assumption |].
      intros Hreturns. rewrite (Hfull Hreturns). reflexivity.
    + exists [r]. cbn [concat length]. rewrite app_nil_r.
      split; [exact Hr |]. split; [lia |]. split; [repeat constructor; exact HQ |].
      intros Hreturns. destruct (Hreturns s) as [v Hv]. rewrite Hrun in Hv.
      discriminate Hv.
Qed.

Lemma concat_singletons {A} (a : A) (rounds : list (list A)) :
  Forall (fun r => r = [a]) rounds -> concat rounds = replicate (length rounds) a.
Proof.
  induction 1 as [| r rounds -> _ IH]; [reflexivity |].
  cbn. rewrite IH. reflexivity.
Qed.

(** X18.  [delete_floors] makes at most six passes, and in a pass it asks
    for "FLOOR_2" only after a deletion of "FLOOR_1" that returned
    something other than [None].  So once no "FLOOR_1" is left (its
    deletion returns [None]), no "FLOOR_2" is deleted either: the calls
    are six deletions of "FLOOR_1". *)
Theorem floor_2_waits_for_floor_1 {W} (cc : client W) (w : W) :
  (exists rounds,
     calls_of (delete_floors (spy cc)) w = concat rounds
     /\ (length rounds <= 6)%nat
     /\ Forall floor_round rounds)
  /\ ((forall w', (cc_delete_site cc "FLOOR_1" w').1 = Returned PyNone) ->
      calls_of (delete_floors (spy cc)) w = replicate 6 (DeleteSite "FLOOR_1")).
Proof.
  unfold calls_of, delete_floors.
  set (round := for_each floors _).
  split.
  - destruct (rounds_of_for_all (A := nat) floor_round round) with
      (xs := seq 0 6) (s := (w, @nil call))
      as (rounds & Hcalls & Hlen & Hall & _).
    + intros [w0 calls]. subst round. unfold floors, floor_round.
      cbn [for_each spy cc_delete_site].
      unfold bind, ret, try_except, mbind, M_bind, bind, mret, M_ret, ret,
        except_Exception, noting.
      destruct (cc_delete_site cc "FLOOR_1" w0) as [[v | e] w1]; cbn.
      * destruct (is_None v); cbn; [eexists; split; [reflexivity | auto] |].
        destruct (cc_delete_site cc "FLOOR_2" w1) as [[v' | e'] w2]; cbn.
        -- destruct (is_None v'); cbn; rewrite <- app_assoc;
             eexists; split; try reflexivity; auto.
        -- destruct (is_Exception e'); cbn; rewrite <- app_assoc;
             eexists; split; try reflexivity; auto.
      * destruct (is_Exception e); cbn; eexists; split; try reflexivity; auto.
    + exists rounds. split; [exact Hcalls |]. split; [exact Hlen | exact Hall].
  - intros Hnone.
    destruct (rounds_of_for_all (A := nat)
                (fun r => r = [DeleteSite "FLOOR_1"]) round) with
      (xs := seq 0 6) (s := (w, @nil call))
      as (rounds & Hcalls & _ & Hall & Hfull).
    + intros [w0 calls]. subst round. unfold floors.
      cbn [for_each spy cc_delete_site].
      unfold bind, ret, try_except, mbind, M_bind, bind, mret, M_ret, ret,
        except_Exception, noting.
      specialize (Hnone w0).
      destruct (cc_delete_site cc "FLOOR_1" w0) as [[v | e] w1];
        cbn [fst] in Hnone; [| discriminate Hnone].
      injection Hnone as ->. cbn. eexists. split; reflexivity.
    + rewrite Hcalls. cbn [app]. rewrite (concat_singletons _ _ Hall).
      rewrite Hfull; [reflexivity |].
      intros [w0 calls]. subst round. unfold floors.
      cbn [for_each spy cc_delete_site].
      unfold bind, ret, try_except, mbind, M_bind, bind, mret, M_ret, ret,
        except_Exception, noting.
      specialize (Hnone w0).
      destruct (cc_delete_site cc "FLOOR_1" w0) as [[v | e] w1];
        cbn [fst] in Hnone; [| discriminate Hnone].
      injection Hnone as ->. cbn. eexists. reflexivity.
Qed.

(** ** A teardown that does not start *)

(** X19.  Nothing is deleted without the confirmation and a fresh token.
    When the answer at the prompt is anything but "DELETE" (or the prompt
    is interrupted or at its end), [delete_infrastructure] returns 1 and
    has called nothing on its client: the state is the one the prompt
    left.  When "DELETE" is typed and the authentication that follows
    raises an [Exception], it returns 1 in the state that this one call
    left. *)
Theorem teardown_needs_confirmation_and_token {W} (cc : client W)
    (input : string -> M W string) (w : W) :
  (declines (input confirm_prompt w).1 ->
   delete_infrastructure cc input w
   = (Returned (PyInt 1), (input confirm_prompt w).2))
  /\ (forall e,
        (input confirm_prompt w).1 = Returned "DELETE" ->
        (cc_authenticate cc (input confirm_prompt w).2).1 = Raised e ->
        is_Exception e = true ->
        delete_infrastructure cc input w
        = (Returned (PyInt 1),
           (cc_authenticate cc (input confirm_prompt w).2).2)).
Proof.
  unfold delete_infrastructure, confirm_deletion. run. split.
  - destruct (input confirm_prompt w) as [[typed | e] w1]; cbn [fst snd declines].
    + intros Hne. destruct (String.eqb_spec typed "DELETE");
        [contradiction | reflexivity].
    + intros [-> | ->]; reflexivity.
  - intros e.
    destruct (input confirm_prompt w) as [[typed | e0] w1]; cbn [fst snd];
      [| discriminate].
    intros [= ->]. cbn.
    destruct (cc_authenticate cc w1) as [[tok | e1] w2]; cbn [fst snd];
      [discriminate |].
    intros [= ->] ->. reflexivity.
Qed.

Lemma floor_2_waits_for_floor_1_witness :
  calls_of (delete_floors (spy null_client)) tt
  = replicate 6 (DeleteSite "FLOOR_1").
Proof.
  apply (proj2 (floor_2_waits_for_floor_1 null_client tt)).
  intros w'. reflexivity.
Defined.

Lemma teardown_needs_confirmation_and_token_witness :
  delete_infrastructure null_client typing_no tt = (Returned (PyInt 1), tt).
Proof.
  apply (proj1 (teardown_needs_confirmation_and_token null_client typing_no tt)).
  cbn. discriminate.
Defined.

(** ** The status report *)

Lemma falsy_is_no_building (site_type : pyobj) :
  truthy site_type = false -> eq_str site_type "building" = false.
Proof.
  destruct site_type as [| | | | s | |]; cbn; try reflexivity.
  intros Hs. apply negb_false_iff, String.eqb_eq in Hs. subst s. reflexivity.
Qed.

(** Both reports take the same sites for buildings. *)
Lemma is_building_site_type (site t : pyobj) :
  site_type_of site = Returned t ->
  is_building site = Returned (eq_str t "building").
Proof.
  unfold site_type_of, is_building.
  destruct (truthy (type_from_additional_info site)) eqn:Htype; cbn [negb].
  - intros [= <-]. reflexivity.
  - destruct (get site "siteNameHierarchy" (PyStr "")) as [h | e]; cbn;
      [| discriminate].
    destruct (count_slashes h) as [parts | e]; cbn; [| discriminate].
    intros [= <-]. unfold type_by_depth. f_equal.
    destruct (Z.eqb_spec parts 1) as [-> | ?]; [reflexivity |].
    destruct (Z.eqb_spec parts 2) as [-> | ?]; [reflexivity |].
    destruct (Z.eqb_spec parts 3) as [-> | ?]; [reflexivity |].
    destruct (4 <=? parts); [reflexivity |].
    symmetry. apply falsy_is_no_building. exact Htype.
Qed.

(** X20.  The two reports of [check_infrastructure] agree on what a
    building is: on a listing that both get through, the buildings of the
    site report are the buildings that the reservation report queries,
    in the same order, less those named "Global" (which the site report
    skips). *)
Theorem reports_agree_on_buildings (sites : list pyobj) :
  forall (lists : site_lists) (found : list pyobj),
    sites_by_type sites = Returned lists ->
    buildings_among sites = Returned found ->
    listed_buildings lists
    = List.filter (fun site => negb (named_global site)) found.
Proof.
  induction sites as [| site rest IH]; intros lists found;
    cbn [sites_by_type buildings_among].
  - intros [= <-] [= <-]. reflexivity.
  - unfold named_global in *.
    destruct (get site "name" (PyStr "")) as [n | e] eqn:Hname; cbn;
      [| discriminate].
    destruct (eq_str n "Global") eqn:Hglobal.
    + intros Hlists.
      destruct (is_building site) as [b | e]; cbn; [| discriminate].
      destruct (buildings_among rest) as [found' | e]; cbn; [| discriminate].
      intros [= <-]. rewrite (IH lists found' Hlists eq_refl).
      destruct b; [| reflexivity].
      cbn [List.filter]. rewrite Hname, Hglobal. reflexivity.
    + destruct (site_type_of site) as [t | e] eqn:Htype; cbn; [| discriminate].
      rewrite (is_building_site_type site t Htype). cbn.
      destruct (sites_by_type rest) as [lists' | e]; cbn; [| discriminate].
      destruct (buildings_among rest) as [found' | e]; cbn; [| discriminate].
      intros [= <-] [= <-]. specialize (IH lists' found' eq_refl eq_refl).
      destruct t as [| | | | s | |]; cbn; try exact IH.
      destruct (s =? "area")%string eqn:Harea.
      { apply String.eqb_eq in Harea. subst s. exact IH. }
      destruct (s =? "building")%string eqn:Hbuilding.
      { cbn [listed_buildings List.filter]. rewrite Hname, Hglobal. cbn.
        rewrite IH. reflexivity. }
      destruct (s =? "floor")%string; exact IH.
Qed.

Lemma reports_agree_on_buildings_witness :
  listed_buildings (SiteLists [] [sunset_tower] [floor_1_sunset])
  = List.filter (fun site => negb (named_global site)) [sunset_tower].
Proof.
  apply (reports_agree_on_buildings [sunset_tower; floor_1_sunset]);
    vm_compute; reflexivity.
Defined.

Lemma site_type_by_depth (m : gmap string pyobj) (h : string) :
  m !! "additionalInfo" = None ->
  m !! "siteNameHierarchy" = Some (PyStr h) ->
  site_type_of (PyDict m) = Returned (type_by_depth PyNone (count_char "/" h)).
Proof.
  intros Hinfo Hh. unfold site_type_of, type_from_additional_info. cbn.
  rewrite Hinfo. rewrite bool_decide_eq_false_2 by (intros [? [=]]).
  cbn. rewrite Hh. reflexivity.
Qed.

Lemma prefix_of_In {A} (l1 l2 : list A) (x : A) :
  l1 `prefix_of` l2 -> In x l1 -> In x l2.
Proof. intros [k ->] Hin. apply in_or_app. left. exact Hin. Qed.

(** X21.  The status report recognises what the creation made.  On a
    controller that names a site by its parent's path, a slash and its
    name, and for a site listed without [additionalInfo], the depth
    fallback of the site report gives every area, building and floor that
    [create_infrastructure] asks for the type it was created with. *)
Theorem created_sites_are_recognised {W} (cc : client W) (w : W) (c : call)
    (hierarchy type : string) (m : gmap string pyobj) :
  In c (calls_of (create_infrastructure (spy cc)) w) ->
  created_site c = Some (hierarchy, type) ->
  m !! "additionalInfo" = None ->
  m !! "siteNameHierarchy" = Some (PyStr hierarchy) ->
  site_type_of (PyDict m) = Returned (PyStr type).
Proof.
  intros Hin Hc Hinfo Hh. rewrite (site_type_by_depth m hierarchy Hinfo Hh).
  apply (prefix_of_In _ creation_plan) in Hin;
    [| apply create_infrastructure_calls].
  assert (Hall : forallb typed_by_depth creation_plan = true) by reflexivity.
  rewrite forallb_forall in Hall. specialize (Hall c Hin).
  unfold typed_by_depth in Hall. rewrite Hc in Hall.
  destruct (type_by_depth PyNone (count_char "/" hierarchy))
    as [| | | | s | |]; try discriminate Hall.
  apply String.eqb_eq in Hall. subst s. reflexivity.
Qed.

Lemma created_sites_are_recognised_witness :
  site_type_of sunset_tower = Returned (PyStr "building").
Proof.
  apply (created_sites_are_recognised null_client tt
           (CreateBuilding "Sunset Tower"
              "Global/United States/Golden Hills Campus" lat_sunset lon_sunset
              "8358 Sunset Blvd, Los Angeles, CA 90069" "United States")
           "Global/United States/Golden Hills Campus/Sunset Tower" "building").
  - vm_compute. do 9 right. left. reflexivity.
  - reflexivity.
  - vm_compute. reflexivity.
  - vm_compute. reflexivity.
Defined.

Section StatusProperties.
Context {E : Type} `{Outside E}.

Lemma report_listing_contains (path : string) (w : World E) (e : exn) :
  (report_listing path w).1 = Raised e -> is_Exception e = false.
Proof. apply try_except_contains. Qed.

Lemma report_reservations_contains (w : World E) (e : exn) :
  (report_reservations w).1 = Raised e -> is_Exception e = false.
Proof. apply try_except_contains. Qed.

Lemma steps_check_infrastructure_same_self :
  steps same_self (check_infrastructure (E := E)).
Proof.
  unfold check_infrastructure, report_listing, report_reservations,
    report_building.
  steps_method; steps_close.
Qed.

(** X22.  The status check reads and does not write: every request of
    [check_infrastructure] is a GET, the client object is left as it was,
    and no [Exception] leaves it, so it returns 0 whatever the controller
    answers (unless it is interrupted). *)
Theorem status_is_read_only (w : World E) :
  Forall (fun x => rq_method x.1 = GET)
    (new_exchanges w (check_infrastructure w).2)
  /\ self (check_infrastructure w).2 = self w
  /\ ((check_infrastructure w).1 = Returned (PyInt 0)
      \/ exists e, (check_infrastructure w).1 = Raised e
                   /\ is_Exception e = false).
Proof.
  split; [| split].
  - destruct (steps_check_infrastructure (fun rq => rq_method rq = GET)
                method_get_allows_get w) as (d & Hd & Hall).
    rewrite (new_exchanges_app _ _ d Hd). exact Hall.
  - apply steps_check_infrastructure_same_self.
  - unfold check_infrastructure, mbind, M_bind, bind, mret, M_ret, ret.
    pose proof (report_listing_contains "/dna/intent/api/v1/global-pool" w)
      as H1.
    destruct (report_listing "/dna/intent/api/v1/global-pool" w)
      as [[[] | e1] w1]; cbn [fst snd] in *; [| right; eauto].
    pose proof (report_listing_contains "/dna/intent/api/v1/site" w1) as H2.
    destruct (report_listing "/dna/intent/api/v1/site" w1)
      as [[[] | e2] w2]; cbn [fst snd] in *; [| right; eauto].
    pose proof (report_reservations_contains w2) as H3.
    destruct (report_reservations w2) as [[[] | e3] w3]; cbn [fst snd] in *;
      [left; reflexivity | right; eauto].
Qed.

End StatusProperties.

(** ** Loading the credentials *)

Section CredentialProperties.
Context {E : Type} {H : Outside E}.

Lemma read_credentials_some (config : pyobj) (c : credentials) :
  read_credentials (E := E) config = Returned (Some c) ->
  exists m ip,
    config = PyDict m
    /\ m !! "CC_IP" = Some ip
    /\ m !! "CC_USERNAME" = Some (cfg_username c)
    /\ m !! "CC_PASSWORD" = Some (cfg_password c)
    /\ cfg_base_url c = "https://" ++ str ip
    /\ cfg_verify_ssl c
       = negb (truthy (default (PyBool true) (m !! "CC_INSECURE"))).
Proof.
  unfold read_credentials.
  destruct config as [| | | | s | l | m]; cbn; try discriminate.
  - destruct (_ && _ && _)%bool; cbn; discriminate.
  - destruct (_ && _ && _)%bool; cbn; discriminate.
  - destruct (m !! "CC_IP") as [ip |] eqn:Hip; cbn; [| discriminate].
    destruct (m !! "CC_USERNAME") as [user |] eqn:Huser; cbn; [| discriminate].
    destruct (m !! "CC_PASSWORD") as [pass |] eqn:Hpass; cbn; [| discriminate].
    intros [= <-]. exists m, ip. cbn.
    repeat split; first [assumption | reflexivity].
Qed.

Lemma first_existing_some (e : E) (paths : list string) (c : credentials) :
  first_existing e paths = Returned (Some c) ->
  exists p config,
    In p paths /\ read_yaml e p = Parsed config
    /\ read_credentials (E := E) config = Returned (Some c).
Proof.
  induction paths as [| p rest IH]; cbn [first_existing]; [discriminate |].
  destruct (read_yaml e p) as [| ex | config] eqn:Hfile.
  - intros Hrest. destruct (IH Hrest) as (p' & config & Hin & Hp & Hc).
    exists p', config. split; [right; exact Hin | split; assumption].
  - destruct (is_Exception ex); discriminate.
  - destruct (read_credentials config) as [c' | ex] eqn:Hc.
    + intros [= ->]. exists p, config. split; [left; reflexivity | auto].
    + destruct (is_Exception ex); discriminate.
Qed.

Lemma first_existing_raises (e : E) (paths : list string) (ex : exn) :
  first_existing e paths = Raised ex -> is_Exception ex = false.
Proof.
  induction paths as [| p rest IH]; cbn [first_existing]; [discriminate |].
  destruct (read_yaml e p) as [| ex' | config].
  - exact IH.
  - destruct (is_Exception ex') eqn:He; [discriminate |].
    intros [= <-]. exact He.
  - destruct (read_credentials config) as [c' | ex']; [discriminate |].
    destruct (is_Exception ex') eqn:He; [discriminate |].
    intros [= <-]. exact He.
Qed.


(** X24.  The file at the given path decides when it exists: the copy in
    the script's directory is read only when there is no file at the given
    path.  So two file systems that hold the same file at the given path
    load the same credentials, whatever else they hold. *)
Theorem first_existing_file_decides
    (files files' : E -> string -> file_outcome) (path : string) (w : World E) :
  files (outside w) path = files' (outside w) path ->
  files (outside w) path <> Absent ->
  @load_credentials_from_yaml E (with_files H files) path w
  = @load_credentials_from_yaml E (with_files H files') path w.
Proof.
  intros Hsame Hexists. unfold load_credentials_from_yaml.
  cbn [first_existing].
  change (@read_yaml E (with_files H files) (outside w) path)
    with (files (outside w) path).
  change (@read_yaml E (with_files H files') (outside w) path)
    with (files' (outside w) path).
  change (@read_credentials E (with_files H files'))
    with (@read_credentials E (with_files H files)).
  rewrite <- Hsame.
  destruct (files (outside w) path) as [| ex | config];
    [contradiction | reflexivity | reflexivity].
Qed.

End CredentialProperties.

Lemma first_existing_file_decides_witness :
  @load_credentials_from_yaml playback
    (with_files playback_outside
       (fun _ => only_file "CC_Env.yml" (PyList []))) "CC_Env.yml" (playing [])
  = @load_credentials_from_yaml playback
      (with_files playback_outside (fun _ _ => Parsed (PyList [])))
      "CC_Env.yml" (playing []).
Proof.
  apply (@first_existing_file_decides playback playback_outside);
    [reflexivity | discriminate].
Defined.

(** ** The first request of a run *)

Section MainProperties.
Context {E : Type} `{Outside E}.

(** X25.  [main] sends nothing without credentials, and with them its
    first request is the token request: a POST to the token endpoint
    under the loaded base URL, with the loaded user name and password as
    HTTP Basic credentials.  When that authentication raises an
    [Exception], nothing else is sent and [main] returns 1. *)
Theorem main_logs_in_first (w : World E) (action path : string) :
  ((load_credentials_from_yaml path w).1 = Returned None ->
   main action path w = (Returned (PyInt 1), w))
  /\ (forall c,
        (load_credentials_from_yaml path w).1 = Returned (Some c) ->
        exists rp d,
          new_exchanges w (main action path w).2
          = (token_request (new_client (cfg_base_url c) (cfg_username c)
                              (cfg_password c)), rp) :: d
          /\ (forall e,
                (authenticate (booted c w)).1 = Raised e ->
                is_Exception e = true ->
                d = [] /\ (main action path w).1 = Returned (PyInt 1))).
Proof.
  split.
  - intros Hload. rewrite main_run, Hload. reflexivity.
  - intros c Hload. rewrite main_run, Hload, main_with_config_run.
    destruct (authenticate_log (booted c w)) as (rp & Hd1).
    cbn [self booted log] in Hd1.
    exists rp.
    destruct (authenticate (booted c w)) as [[tok | e] w1]; cbn [fst snd] in *.
    + assert (Hrun : exists d2, log (run_action action w1).2
                                = (log w1 ++ d2)%list).
      { unfold run_action.
        destruct (action =? "create")%string.
        { destruct (steps_create_all w1) as (d2 & Hd2 & _). eauto. }
        destruct (action =? "delete")%string.
        { destruct (steps_delete_all w1) as (d2 & Hd2 & _). eauto. }
        destruct (action =? "status")%string.
        { destruct (steps_check_all w1) as (d2 & Hd2 & _). eauto. }
        exists []. cbn. rewrite app_nil_r. reflexivity. }
      destruct Hrun as (d2 & Hd2). exists d2. split.
      * apply new_exchanges_app. rewrite Hd2, Hd1, <- app_assoc. reflexivity.
      * intros e [=].
    + exists []. split.
      * apply new_exchanges_app.
        destruct (is_Exception e); cbn [snd]; exact Hd1.
      * intros e' [= <-] ->. split; reflexivity.
Qed.

End MainProperties.



Lemma main_logs_in_first_witness :
  (main "create" "CC_Env.yml"
     (fresh_world (Playback [unauthorized; nothing_listed] [] lab_files))).1
  = Returned (PyInt 1).
Proof.
  assert (Hload : (load_credentials_from_yaml "CC_Env.yml"
                     (fresh_world (Playback [unauthorized; nothing_listed] []
                                     lab_files))).1
                  = Returned (Some lab_credentials))
    by (vm_compute; reflexivity).
  destruct (proj2 (main_logs_in_first
                     (fresh_world (Playback [unauthorized; nothing_listed] []
                                     lab_files))
                     "create" "CC_Env.yml") lab_credentials Hload)
    as (rp & d & _ & Hfails).
  apply (Hfails HTTPError); [vm_compute; reflexivity | reflexivity].
Defined.
(** ** The gateway of a reservation *)

Lemma rcut_none (sep : ascii) (s : string) :
  count_char sep s = 0 -> rcut sep s = None.
Proof.
  induction s as [| c s IH]; [reflexivity |]. cbn [count_char rcut].
  pose proof (count_char_nonneg sep s).
  destruct (Ascii.eqb c sep); [lia |]. intros Hs. rewrite IH by lia.
  reflexivity.
Qed.

Lemma rcut_some (sep : ascii) (s p q : string) :
  rcut sep s = Some (p, q) ->
  s = p ++ String sep q /\ count_char sep q = 0.
Proof.
  revert p. induction s as [| c s IH]; intros p; [discriminate |].
  cbn [rcut]. destruct (rcut sep s) as [[h t] |] eqn:Hcut.
  - intros [= <- <-]. destruct (IH h eq_refl) as [-> Hq].
    split; [reflexivity | exact Hq].
  - destruct (Ascii.eqb_spec c sep) as [-> | _]; [| discriminate].
    intros [= <- <-]. split; [reflexivity |].
    clear IH. induction s as [| c s IH]; [reflexivity |].
    cbn [rcut count_char] in *.
    destruct (rcut sep s) as [[h t] |]; [discriminate |].
    destruct (Ascii.eqb c sep); [discriminate |]. rewrite IH by reflexivity.
    reflexivity.
Qed.

(** X26.  The gateway of a reservation is its subnet with what follows the
    last dot replaced by "1", and the subnet with ".1" appended when it
    has no dot.  Computing it again changes nothing. *)
Theorem gateway_is_the_first_host (subnet : string) :
  (exists p,
     gateway_of subnet = p ++ ".1"
     /\ ((subnet = p /\ count_char "." subnet = 0)
         \/ exists q, subnet = p ++ "." ++ q /\ count_char "." q = 0))
  /\ gateway_of (gateway_of subnet) = gateway_of subnet.
Proof.
  assert (Hshape : exists p,
             gateway_of subnet = p ++ ".1"
             /\ ((subnet = p /\ count_char "." subnet = 0)
                 \/ exists q, subnet = p ++ "." ++ q /\ count_char "." q = 0)).
  { unfold gateway_of, rsplit1.
    destruct (rcut "." subnet) as [[p q] |] eqn:Hcut.
    - destruct (rcut_some "." subnet p q Hcut) as [Hs Hq].
      exists p. split; [reflexivity |]. right. exists q. split; assumption.
    - exists subnet. split; [reflexivity |]. left. split; [reflexivity |].
      induction subnet as [| c s IH]; [reflexivity |].
      cbn [rcut count_char] in *.
      destruct (rcut "." s) as [[h t] |]; [discriminate |].
      destruct (Ascii.eqb c "."); [discriminate |]. rewrite IH by reflexivity.
      reflexivity. }
  split; [exact Hshape |].
  destruct Hshape as (p & -> & _).
  apply (gateway_of_dotted p "1"). reflexivity.
Qed.

(** ** A creation that is followed by its status URL only *)

Section FallbackProperties.
Context {E : Type} `{Outside E}.

(** X27.  When the answer to the POST of [create_ip_pool] names no
    [executionId] but an [executionStatusUrl], the status is asked for
    once, two seconds later, at the base URL followed by that text, and
    not polled: a status that is not "SUCCESS" at that moment, a task
    still in progress included, makes [create_ip_pool] return [None]
    right after that one request. *)
Theorem fallback_asks_once
    (w : World E) (name cidr task_url : string) (payload : pyobj)
    (response status_resp : response) (result status : gmap string pyobj) :
  (get_global_pool_by_name name w).1 = Returned PyNone ->
  pool_payload name cidr = Returned payload ->
  outcome (post_answer pools_path payload (looked_up pools_path w))
  = Returned response ->
  raise_for_status response = Returned tt ->
  resp_json response = Some (PyDict result) ->
  truthy (default PyNone (result !! "executionId")) = false ->
  result !! "executionStatusUrl" = Some (PyStr task_url) ->
  task_url <> "" ->
  let w2 := slept 2000 (posted pools_path payload (looked_up pools_path w)) in
  let ask := lookup_request task_url (self w) in
  let answer := serve (outside w2) (clock w2) ask in
  outcome answer.2 = Returned status_resp ->
  resp_json status_resp = Some (PyDict status) ->
  eq_str (default PyNone (status !! "status")) "SUCCESS" = false ->
  create_ip_pool name cidr w
  = (Returned PyNone, answered w2 ask answer.1 answer.2).
Proof.
  intros Habsent Hpayload Hpost Hok Hjson Hid Hurl Hne w2 ask answer
    Hout Hstatus Hfail.
  rewrite (create_ip_pool_absent name cidr payload w Habsent Hpayload).
  cbv zeta. rewrite Hpost.
  assert (Hself : self (posted pools_path payload (looked_up pools_path w))
                  = self w) by (rewrite self_posted; apply self_looked_up).
  unfold pool_posted. run. rewrite Hok. unfold response_json. rewrite Hjson.
  cbn. rewrite Hid, Hurl. cbn.
  destruct (String.eqb_spec task_url ""); [contradiction |]. cbn.
  rewrite Hself. fold (lookup_request task_url (self w)). fold ask.
  change (serve _ _ ask) with answer.
  destruct answer as [e' rp]. cbn [fst snd] in *. rewrite Hout. cbn.
  rewrite Hstatus. cbn. rewrite Hfail. subst w2. rewrite <- Hself.
  reflexivity.
Qed.

End FallbackProperties.

Lemma fallback_asks_once_witness :
  (create_ip_pool "US_CORP" "10.201.0.0/16"
     (playing [nothing_listed; accepted_with_url; in_progress; us_corp_listed])).1
  = Returned PyNone.
Proof.
  rewrite (fallback_asks_once
             (playing [nothing_listed; accepted_with_url; in_progress;
                       us_corp_listed])
             "US_CORP" "10.201.0.0/16" "/dna/platform/management/execution/e1"
             us_corp_payload
             {| status_code := 202; text := "{...}";
                resp_json := Some (PyDict {[
                  "executionStatusUrl" :=
                    PyStr "/dna/platform/management/execution/e1" ]}) |}
             {| status_code := 200; text := "{...}";
                resp_json := Some (PyDict {[ "status" := PyStr "IN_PROGRESS" ]}) |}
             {[ "executionStatusUrl" :=
                  PyStr "/dna/platform/management/execution/e1" ]}
             {[ "status" := PyStr "IN_PROGRESS" ]});
    [reflexivity | vm_compute; reflexivity .. | discriminate
    | vm_compute; reflexivity | vm_compute; reflexivity
    | vm_compute; reflexivity].
Defined.

(** ** What a creation sends *)

Section CreationTraces.
Context {E : Type} `{Outside E}.

(** A POST followed by a computation that only sends GETs. *)
Lemma posted_then_gets {A} (w : World E) (path : string) (payload : pyobj)
    (k : response -> M (World E) A) :
  (forall resp, steps (grows (fun rq => rq_method rq = GET)) (k resp)) ->
  exists rp gets,
    log (bind (requests_post (base_url (self w) ++ path) (headers (self w))
                 payload false 30) k w).2
    = (log w ++ (post_request path (self w) payload, rp) :: gets)%list
    /\ Forall (fun x => rq_method x.1 = GET) gets.
Proof.
  intros Hk. unfold bind, requests_post, send.
  fold (post_request path (self w) payload).
  destruct (serve _ _ _) as [e' rp]. exists rp. cbn [fst snd].
  destruct (outcome rp) as [resp | e].
  - match goal with
    | |- context [k resp ?w1] =>
        destruct (Hk resp w1) as (gets & Hlog & Hgets)
    end.
    exists gets. split; [| exact Hgets].
    rewrite Hlog. cbn [log]. rewrite <- app_assoc. reflexivity.
  - exists []. split; [reflexivity | constructor].
Qed.

Lemma creation_trace_of_log (w : World E) (path : string) (payload : pyobj)
    (w' : World E) :
  log w' = log (looked_up path w)
  \/ (exists rp gets,
        log w' = (log (looked_up path w)
                  ++ (post_request path (self w) payload, rp) :: gets)%list
        /\ Forall (fun x => rq_method x.1 = GET) gets) ->
  creation_trace (self w) path payload (new_exchanges w w').
Proof.
  destruct (log_looked_up path w) as (lookup & Hlookup & Hrq).
  intros [Hlog | (rp & gets & Hlog & Hgets)].
  - exists lookup, []. split; [| split; [exact Hrq | left; reflexivity]].
    apply new_exchanges_app. rewrite Hlog. exact Hlookup.
  - exists lookup, ((post_request path (self w) payload, rp) :: gets).
    split; [| split; [exact Hrq | right; eauto]].
    apply new_exchanges_app. rewrite Hlog, Hlookup, <- app_assoc. reflexivity.
Qed.

(** X28.  What a creation sends.  The exchanges of [create_area],
    [create_building], [create_floor] and [create_ip_pool] are: the lookup
    of the sites (of the pools), and then either nothing more or the POST
    of the method's payload to the same URL, followed by nothing but
    GETs. *)
Theorem what_a_creation_sends (w : World E) (name : string) :
  (forall parent,
     creation_trace (self w) sites_path (area_payload name parent)
       (new_exchanges w (create_area name parent w).2))
  /\ (forall parent latitude longitude address country,
        creation_trace (self w) sites_path
          (building_payload name parent latitude longitude address country)
          (new_exchanges w
             (create_building name parent latitude longitude address country
                w).2))
  /\ (forall parent number,
        creation_trace (self w) sites_path (floor_payload name parent number)
          (new_exchanges w (create_floor name parent number w).2))
  /\ (forall cidr payload,
        pool_payload name cidr = Returned payload ->
        creation_trace (self w) pools_path payload
          (new_exchanges w (create_ip_pool name cidr w).2)).
Proof.
  pose proof method_get_allows_get as Hget.
  pose proof (self_looked_up sites_path w) as Hself.
  pose proof (self_looked_up pools_path w) as Hself'.
  split; [| split; [| split]].
  - intros parent. apply creation_trace_of_log.
    remember (create_area name parent w) as ran eqn:Hran.
    unfold create_area, mbind, M_bind in Hran. unfold bind at 1 in Hran.
    rewrite get_site_by_name_run in Hran.
    destruct (listing sites_path w ≫= first_site_named name)
      as [existing | e]; [| subst ran; left; reflexivity].
    destruct (truthy existing); [subst ran; left; reflexivity |]. right.
    unfold bind at 1, get_self in Hran. cbv zeta in Hran.
    fold (area_payload name parent) in Hran. subst ran.
    rewrite <- Hself.
    apply (posted_then_gets (looked_up sites_path w) sites_path).
    intros resp. steps_method; steps_close.
  - intros parent latitude longitude address country.
    apply creation_trace_of_log.
    remember (create_building name parent latitude longitude address country w)
      as ran eqn:Hran.
    unfold create_building, mbind, M_bind in Hran. unfold bind at 1 in Hran.
    rewrite get_site_by_name_run in Hran.
    destruct (listing sites_path w ≫= first_site_named name)
      as [existing | e]; [| subst ran; left; reflexivity].
    destruct (truthy existing); [subst ran; left; reflexivity |]. right.
    unfold bind at 1, get_self in Hran. cbv zeta in Hran.
    fold (building_payload name parent latitude longitude address country)
      in Hran.
    subst ran. rewrite <- Hself.
    apply (posted_then_gets (looked_up sites_path w) sites_path).
    intros resp. steps_method; steps_close.
  - intros parent number. apply creation_trace_of_log.
    remember (create_floor name parent number w) as ran eqn:Hran.
    unfold create_floor, mbind, M_bind in Hran. unfold bind at 1 in Hran.
    rewrite get_site_by_name_and_parent_run in Hran.
    destruct (listing sites_path w ≫= first_site_under name parent)
      as [existing | e]; [| subst ran; left; reflexivity].
    destruct (truthy existing); [subst ran; left; reflexivity |]. right.
    unfold post_floor, mbind, M_bind in Hran.
    unfold bind at 1, get_self in Hran. cbv zeta in Hran.
    fold (floor_payload name parent number) in Hran. subst ran.
    rewrite <- Hself.
    apply (posted_then_gets (looked_up sites_path w) sites_path).
    intros resp. steps_method; steps_close.
  - intros cidr payload Hpayload. apply creation_trace_of_log.
    remember (create_ip_pool name cidr w) as ran eqn:Hran.
    unfold create_ip_pool, mbind, M_bind in Hran. unfold bind at 1 in Hran.
    rewrite get_global_pool_by_name_run in Hran.
    destruct (listing pools_path w ≫= first_pool_named name)
      as [existing | e]; [| subst ran; left; reflexivity].
    destruct (truthy existing); [subst ran; left; reflexivity |]. right.
    unfold bind at 1, lift in Hran. rewrite Hpayload in Hran.
    unfold bind at 1, get_self in Hran. cbv zeta in Hran. subst ran.
    rewrite <- Hself'.
    apply (posted_then_gets (looked_up pools_path w) pools_path).
    intros resp. apply steps_pool_posted. exact Hget.
Qed.

End CreationTraces.

(** ** What a reservation posts *)

Lemma first_pool_named_spec (pool_name : string) (pools : list pyobj)
    (p : pyobj) :
  first_pool_named pool_name pools = Returned p ->
  p = PyNone
  \/ exists n, get p "ipPoolName" PyNone = Returned n
               /\ eq_str n pool_name = true.
Proof.
  induction pools as [| pool rest IH]; cbn [first_pool_named].
  - intros [= <-]. left. reflexivity.
  - destruct (get pool "ipPoolName" PyNone) as [n |] eqn:Hn; cbn;
      [| discriminate].
    destruct (eq_str n pool_name) eqn:Heq; [| exact IH].
    intros [= <-]. right. exists n. auto.
Qed.

Section ReservationProperties.
Context {E : Type} `{Outside E}.

Lemma steps_get_reservation_by_name_same_self
    (site_name reservation_name : string) :
  steps same_self (get_reservation_by_name (E := E) site_name reservation_name).
Proof.
  unfold get_reservation_by_name, get_site_by_name. steps_method; steps_close.
Qed.


End ReservationProperties.


(** ** A reservation that is found *)

Lemma first_reservation_named_spec (reservation_name : string)
    (reservations : list pyobj) (r : pyobj) :
  first_reservation_named reservation_name reservations = Returned r ->
  r = PyNone
  \/ (In r reservations
      /\ exists n, get r "groupName" PyNone = Returned n
                   /\ eq_str n reservation_name = true).
Proof.
  induction reservations as [| res rest IH]; cbn [first_reservation_named].
  - intros [= <-]. left. reflexivity.
  - destruct (get res "groupName" PyNone) as [n |] eqn:Hn; cbn;
      [| discriminate].
    destruct (eq_str n reservation_name) eqn:Heq.
    + intros [= <-]. right. split; [left; reflexivity | exists n; auto].
    + intros Hrest. destruct (IH Hrest) as [-> | [Hin Hn']];
        [left; reflexivity | right; split; [right; exact Hin | exact Hn']].
Qed.

Lemma named_reservation_truthy (r n : pyobj) (name : string) :
  get r "groupName" PyNone = Returned n -> eq_str n name = true ->
  truthy r = true.
Proof.
  destruct r as [| | | | | | m]; try discriminate. cbn.
  intros [= Hn] Heq.
  destruct (m !! "groupName") as [v |] eqn:Hv;
    [| cbn in Hn; subst n; discriminate Heq].
  destruct (Nat.eqb_spec (size m) 0) as [Hsize |]; [| reflexivity].
  apply map_size_empty_inv in Hsize. subst m.
  rewrite lookup_empty in Hv. discriminate Hv.
Qed.

Section FoundReservation.
Context {E : Type} `{Outside E}.

(** X30.  A reservation that is found is not made again.  What
    [get_reservation_by_name] returns, when it is not [None], is a
    reservation whose ["groupName"] is the name asked for, listed in the
    answer, of status 200, to the GET of
    [<base_url>/dna/intent/api/v1/reserve-ip-subpool?siteId=<id>] for the
    ["id"] of a site of the name asked for; the lookup of the sites and
    this GET are all that is sent.  [reserve_ip_subpool] then returns this
    reservation and sends nothing more. *)
Theorem found_reservation_is_kept
    (w : World E) (site_name reservation_name : string) (r : pyobj) :
  (get_reservation_by_name site_name reservation_name w).1 = Returned r ->
  r <> PyNone ->
  (exists n, get r "groupName" PyNone = Returned n
             /\ eq_str n reservation_name = true)
  /\ (exists site site_id lookup asked resp,
        is_named site site_name /\ item site "id" = Returned site_id
        /\ new_exchanges w
             (get_reservation_by_name site_name reservation_name w).2
           = [lookup; asked]
        /\ lookup.1 = lookup_request sites_path (self w)
        /\ asked.1
           = lookup_request
               ("/dna/intent/api/v1/reserve-ip-subpool?siteId="
                ++ str site_id) (self w)
        /\ outcome asked.2 = Returned resp /\ status_code resp = 200)
  /\ (forall parent_pool subnet prefix_length,
        reserve_ip_subpool site_name reservation_name parent_pool subnet
          prefix_length w
        = (Returned r,
           (get_reservation_by_name site_name reservation_name w).2)).
Proof.
  intros Hret Hnot.
  assert (Hkept : truthy r = true ->
            forall parent_pool subnet prefix_length,
              reserve_ip_subpool site_name reservation_name parent_pool subnet
                prefix_length w
              = (Returned r,
                 (get_reservation_by_name site_name reservation_name w).2)).
  { intros Htruthy parent_pool subnet prefix_length.
    unfold reserve_ip_subpool, mbind, M_bind. unfold bind at 1.
    destruct (get_reservation_by_name site_name reservation_name w)
      as [[existing | e] w']; cbn [fst snd] in *; [| discriminate Hret].
    injection Hret as ->. rewrite Htruthy. reflexivity. }
  remember (get_reservation_by_name site_name reservation_name w) as ran
    eqn:Hran.
  unfold get_reservation_by_name, mbind, M_bind in Hran.
  unfold bind at 1 in Hran. rewrite get_site_by_name_run in Hran.
  destruct (log_looked_up sites_path w) as (x1 & Hx1 & Hrq1).
  pose proof (self_looked_up sites_path w) as Hself1.
  set (w1 := looked_up sites_path w) in *.
  destruct (listing sites_path w) as [sites | e] eqn:Hsites;
    [| subst ran; discriminate Hret].
  change (Returned sites ≫= first_site_named site_name)
    with (first_site_named site_name sites) in Hran.
  destruct (first_site_named site_name sites) as [site | e] eqn:Hsite;
    [| subst ran; discriminate Hret].
  destruct (truthy site) eqn:Htruthy; cbn [negb] in Hran;
    [| subst ran; cbn in Hret; congruence].
  assert (Hnamed : is_named site site_name).
  { destruct (first_site_named_spec site_name sites site Hsite)
      as [[-> _] | (before & after & _ & Hn & _)]; [discriminate | exact Hn]. }
  unfold bind at 1, lift at 1 in Hran.
  destruct (item site "id") as [site_id | e] eqn:Hid;
    [| subst ran; discriminate Hret].
  unfold try_except in Hran. unfold bind at 1, get_self at 1 in Hran.
  cbv zeta in Hran. unfold bind at 1, requests_get, send in Hran.
  rewrite Hself1 in Hran.
  fold (lookup_request
          ("/dna/intent/api/v1/reserve-ip-subpool?siteId=" ++ str site_id)
          (self w)) in Hran.
  set (rq := lookup_request _ (self w)) in Hran.
  destruct (serve _ _ _) as [e' rp] eqn:Hserve.
  destruct (outcome rp) as [resp | e] eqn:Hout.
  2:{ destruct e; subst ran; cbn in Hret; congruence. }
  destruct (status_code resp =? 200) eqn:Hstatus.
  2:{ subst ran; cbn in Hret; congruence. }
  apply Z.eqb_eq in Hstatus.
  assert (Hfound : exists reservations,
             first_reservation_named reservation_name reservations
             = Returned r
             /\ ran.2 = {| outside := e';
                           clock := clock w1 + Z.of_N (elapsed rp);
                           log := (log w1 ++ [(rq, rp)])%list;
                           self := self w |}).
  { unfold bind, lift, except_Exception in Hran.
    destruct (response_json resp) as [body | e];
      [| destruct e; subst ran; cbn in Hret; congruence].
    destruct (get body "response" (PyList [])) as [found | e];
      [| destruct e; subst ran; cbn in Hret; congruence].
    destruct (iter found) as [reservations | e];
      [| destruct e; subst ran; cbn in Hret; congruence].
    exists reservations.
    destruct (first_reservation_named reservation_name reservations)
      as [res | e]; [| destruct e; subst ran; cbn in Hret; congruence].
    subst ran. cbn in Hret. injection Hret as ->. split; reflexivity. }
  destruct Hfound as (reservations & Hfirst & Hworld).
  destruct (first_reservation_named_spec _ _ _ Hfirst)
    as [-> | (_ & n & Hn & Heq)]; [contradiction |].
  split; [exists n; auto |]. split.
  - exists site, site_id, x1, (rq, rp), resp.
    repeat split; try assumption.
    apply new_exchanges_app. rewrite Hworld. cbn [log].
    rewrite Hx1, <- app_assoc. reflexivity.
  - apply Hkept. exact (named_reservation_truthy r n reservation_name Hn Heq).
Qed.

End FoundReservation.

Lemma found_reservation_is_kept_witness :
  reserve_ip_subpool "Sunset Tower" "ST_CORP" "US_CORP" "10.201.2.0" 24
    (playing [sunset_listed; st_corp_reserved])
  = (Returned st_corp,
     (get_reservation_by_name "Sunset Tower" "ST_CORP"
        (playing [sunset_listed; st_corp_reserved])).2).
Proof.
  apply (found_reservation_is_kept
           (playing [sunset_listed; st_corp_reserved])
           "Sunset Tower" "ST_CORP" st_corp);
    [vm_compute; reflexivity | discriminate].
Defined.
